(** * The feedback record store of [scripts/feedback_system.py]

    A shallow embedding of class [FeedbackSystem]: JSON values as an
    inductive type, Python dictionaries as insertion-ordered association
    lists, the backing directory tree as a finite map from sub-directory
    names to directory listings, and the operations of the class as
    functions that pass the tree explicitly.  The module-level helpers,
    the [update] and [import] commands of [main] and the [update] command
    of [feedback_cli.py] are embedded on top of the class; what a command
    prints is the list of the strings handed to [print].

    Conventions of the embedding:
    - Python's [None] and JSON [null] are the same value, [JNull].
    - [datetime.now().isoformat()] and [uuid.uuid4()] are inputs of the
      operations that call them (one argument per call in the source).
    - JSON numbers are integers; values handed to [json.dump] are JSON
      values, so a dump followed by a load is the identity.
    - A directory listing is an association list: its order is the order
      [os.listdir] yields, which the file system leaves unspecified, so it is
      part of the state.
    - The tree is addressed by names, the entry [name] of the directory
      [t], where the source joins a path.  The two agree when [t] and [name]
      are single path components.  A string with a path separator in it,
      and as a directory one of [""], ["."] and [".."], leads the source to
      another place, which this model does not follow: a statement about
      an arbitrary id, type or imported document carries the hypothesis
      that it is plain ([plain_id], [plain_component], [plain_document]).
    - Floating-point numbers are not computed here: the cleanup takes the
      floats of the source and the operations it applies to them as a
      parameter ([float_ops]) and assumes nothing about them.
    - Log calls have no effect on the state and are left out. *)

From Stdlib Require Import ZArith String Ascii OrderedTypeEx.
From stdpp Require Import gmap strings list fin_maps pretty sorting.

Open Scope string_scope.

(** ** Python outcomes *)

Inductive exn :=
| TypeError | KeyError | AttributeError | ValueError | OSError | OverflowError.

Inductive result (A : Type) :=
| Ret (a : A)
| Raise (e : exn).
Arguments Ret {A} a.
Arguments Raise {A} e.

Definition bind {A B} (r : result A) (k : A -> result B) : result B :=
  match r with
  | Ret a => k a
  | Raise e => Raise e
  end.

Notation "x <- r ;; k" := (bind r (fun x => k))
  (at level 100, r at next level, right associativity).

(** ** JSON values and Python dictionaries *)

Unset Elimination Schemes.
Inductive json :=
| JNull
| JBool (b : bool)
| JNum (n : Z)
| JStr (s : string)
| JArr (l : list json)
| JObj (kv : list (string * json)).
Set Elimination Schemes.

Section assoc.
Context {V : Type}.

(** [d.get(k)] on a dictionary, [None] when the key is absent. *)
Fixpoint assoc_get (l : list (string * V)) (k : string) : option V :=
  match l with
  | [] => None
  | (k', v) :: r => if String.eqb k' k then Some v else assoc_get r k
  end.

(** [d[k] = v]: an existing key keeps its place, a new key goes last. *)
Fixpoint assoc_set (l : list (string * V)) (k : string) (v : V)
  : list (string * V) :=
  match l with
  | [] => [(k, v)]
  | (k', v') :: r =>
      if String.eqb k' k then (k, v) :: r else (k', v') :: assoc_set r k v
  end.

(** Removal of a key (used for [os.remove] on a directory listing). *)
Fixpoint assoc_del (l : list (string * V)) (k : string)
  : list (string * V) :=
  match l with
  | [] => []
  | (k', v') :: r =>
      if String.eqb k' k then r else (k', v') :: assoc_del r k
  end.
End assoc.

(** Python truth value of a JSON value ([if x:], [not x]). *)
Definition truthy (v : json) : bool :=
  match v with
  | JNull => false
  | JBool b => b
  | JNum n => negb (Z.eqb n 0)
  | JStr s => negb (String.eqb s "")
  | JArr l => match l with [] => false | _ => true end
  | JObj kv => match kv with [] => false | _ => true end
  end.

(** [x.get(k)]: only dictionaries have the method. *)
Definition py_get (x : json) (k : string) : result json :=
  match x with
  | JObj kv => Ret (default JNull (assoc_get kv k))
  | _ => Raise AttributeError
  end.

(** [x.get(k, dflt)]. *)
Definition py_get_default (x : json) (k : string) (dflt : json) : result json :=
  match x with
  | JObj kv => Ret (default dflt (assoc_get kv k))
  | _ => Raise AttributeError
  end.

(** [s.endswith(suffix)]. *)
Definition endswith (s suffix : string) : bool :=
  let n := String.length s in
  let m := String.length suffix in
  if Nat.leb m n then String.eqb (substring (n - m) m s) suffix else false.

(** ** The closed sets *)

Definition TYPES : list string :=
  ["issue"; "improvement"; "question"; "compliance"; "other"].

Definition STATUSES : list string :=
  ["new"; "acknowledged"; "in_progress"; "resolved"; "closed"; "rejected"].

Definition PRIORITIES : list string :=
  ["low"; "medium"; "high"; "critical"].

(** [s in [..]] for a list of strings. *)
Definition in_list (s : string) (l : list string) : bool :=
  existsb (String.eqb s) l.

(** ** The directory tree *)

(** What [json.load] makes of a file: a value, or an exception. *)
Inductive file :=
| Text (v : json)
| Garbled.

Abbreviation dir := (list (string * file)).

(** The tree under [feedback_dir]: sub-directory name to listing. *)
Abbreviation store := (gmap string dir).

(** The tree [FeedbackSystem.__init__] leaves when it starts from nothing. *)
Definition empty_store : store :=
  list_to_map (map (fun t => (t, [] : dir)) TYPES).

Definition file_at (st : store) (t name : string) : option file :=
  d ← st !! t; assoc_get d name.

(** [os.path.exists(os.path.join(feedback_dir, t, name))], for single
    path components [t] and [name]. *)
Definition path_exists (st : store) (t name : string) : bool :=
  match file_at st t name with Some _ => true | None => false end.

(** [with open(path, 'r') as f: json.load(f)], for the path of the entry
    [name] of the directory [t]. *)
Definition read_json (st : store) (t name : string) : result json :=
  match file_at st t name with
  | Some (Text v) => Ret v
  | Some Garbled => Raise ValueError
  | None => Raise OSError
  end.

(** [with open(path, 'w') as f: json.dump(v, f)], for the path of the
    entry [name] of the directory [t]: fails when the directory is not
    there. *)
Definition write_json (st : store) (t name : string) (v : json)
  : result store :=
  match st !! t with
  | Some d => Ret (<[t := assoc_set d name (Text v)]> st)
  | None => Raise OSError
  end.

(** [os.remove(path)]. *)
Definition remove_file (st : store) (t name : string) : result store :=
  match st !! t with
  | Some d =>
      match assoc_get d name with
      | Some _ => Ret (<[t := assoc_del d name]> st)
      | None => Raise OSError
      end
  | None => Raise OSError
  end.

Definition json_name (feedback_id : string) : string := feedback_id ++ ".json".

(** ** submit_feedback, get_feedback, update_feedback *)

(** [tags] and [context] are [None] when the caller leaves them out;
    [uuid] is the value of [uuid.uuid4()], [now1] and [now2] the two
    readings of the clock.  The result is the id, [""] on a failed write. *)
Definition submit_feedback (st : store)
    (feedback_type title description priority : string)
    (tags : option (list string)) (context : option (list (string * json)))
    (uuid now1 now2 : string) : string * store :=
  let feedback_type :=
    if in_list feedback_type TYPES then feedback_type else "other" in
  let priority :=
    if in_list priority PRIORITIES then priority else "medium" in
  let feedback_id := uuid in
  let feedback_data :=
    JObj [("id", JStr feedback_id);
          ("type", JStr feedback_type);
          ("title", JStr title);
          ("description", JStr description);
          ("priority", JStr priority);
          ("tags", JArr (map JStr (default [] tags)));
          ("context", JObj (default [] context));
          ("status", JStr "new");
          ("created_at", JStr now1);
          ("updated_at", JStr now2);
          ("comments", JArr [])] in
  match write_json st feedback_type (json_name feedback_id) feedback_data with
  | Ret st' => (feedback_id, st')
  | Raise _ => ("", st)
  end.

(** The search loop of [get_feedback] over the remaining partitions: the
    first partition that holds the file decides, also when the read fails. *)
Fixpoint get_feedback_in (st : store) (feedback_id : string)
    (types : list string) : json :=
  match types with
  | [] => JNull
  | feedback_type :: rest =>
      if path_exists st feedback_type (json_name feedback_id) then
        match read_json st feedback_type (json_name feedback_id) with
        | Ret v => v
        | Raise _ => JNull
        end
      else get_feedback_in st feedback_id rest
  end.

Definition get_feedback (st : store) (feedback_id : string) : json :=
  get_feedback_in st feedback_id TYPES.

(** The loop [for key, value in updates.items()]. *)
Fixpoint apply_updates (feedback_data : list (string * json))
    (updates : list (string * json)) : list (string * json) :=
  match updates with
  | [] => feedback_data
  | (key, value) :: rest =>
      if in_list key ["id"; "created_at"] then apply_updates feedback_data rest
      else apply_updates (assoc_set feedback_data key value) rest
  end.

(** [update_feedback]: item assignment on a value that is not a dictionary
    raises, and so do a record without a ["type"] key and a ["type"] that
    is not a string ([os.path.join]), all three outside the [try]. *)
Definition update_feedback (st : store) (feedback_id : string)
    (updates : list (string * json)) (now : string) : result bool * store :=
  let feedback_data := get_feedback st feedback_id in
  if negb (truthy feedback_data) then (Ret false, st)
  else
    match feedback_data with
    | JObj kv =>
        let kv := apply_updates kv updates in
        let kv := assoc_set kv "updated_at" (JStr now) in
        match assoc_get kv "type" with
        | None => (Raise KeyError, st)
        | Some (JStr feedback_type) =>
            match write_json st feedback_type (json_name feedback_id) (JObj kv) with
            | Ret st' => (Ret true, st')
            | Raise _ => (Ret false, st)
            end
        | Some _ => (Raise TypeError, st)
        end
    | _ => (Raise TypeError, st)
    end.

(** ** list_feedback *)

(** [value != s] for a string [s]. *)
Definition differs_from (value : json) (s : string) : bool :=
  match value with
  | JStr s' => negb (String.eqb s' s)
  | _ => true
  end.

(** [filter and feedback_data.get(key) != filter]: the [get] is reached only
    for a filter that is given and not empty. *)
Definition filter_rejects (filter : option string) (feedback_data : json)
    (key : string) : result bool :=
  match filter with
  | None => Ret false
  | Some s =>
      if String.eqb s "" then Ret false
      else value <- py_get feedback_data key ;; Ret (differs_from value s)
  end.

(** [tag in feedback_tags] for a string [tag]: membership in a list, key of
    a dictionary, substring of a string; other values are not containers. *)
Definition py_contains (tag : string) (feedback_tags : json) : result bool :=
  match feedback_tags with
  | JArr l =>
      Ret (existsb (fun x => match x with
                             | JStr s => String.eqb s tag
                             | _ => false
                             end) l)
  | JObj kv => Ret (existsb (fun p => String.eqb (fst p) tag) kv)
  | JStr s => Ret (match index 0 tag s with Some _ => true | None => false end)
  | _ => Raise TypeError
  end.

(** [all(tag in feedback_tags for tag in tags)], stopping at the first
    tag that is missing. *)
Fixpoint all_tags_in (tags : list string) (feedback_tags : json) : result bool :=
  match tags with
  | [] => Ret true
  | tag :: rest =>
      b <- py_contains tag feedback_tags ;;
      if b then all_tags_in rest feedback_tags else Ret false
  end.

(** The three filter tests on one loaded record; [Ret true] when the record
    is to be appended. *)
Definition record_passes (status priority : option string)
    (tags : option (list string)) (feedback_data : json) : result bool :=
  r1 <- filter_rejects status feedback_data "status" ;;
  if r1 then Ret false
  else
    r2 <- filter_rejects priority feedback_data "priority" ;;
    if r2 then Ret false
    else
      match tags with
      | Some (tag :: rest) =>
          feedback_tags <- py_get_default feedback_data "tags" (JArr []) ;;
          all_tags_in (tag :: rest) feedback_tags
      | _ => Ret true
      end.

(** The inner loop over [os.listdir(directory)], with its [break]. *)
Fixpoint scan_files (st : store) (directory : string) (filenames : list string)
    (status priority : option string) (tags : option (list string))
    (limit : Z) (results : list json) : list json :=
  match filenames with
  | [] => results
  | filename :: rest =>
      if negb (endswith filename ".json") then
        scan_files st directory rest status priority tags limit results
      else
        match read_json st directory filename with
        | Ret feedback_data =>
            match record_passes status priority tags feedback_data with
            | Ret true =>
                let results := (results ++ [feedback_data])%list in
                if (limit <=? Z.of_nat (List.length results))%Z then results
                else scan_files st directory rest status priority tags limit results
            | _ => scan_files st directory rest status priority tags limit results
            end
        | Raise _ =>
            scan_files st directory rest status priority tags limit results
        end
  end.

(** The outer loop over the directories, with its [continue] and [break]. *)
Fixpoint scan_dirs (st : store) (directories : list string)
    (status priority : option string) (tags : option (list string))
    (limit : Z) (results : list json) : list json :=
  match directories with
  | [] => results
  | directory :: rest =>
      match st !! directory with
      | None => scan_dirs st rest status priority tags limit results
      | Some d =>
          let results :=
            scan_files st directory (map fst d) status priority tags limit results in
          if (limit <=? Z.of_nat (List.length results))%Z then results
          else scan_dirs st rest status priority tags limit results
      end
  end.

(** The sort key [x.get("created_at", "")]. *)
Definition created_key (x : json) : result json :=
  py_get_default x "created_at" (JStr "").

(** [a < b] on sort keys: strings by code point, integers and booleans by
    value.  Every other pair is taken to raise; Python also orders two
    lists, which no operation of the store writes as a timestamp. *)
Definition key_lt (a b : json) : result bool :=
  match a, b with
  | JStr s1, JStr s2 => Ret (String.ltb s1 s2)
  | JNum n1, JNum n2 => Ret (n1 <? n2)%Z
  | JNum n1, JBool b2 => Ret (n1 <? Z.b2z b2)%Z
  | JBool b1, JNum n2 => Ret (Z.b2z b1 <? n2)%Z
  | JBool b1, JBool b2 => Ret (Z.b2z b1 <? Z.b2z b2)%Z
  | _, _ => Raise TypeError
  end.

(** [list.sort(key=..., reverse=True)] is a stable sort into descending
    order that compares keys with [<] only.  The result of such a sort is
    determined by the input, so it is written here as an insertion sort
    over the list decorated with its keys: an element moves right past the
    elements whose key is greater and stops before the first that is not. *)
Fixpoint insert_desc (p : json * json) (l : list (json * json))
  : result (list (json * json)) :=
  match l with
  | [] => Ret [p]
  | q :: r =>
      b <- key_lt (fst p) (fst q) ;;
      if b then r' <- insert_desc p r ;; Ret (q :: r')
      else Ret (p :: q :: r)
  end.

Fixpoint sort_desc (l : list (json * json)) : result (list (json * json)) :=
  match l with
  | [] => Ret []
  | p :: r => s <- sort_desc r ;; insert_desc p s
  end.

(** The keys are computed for every element before any comparison. *)
Fixpoint decorate (results : list json) : result (list (json * json)) :=
  match results with
  | [] => Ret []
  | x :: r => k <- created_key x ;; d <- decorate r ;; Ret ((k, x) :: d)
  end.

(** [results[:limit]], also for a negative [limit]. *)
Definition slice_to {A} (l : list A) (limit : Z) : list A :=
  if (0 <=? limit)%Z then take (Z.to_nat limit) l
  else take (List.length l - Z.to_nat (- limit)) l.

Definition search_directories (feedback_type : option string) : list string :=
  match feedback_type with
  | Some t =>
      if String.eqb t "" then TYPES
      else if in_list t TYPES then [t] else TYPES
  | None => TYPES
  end.

Definition list_feedback (st : store) (feedback_type status priority : option string)
    (tags : option (list string)) (limit : Z) : result (list json) :=
  let directories := search_directories feedback_type in
  let results := scan_dirs st directories status priority tags limit [] in
  keyed <- decorate results ;;
  sorted <- sort_desc keyed ;;
  Ret (slice_to (map snd sorted) limit).

(** ** get_feedback_stats *)

Record stats := {
  total : nat;
  by_type : gmap string nat;
  by_status : gmap string nat;
  by_priority : gmap string nat
}.

(** The three initialisation loops: one zero counter per member. *)
Definition zero_counters (members : list string) : gmap string nat :=
  list_to_map (map (fun k => (k, 0)) members).

(** [if value in counters: counters[value] += 1].  A string is looked up;
    [None], booleans and numbers are hashable and are no keys of the
    dictionary; lists and dictionaries cannot be hashed. *)
Definition count_value (counters : gmap string nat) (value : json)
  : result (gmap string nat) :=
  match value with
  | JStr s =>
      match counters !! s with
      | Some n => Ret (<[s := S n]> counters)
      | None => Ret counters
      end
  | JArr _ | JObj _ => Raise TypeError
  | _ => Ret counters
  end.

(** The [try] body after [json.load] for one loaded record.  The counters
    are updated in place, so what was counted before an exception stays
    counted.  [by_type[feedback_type]] always exists: the key comes from
    [TYPES]. *)
Definition stats_record (feedback_type : string) (feedback_data : json)
    (s : stats) : stats :=
  let s := {| total := S (total s);
              by_type := alter S feedback_type (by_type s);
              by_status := by_status s;
              by_priority := by_priority s |} in
  match (status <- py_get_default feedback_data "status" (JStr "new") ;;
         count_value (by_status s) status) with
  | Raise _ => s
  | Ret counters =>
      let s := {| total := total s;
                  by_type := by_type s;
                  by_status := counters;
                  by_priority := by_priority s |} in
      match (priority <- py_get_default feedback_data "priority" (JStr "medium") ;;
             count_value (by_priority s) priority) with
      | Raise _ => s
      | Ret counters =>
          {| total := total s;
             by_type := by_type s;
             by_status := by_status s;
             by_priority := counters |}
      end
  end.

(** The body of the inner loop for one file name. *)
Definition stats_file (st : store) (feedback_type filename : string) (s : stats)
  : stats :=
  if negb (endswith filename ".json") then s
  else
    match read_json st feedback_type filename with
    | Raise _ => s
    | Ret feedback_data => stats_record feedback_type feedback_data s
    end.

Definition stats_dir (st : store) (s : stats) (feedback_type : string) : stats :=
  match st !! feedback_type with
  | None => s
  | Some d => foldl (fun s filename => stats_file st feedback_type filename s)
                s (map fst d)
  end.

Definition get_feedback_stats (st : store) : stats :=
  let s := {| total := 0;
              by_type := zero_counters TYPES;
              by_status := zero_counters STATUSES;
              by_priority := zero_counters PRIORITIES |} in
  foldl (stats_dir st) s TYPES.

(** ** export_feedback and import_feedback *)

(** The document [export_feedback] hands to [json.dump]; whether the write
    to [output_path] succeeds is a matter of that path, outside the tree. *)
Definition export_feedback (st : store) (feedback_type status : option string)
    (now : string) : result json :=
  feedback_list <- list_feedback st feedback_type status None None 1000 ;;
  Ret (JObj [("exported_at", JStr now);
             ("total", JNum (Z.of_nat (List.length feedback_list)));
             ("feedback", JArr feedback_list)]).

Section import.
(** [str(x)] of a list or a dictionary, as an f-string formats it. *)
Variable py_repr : json -> string.

(** [f"{x}"]. *)
Definition py_str (x : json) : string :=
  match x with
  | JStr s => s
  | JNum n => pretty n
  | JBool true => "True"
  | JBool false => "False"
  | JNull => "None"
  | _ => py_repr x
  end.

(** The body of the loop for one candidate: the tree it leaves and
    whether the candidate was imported, or the exception that leaves the
    loop.  A [type] that is not a string makes [os.path.join] raise. *)
Definition import_one (st : store) (feedback_data : json)
  : result (store * bool) :=
  feedback_id <- py_get feedback_data "id" ;;
  feedback_type <- py_get feedback_data "type" ;;
  if negb (truthy feedback_id) || negb (truthy feedback_type) then
    Ret (st, false)
  else if truthy (get_feedback st (py_str feedback_id)) then
    Ret (st, false)
  else
    match feedback_type with
    | JStr t =>
        match write_json st t (json_name (py_str feedback_id))
                feedback_data with
        | Ret st' => Ret (st', true)
        | Raise _ => Ret (st, false)
        end
    | _ => Raise TypeError
    end.

(** The loop over the candidates.  A [Raise] leaves the loop for the
    outer [except]; what was written before stays written. *)
Fixpoint import_loop (st : store) (feedback_list : list json)
    (imported_count : nat) : result nat * store :=
  match feedback_list with
  | [] => (Ret imported_count, st)
  | feedback_data :: rest =>
      match import_one st feedback_data with
      | Ret (st', imported) =>
          import_loop st' rest
            (if imported then S imported_count else imported_count)
      | Raise e => (Raise e, st)
      end
  end.

(** [input] is what [json.load] makes of the file at [input_path].
    Iterating a string or a dictionary yields strings, which have no
    [get]; other values cannot be iterated: in both cases the outer
    [except] returns 0 before anything is written. *)
Definition import_feedback (st : store) (input : file) : nat * store :=
  match input with
  | Garbled => (0, st)
  | Text import_data =>
      match py_get_default import_data "feedback" (JArr []) with
      | Ret (JArr feedback_list) =>
          match import_loop st feedback_list 0 with
          | (Ret imported_count, st') => (imported_count, st')
          | (Raise _, st') => (0, st')
          end
      | _ => (0, st)
      end
  end.
End import.

(** ** cleanup_old_feedback *)

(** The floating-point numbers of the source are taken as they are: a
    type and the three operations that [cleanup_old_feedback] applies to
    them.  Nothing is assumed about them. *)
Record float_ops := {
  (** [float] *)
  float : Type;
  (** [datetime.fromisoformat(s).timestamp()], seconds as a float (rounded
      as the source rounds them); [None] when the call raises. *)
  timestamp : string -> option float;
  (** [a > b] *)
  float_gt : float -> float -> bool;
  (** [x - n] for a float [x] and an integer [n]; [None] when [n] is too
      large to convert to a float and the source raises [OverflowError]. *)
  float_sub_int : float -> Z -> option float
}.

Section cleanup.
Variable fp : float_ops.

Definition seconds_per_day : Z := 24 * 60 * 60.

(** The body of the inner loop for one file name. *)
Definition cleanup_file (st : store) (feedback_type filename : string)
    (cutoff_date : float fp) (status : option string) (removed_count : nat)
  : store * nat :=
  if negb (endswith filename ".json") then (st, removed_count)
  else
    match read_json st feedback_type filename with
    | Raise _ => (st, removed_count)
    | Ret feedback_data =>
        match py_get_default feedback_data "created_at" (JStr "") with
        | Raise _ => (st, removed_count)
        | Ret created_at =>
            if negb (truthy created_at) then (st, removed_count)
            else
              match created_at with
              | JStr s =>
                  match timestamp fp s with
                  | None => (st, removed_count)
                  | Some created_timestamp =>
                      if float_gt fp created_timestamp cutoff_date then
                        (st, removed_count)
                      else
                        match filter_rejects status feedback_data "status" with
                        | Ret false =>
                            match remove_file st feedback_type filename with
                            | Ret st' => (st', S removed_count)
                            | Raise _ => (st, removed_count)
                            end
                        | _ => (st, removed_count)
                        end
                  end
              | _ => (st, removed_count)
              end
        end
    end.

Definition cleanup_dir (cutoff_date : float fp) (status : option string)
    (acc : store * nat) (feedback_type : string) : store * nat :=
  match acc.1 !! feedback_type with
  | None => acc
  | Some d =>
      foldl (fun acc filename =>
               cleanup_file acc.1 feedback_type filename cutoff_date status acc.2)
        acc (map fst d)
  end.

(** [now] is [datetime.now().timestamp()].  The cutoff is computed before
    the loops and outside every [try]: when the subtraction raises, the
    exception leaves the call and nothing is removed.  Otherwise the
    result is the count and the tree that is left. *)
Definition cleanup_old_feedback (st : store) (days : Z)
    (status : option string) (now : float fp) : result nat * store :=
  match float_sub_int fp now (days * seconds_per_day) with
  | None => (Raise OverflowError, st)
  | Some cutoff_date =>
      let acc := foldl (cleanup_dir cutoff_date status) (st, 0) TYPES in
      (Ret acc.2, acc.1)
  end.
End cleanup.

(** ** FeedbackSystem.__init__ and add_comment *)

(** [os.makedirs(path, exist_ok=True)] on a partition directory: a missing
    directory is created empty, an existing one is left as it is. *)
Definition makedirs (st : store) (feedback_type : string) : store :=
  match st !! feedback_type with
  | Some _ => st
  | None => <[feedback_type := []]> st
  end.

(** The constructor: the loop over the five partition names. *)
Definition init (st : store) : store := foldl makedirs st TYPES.

(** [add_comment].  [uuid] is the comment's [uuid.uuid4()], [now1] the
    clock reading for the comment and [now2] the one for [updated_at].
    [feedback_data["comments"]] raises on a value that is not a dictionary
    and on a dictionary without the key; only a list has [append]; the
    lookup of ["type"] and [os.path.join] raise as in [update_feedback]. *)
Definition add_comment (st : store) (feedback_id comment author : string)
    (uuid now1 now2 : string) : result bool * store :=
  let feedback_data := get_feedback st feedback_id in
  if negb (truthy feedback_data) then (Ret false, st)
  else
    let comment_data :=
      JObj [("id", JStr uuid);
            ("author", JStr author);
            ("content", JStr comment);
            ("created_at", JStr now1)] in
    match feedback_data with
    | JObj kv =>
        match assoc_get kv "comments" with
        | None => (Raise KeyError, st)
        | Some (JArr comments) =>
            let kv :=
              assoc_set kv "comments" (JArr (comments ++ [comment_data])) in
            let kv := assoc_set kv "updated_at" (JStr now2) in
            match assoc_get kv "type" with
            | None => (Raise KeyError, st)
            | Some (JStr feedback_type) =>
                match write_json st feedback_type (json_name feedback_id)
                        (JObj kv) with
                | Ret st' => (Ret true, st')
                | Raise _ => (Ret false, st)
                end
            | Some _ => (Raise TypeError, st)
            end
        | Some _ => (Raise AttributeError, st)
        end
    | _ => (Raise TypeError, st)
    end.

(** ** The module-level functions *)

(** Each of them builds a [FeedbackSystem()], which creates the missing
    partition directories, and calls the method.  The tree is returned
    with the value also where the method only reads. *)
Module toplevel.

Definition submit_issue (st : store) (title description priority : string)
    (tags : option (list string)) (context : option (list (string * json)))
    (uuid now1 now2 : string) : string * store :=
  submit_feedback (init st) "issue" title description priority tags context
    uuid now1 now2.

Definition submit_improvement (st : store) (title description priority : string)
    (tags : option (list string)) (context : option (list (string * json)))
    (uuid now1 now2 : string) : string * store :=
  submit_feedback (init st) "improvement" title description priority tags
    context uuid now1 now2.

Definition submit_question (st : store) (title description priority : string)
    (tags : option (list string)) (context : option (list (string * json)))
    (uuid now1 now2 : string) : string * store :=
  submit_feedback (init st) "question" title description priority tags
    context uuid now1 now2.

Definition submit_compliance_report (st : store)
    (title description priority : string)
    (tags : option (list string)) (context : option (list (string * json)))
    (uuid now1 now2 : string) : string * store :=
  submit_feedback (init st) "compliance" title description priority tags
    context uuid now1 now2.

Definition get_feedback (st : store) (feedback_id : string) : json * store :=
  (get_feedback (init st) feedback_id, init st).

Definition list_feedback (st : store) (feedback_type status priority : option string)
    (tags : option (list string)) (limit : Z) : result (list json) * store :=
  (list_feedback (init st) feedback_type status priority tags limit, init st).

Definition get_feedback_stats (st : store) : stats * store :=
  (get_feedback_stats (init st), init st).

End toplevel.

(** ** main: the update and import commands *)

(** What a run of [main] leaves: the exit status, the strings printed on
    the standard output, and the tree; [Raise] when an exception leaves
    [main]. *)
Definition run := (result (Z * list string) * store)%type.

(** [if args.x: updates[key] = args.x] *)
Definition add_arg (updates : list (string * json)) (key : string)
    (arg : option string) : list (string * json) :=
  match arg with
  | Some s => if String.eqb s "" then updates else assoc_set updates key (JStr s)
  | None => updates
  end.

(** [choices=...] of an option: a value outside the list is refused. *)
Definition in_choices (arg : option string) (choices : list string) : bool :=
  match arg with
  | Some s => in_list s choices
  | None => true
  end.

(** The [update] command: [status], [priority], [title] and [description]
    are the values of the options on the command line, [None] for an
    option that is left out.  [parse_args] checks [--status] and
    [--priority] against their choices before [main] builds the
    [FeedbackSystem]: on a value outside them it writes its message to
    the standard error and exits with status 2. *)
Definition main_update (st : store) (id : string)
    (status priority title description : option string) (now : string) : run :=
  if negb (in_choices status STATUSES && in_choices priority PRIORITIES) then
    (Ret (2%Z, []), st)
  else
  let st := init st in
  let updates := [] in
  let updates := add_arg updates "status" status in
  let updates := add_arg updates "priority" priority in
  let updates := add_arg updates "title" title in
  let updates := add_arg updates "description" description in
  match updates with
  | [] => (Ret (1%Z, ["Error: No updates specified"]), st)
  | _ =>
      match update_feedback st id updates now with
      | (Ret true, st') =>
          (Ret (0%Z, ["Feedback " ++ id ++ " updated successfully"]), st')
      | (Ret false, st') =>
          (Ret (1%Z, ["Error updating feedback " ++ id]), st')
      | (Raise e, st') => (Raise e, st')
      end
  end.

Section main_import.
Variable py_repr : json -> string.

(** The [import] command; [input] is what [json.load] makes of the file
    named on the command line. *)
Definition main_import (st : store) (input : file) : run :=
  let st := init st in
  match import_feedback py_repr st input with
  | (O, st') => (Ret (1%Z, ["No feedback items imported"]), st')
  | (imported_count, st') =>
      (Ret (0%Z, ["Imported " ++ pretty imported_count ++ " feedback items"]),
       st')
  end.
End main_import.

(** ** feedback_cli: print_issue and the update command *)

Section feedback_cli.
Variable py_repr : json -> string.

Definition newline : string := String (ascii_of_nat 10) EmptyString.

(** The line of one comment; a comment that is not a dictionary has no
    [get]. *)
Definition comment_line (comment : json) : result string :=
  author <- py_get comment "author" ;;
  created_at <- py_get comment "created_at" ;;
  content <- py_get comment "content" ;;
  Ret ("  - " ++ py_str py_repr author ++ " (" ++ py_str py_repr created_at
       ++ "): " ++ py_str py_repr content).

(** The loop over the comments: the strings printed so far, one for each
    call of [print], and the exception that ended the loop, if one did. *)
Fixpoint print_comments (comments : list json) (out : list string)
  : list string * option exn :=
  match comments with
  | [] => (out, None)
  | comment :: rest =>
      match comment_line comment with
      | Ret line => print_comments rest (out ++ [line])%list
      | Raise e => (out, Some e)
      end
  end.

(** [print_issue].  Iterating a string or a dictionary yields strings,
    which have no [get]; numbers and booleans cannot be iterated. *)
Definition print_issue (issue_data : json) (out : list string)
  : list string * option exn :=
  match issue_data with
  | JObj kv =>
      let field := fun k => py_str py_repr (default JNull (assoc_get kv k)) in
      let lines :=
        [newline ++ "Issue ID: " ++ field "id";
         "Title: " ++ field "title";
         "Status: " ++ field "status";
         "Priority: " ++ field "priority";
         "Created at: " ++ field "created_at"] in
      let out := (out ++ lines)%list in
      let comments := default (JArr []) (assoc_get kv "comments") in
      if truthy comments then
        let out := (out ++ ["Comments:"])%list in
        match comments with
        | JArr l => print_comments l out
        | JStr _ | JObj _ => (out, Some AttributeError)
        | _ => (out, Some TypeError)
        end
      else (out, None)
  | _ => (out, Some AttributeError)
  end.

(** The [update] command of the script's [main], for the id and the
    status of the command line.  The module builds a [FeedbackSystem]
    when it is loaded, and the module-level [get_feedback] builds another. *)
Definition cli_update (st : store) (issue_id new_status : string)
    (now : string) : (list string * option exn) * store :=
  let st := init st in
  if negb (in_list new_status STATUSES) then
    ((["Invalid status: " ++ new_status;
       "Valid statuses: new, acknowledged, in_progress, resolved, closed, rejected"],
      None), st)
  else
    match update_feedback st issue_id [("status", JStr new_status)] now with
    | (Ret true, st') =>
        let out := ["Issue status updated to '" ++ new_status ++ "'"] in
        let st' := init st' in
        let issue_data := get_feedback st' issue_id in
        if truthy issue_data then (print_issue issue_data out, st')
        else ((out, None), st')
    | (Ret false, st') =>
        ((["Failed to update issue: " ++ issue_id], None), st')
    | (Raise e, st') => (([], Some e), st')
    end.
End feedback_cli.

(** * Vocabulary of the statements *)

(** Every partition directory is there, as [__init__] leaves it. *)
Definition initialised (st : store) : Prop :=
  forall t, t ∈ TYPES -> is_Some (st !! t).

(** No file of that id in any partition. *)
Definition absent (st : store) (feedback_id : string) : Prop :=
  forall t, t ∈ TYPES -> path_exists st t (json_name feedback_id) = false.

(** The tree is addressed by names: an entry [name] of a directory [t].
    The source addresses it by the path
    [os.path.join(feedback_dir, t, name)], which is that entry when [t] and
    [name] are single path components.  A string with a separator in it,
    and as a directory the strings [""], ["."] and [".."], lead the source
    elsewhere (into another directory, or back to the feedback directory
    itself), where the tree of this model does not follow: the statements
    about an arbitrary id, type or document say that it is plain. *)
Definition has_separator (s : string) : bool :=
  match index 0 "/" s with Some _ => true | None => false end.

(** The file name of the id is a single path component. *)
Definition plain_id (feedback_id : string) : bool :=
  negb (has_separator feedback_id).

(** The string names an entry of the feedback directory, if anything. *)
Definition plain_component (t : string) : bool :=
  negb (has_separator t) && negb (in_list t [""; "."; ".."]).

(** The first partition of [types] that holds a file for the id. *)
Fixpoint locate (st : store) (feedback_id : string) (types : list string)
  : option string :=
  match types with
  | [] => None
  | t :: rest =>
      if path_exists st t (json_name feedback_id) then Some t
      else locate st feedback_id rest
  end.

(** Position of a partition in the search order. *)
Fixpoint rank (t : string) (types : list string) : nat :=
  match types with
  | [] => 0
  | t' :: rest => if String.eqb t' t then 0 else S (rank t rest)
  end.

(** ** Vocabulary for list_feedback *)

(** What one file name of a directory contributes to the results when the
    limit does not intervene. *)
Definition passing_file (st : store) (directory : string)
    (status priority : option string) (tags : option (list string))
    (filename : string) : option json :=
  if endswith filename ".json" then
    match read_json st directory filename with
    | Ret feedback_data =>
        match record_passes status priority tags feedback_data with
        | Ret true => Some feedback_data
        | _ => None
        end
    | Raise _ => None
    end
  else None.

Definition dir_candidates (st : store) (status priority : option string)
    (tags : option (list string)) (directory : string) : list json :=
  match st !! directory with
  | None => []
  | Some d => omap (passing_file st directory status priority tags) (map fst d)
  end.

(** The passing records of the searched directories, in scan order. *)
Definition candidates (st : store) (directories : list string)
    (status priority : option string) (tags : option (list string))
  : list json :=
  flat_map (dir_candidates st status priority tags) directories.

(** The filter as the claim words it: a filter that is given must equal the
    stored value, every requested tag must be among the record's tags. *)
Definition field_is (kv : list (string * json)) (key s : string) : bool :=
  match assoc_get kv key with
  | Some (JStr s') => String.eqb s' s
  | _ => false
  end.

Definition has_tag (kv : list (string * json)) (tag : string) : bool :=
  match assoc_get kv "tags" with
  | Some (JArr l) =>
      existsb (fun x => match x with
                        | JStr s => String.eqb s tag
                        | _ => false
                        end) l
  | _ => false
  end.

Definition claimed_match (status priority : option string)
    (tags : option (list string)) (kv : list (string * json)) : bool :=
  match status with None => true | Some s => field_is kv "status" s end
  && match priority with None => true | Some s => field_is kv "priority" s end
  && match tags with None => true | Some l => forallb (has_tag kv) l end.

(** The filter as the code applies it: an empty string counts as no filter. *)
Definition given (filter : option string) : option string :=
  match filter with
  | Some s => if String.eqb s "" then None else Some s
  | None => None
  end.

Definition code_match (status priority : option string)
    (tags : option (list string)) (kv : list (string * json)) : bool :=
  claimed_match (given status) (given priority) tags kv.

(** The record's [tags] entry is a list, or there is none. *)
Definition tags_is_list (kv : list (string * json)) : Prop :=
  match assoc_get kv "tags" with
  | Some (JArr _) | None => True
  | _ => False
  end.

(** Descending order of the sort keys: no element is followed, anywhere
    later, by one whose key is greater. *)
Definition newest_first (results : list json) : Prop :=
  StronglySorted
    (fun x y => exists kx ky,
         created_key x = Ret kx /\ created_key y = Ret ky
         /\ key_lt kx ky = Ret false)
    results.

(** The same on the list decorated with its keys. *)
Definition keys_descending (l : list (json * json)) : Prop :=
  StronglySorted (fun p q => key_lt p.1 q.1 = Ret false) l.

(** A record paired with its sort key, [null] standing in where the key
    cannot be computed. *)
Definition with_key (x : json) : json * json :=
  (match created_key x with Ret k => k | Raise _ => JNull end, x).

(** The claim about the filter, read literally for one stored record and
    one call: the record is in the result exactly when the filter, as the
    claim words it, accepts it. *)
Definition filter_claim (st : store) (feedback_type status priority : option string)
    (tags : option (list string)) (limit : Z) (kv : list (string * json))
  : Prop :=
  forall results,
    list_feedback st feedback_type status priority tags limit = Ret results ->
    (JObj kv ∈ results <-> claimed_match status priority tags kv = true).

(** ** Vocabulary for get_feedback_stats *)

(** The record a file name of a partition stands for, when it is a [.json]
    file that loads. *)
Definition file_record (st : store) (feedback_type filename : string)
  : option json :=
  if endswith filename ".json" then
    match read_json st feedback_type filename with
    | Ret feedback_data => Some feedback_data
    | Raise _ => None
    end
  else None.

(** The records of one partition and of the whole store, in scan order. *)
Definition readable_records (st : store) (feedback_type : string) : list json :=
  match st !! feedback_type with
  | None => []
  | Some d => omap (file_record st feedback_type) (map fst d)
  end.

Definition all_records (st : store) : list json :=
  flat_map (readable_records st) TYPES.

Definition count_if {A} (f : A -> bool) (l : list A) : nat :=
  List.length (List.filter f l).

(** The value a record is counted under: the stored one, or the default
    when the key is missing. *)
Definition status_of (r : json) : option json :=
  match r with
  | JObj kv => Some (default (JStr "new") (assoc_get kv "status"))
  | _ => None
  end.

Definition priority_of (r : json) : option json :=
  match r with
  | JObj kv => Some (default (JStr "medium") (assoc_get kv "priority"))
  | _ => None
  end.

Definition is_string (s : string) (v : option json) : bool :=
  match v with
  | Some (JStr s') => String.eqb s' s
  | _ => false
  end.

(** Lists and dictionaries cannot be looked up in a dictionary. *)
Definition hashable (v : option json) : bool :=
  match v with
  | Some (JArr _) | Some (JObj _) | None => false
  | Some _ => true
  end.

Definition counts_status (x : string) (r : json) : bool :=
  is_string x (status_of r).

(** The priority is looked at only when the status lookup did not raise. *)
Definition counts_priority (x : string) (r : json) : bool :=
  hashable (status_of r) && is_string x (priority_of r).

(** The sum of the counters of the members. *)
Definition sum_counters (counters : gmap string nat) (members : list string)
  : nat :=
  foldr (fun k n => default 0 (counters !! k) + n) 0 members.

(** The record is counted under one of the six statuses, under one of the
    four priorities. *)
Definition known_status (r : json) : bool :=
  existsb (fun x => counts_status x r) STATUSES.

Definition known_priority (r : json) : bool :=
  existsb (fun x => counts_priority x r) PRIORITIES.

(** ** Vocabulary for cleanup_old_feedback *)

(** No directory lists a name twice. *)
Definition well_formed (st : store) : Prop :=
  map_Forall (fun _ (d : dir) => NoDup d.*1) st.

(** Number of files in the five partitions. *)
Definition files_count (st : store) : nat :=
  List.length (flat_map (fun t => default [] (st !! t)) TYPES).

Section cleanup_vocabulary.
Variable fp : float_ops.

(** The instant a record was created, when its [created_at] is a string
    that is not empty and that parses. *)
Definition created_timestamp (kv : list (string * json)) : option (float fp) :=
  match assoc_get kv "created_at" with
  | Some (JStr s) => if String.eqb s "" then None else timestamp fp s
  | _ => None
  end.

(** The instant lies before the cutoff: the cutoff is greater than the
    instant, and the instant is not greater than the cutoff.  For the
    floating-point numbers of the source the second follows from the
    first; it is written out because nothing is assumed about [>]. *)
Definition strictly_older (created cutoff_date : float fp) : bool :=
  float_gt fp cutoff_date created && negb (float_gt fp created cutoff_date).

(** A directory entry that the cleanup is to remove: a [.json] file that
    loads as a dictionary, whose creation instant parses and lies before
    the cutoff (or, when [at_cutoff] is set, is not after the cutoff,
    which is the test of the source), and whose status is accepted by the
    status filter of the call. *)
Definition eligible (at_cutoff : bool) (cutoff_date : float fp)
    (status : option string) (p : string * file) : bool :=
  endswith p.1 ".json" &&
  match p.2 with
  | Text (JObj kv) =>
      match created_timestamp kv with
      | Some created =>
          (if at_cutoff then negb (float_gt fp created cutoff_date)
           else strictly_older created cutoff_date)
          && code_match status None None kv
      | None => false
      end
  | _ => false
  end.

(** The eligibility of the claim, read literally: the creation instant
    parses and is strictly older than the cutoff, and a status filter that
    is given equals the status. *)
Definition claimed_eligible (cutoff_date : float fp) (status : option string)
    (kv : list (string * json)) : bool :=
  match created_timestamp kv with
  | Some created =>
      strictly_older created cutoff_date && claimed_match status None None kv
  | None => false
  end.

(** What the inner loop leaves of a listing. *)
Definition kept (cutoff_date : float fp) (status : option string) (d : dir)
  : dir :=
  List.filter (fun p => negb (eligible true cutoff_date status p)) d.

(** What the loop over the partitions [types] leaves of the tree. *)
Definition swept (cutoff_date : float fp) (status : option string)
    (st : store) (types : list string) : store :=
  foldl (fun st t =>
           match st !! t with
           | Some d => <[t := kept cutoff_date status d]> st
           | None => st
           end) st types.
(** Number of entries of the partitions [types] that the cleanup is to
    remove. *)
Definition eligible_count (cutoff_date : float fp) (status : option string)
    (st : store) (types : list string) : nat :=
  count_if (eligible true cutoff_date status)
    (flat_map (fun t => default [] (st !! t)) types).
End cleanup_vocabulary.

(** ** Vocabulary for export_feedback and import_feedback *)

(** A record fit for the partition [t]: a dictionary whose [id] is a
    string that is not empty, whose [type] is [t], and whose sort key is a
    string. *)
Definition record_of (t sid : string) (kv : list (string * json)) : Prop :=
  assoc_get kv "id" = Some (JStr sid)
  /\ sid <> ""
  /\ assoc_get kv "type" = Some (JStr t)
  /\ exists s, created_key (JObj kv) = Ret (JStr s).

(** A store all of whose partition files are records filed under their own
    id and type, with ids that are unique over the whole store, and few
    enough to pass the limit of the export. *)
Definition canonical (st : store) : Prop :=
  (forall t name f,
     t ∈ TYPES -> file_at st t name = Some f ->
     exists sid kv,
       name = json_name sid /\ f = Text (JObj kv) /\ record_of t sid kv)
  /\ NoDup (map (fun r => py_get r "id") (all_records st))
  /\ (Z.of_nat (List.length (all_records st)) <= 1000)%Z.

(** Every file a partition holds loads as a value that is true, so that
    [get_feedback] misses an id only when no partition has its file. *)
Definition sound (st : store) : Prop :=
  forall t name f,
    t ∈ TYPES -> file_at st t name = Some f ->
    exists v, f = Text v /\ truthy v = true.

(** The tree has no directory besides the five partitions. *)
Definition only_partitions (st : store) : Prop :=
  forall t, is_Some (st !! t) -> t ∈ TYPES.

(** [st'] has the directories of [st] and no more, and still finds every
    id that [st] finds. *)
Definition extends (st st' : store) : Prop :=
  (forall t, st !! t = None -> st' !! t = None)
  /\ (forall sid, truthy (get_feedback st sid) = true ->
                  truthy (get_feedback st' sid) = true).

Section import_vocabulary.
Variable py_repr : json -> string.

(** A candidate of an import whose id and type, when it has them, are
    plain; an empty type is harmless, the candidate is skipped. *)
Definition plain_candidate (feedback_data : json) : bool :=
  match feedback_data with
  | JObj kv =>
      plain_id (py_str py_repr (default JNull (assoc_get kv "id")))
      && match assoc_get kv "type" with
         | Some (JStr t) => plain_component t || String.eqb t ""
         | _ => true
         end
  | _ => true
  end.

(** A document all of whose candidates are plain. *)
Definition plain_document (input : file) : bool :=
  match input with
  | Text (JObj kv) =>
      match assoc_get kv "feedback" with
      | Some (JArr feedback_list) => forallb plain_candidate feedback_list
      | _ => true
      end
  | _ => true
  end.
End import_vocabulary.

(** Every partition file is a record filed under its own id and type. *)
Definition filed_by_id (st : store) : Prop :=
  forall t name f,
    t ∈ TYPES -> file_at st t name = Some f ->
    exists sid kv,
      name = json_name sid /\ f = Text (JObj kv) /\ record_of t sid kv.

(** ** Sample data for the worked instances *)

(** A record as [submit_feedback] writes it. *)
Definition sample_fields (feedback_id feedback_type status priority : string)
    (tags : list string) (created_at : string) : list (string * json) :=
  [("id", JStr feedback_id);
   ("type", JStr feedback_type);
   ("title", JStr "Crash");
   ("description", JStr "It crashes");
   ("priority", JStr priority);
   ("tags", JArr (map JStr tags));
   ("context", JObj []);
   ("status", JStr status);
   ("created_at", JStr created_at);
   ("updated_at", JStr created_at);
   ("comments", JArr [])].

Definition sample_record (feedback_id feedback_type status priority : string)
    (tags : list string) (created_at : string) : json :=
  JObj (sample_fields feedback_id feedback_type status priority tags created_at).

(** One issue, id ["a1"]. *)
Definition store_a1 : store :=
  <["issue" := [("a1.json",
                 Text (sample_record "a1" "issue" "new" "high" ["ui"]
                         "2024-01-01T10:00:00"))]]> empty_store.

(** Three records in three partitions; the scan meets them in the order
    a1, b2, c3, their creation times are in the order c3, a1, b2. *)
Definition kv_a1 : list (string * json) :=
  sample_fields "a1" "issue" "new" "high" ["ui"] "2024-01-02T10:00:00".
Definition kv_b2 : list (string * json) :=
  sample_fields "b2" "question" "resolved" "low" ["ui"; "api"] "2024-01-03T10:00:00".
Definition kv_c3 : list (string * json) :=
  sample_fields "c3" "other" "new" "medium" [] "2024-01-01T10:00:00".
Definition rec_a1 : json := JObj kv_a1.
Definition rec_b2 : json := JObj kv_b2.
Definition rec_c3 : json := JObj kv_c3.

Definition store_three : store :=
  <["issue" := [("a1.json", Text rec_a1)]]>
  (<["question" := [("b2.json", Text rec_b2)]]>
  (<["other" := [("c3.json", Text rec_c3)]]> empty_store)).

(** [datetime.fromisoformat(s).timestamp()] on the sample strings (with
    the local zone at UTC); every other string is taken not to parse.  The
    sample instants are whole seconds, far below 2^53: floating-point
    numbers represent them, their differences and their order exactly, so
    they are written as integers. *)
Definition sample_timestamp (s : string) : option Z :=
  assoc_get [("2024-01-01T10:00:00", 1704103200%Z);
             ("2024-01-02T10:00:00", 1704189600%Z);
             ("2024-01-03T10:00:00", 1704276000%Z)] s.

Definition sample_floats : float_ops :=
  {| float := Z;
     timestamp := sample_timestamp;
     float_gt := Z.gtb;
     float_sub_int := fun x n => Some (x - n)%Z |}.

(** 2024-02-01T10:00:00 *)
Definition sample_now : Z := 1706781600.

(** [n] issues with the ids 0, 1, ..., n-1. *)
Definition big_dir (n : nat) : dir :=
  map (fun i => (json_name (pretty i),
                 Text (sample_record (pretty i) "issue" "new" "low" []
                         "2024-01-01T10:00:00")))
    (seq 0 n).

Definition big_store (n : nat) : store := <["issue" := big_dir n]> empty_store.

(** The store [update_feedback] leaves when it moves a1 to another type:
    two files for the one id. *)
Definition store_two_copies : store :=
  (update_feedback store_a1 "a1"
     [("type", JStr "other"); ("status", JStr "resolved")]
     "2024-02-01T00:00:00").2.

(** A store with one file that lacks the [id] key. *)
Definition store_no_id : store :=
  <["issue" := [("x.json",
                 Text (JObj [("type", JStr "issue"); ("title", JStr "T");
                             ("created_at", JStr "2024-01-01T10:00:00")]))]]>
  empty_store.

(** Export without filters, then import into the empty store: the count
    and the tree of the import, when the export returns. *)
Definition export_then_import (py_repr : json -> string) (st : store)
    (now : string) : option (nat * store) :=
  match export_feedback st None None now with
  | Ret doc => Some (import_feedback py_repr empty_store (Text doc))
  | Raise _ => None
  end.

(** One issue whose status and priority are outside the closed sets. *)
Definition store_odd_values : store :=
  <["issue" := [("z9.json",
                 Text (sample_record "z9" "issue" "bogus" "urgent" []
                         "2024-01-01T10:00:00"))]]> empty_store.

(** The id ["a1"] twice: a file that does not parse in the first
    partition, a record in the last. *)
Definition store_garbled : store :=
  <["issue" := [("a1.json", Garbled)]]>
  (<["other" := [("a1.json",
                  Text (sample_record "a1" "other" "new" "high" []
                          "2024-01-01T10:00:00"))]]> empty_store).

(** A partition with a file that holds a list, before a record. *)
Definition store_stray : store :=
  <["issue" := [("notes.json", Text (JArr [JStr "todo"]));
                ("a1.json",
                 Text (sample_record "a1" "issue" "new" "high" ["ui"]
                         "2024-01-01T10:00:00"))]]> empty_store.

(** The payload of the update example of the specification. *)
Definition sample_updates : list (string * json) :=
  [("id", JStr "other-id"); ("created_at", JStr "1999-01-01");
   ("status", JStr "resolved")].

(** * Association lists *)

Section assoc_facts.
Context {V : Type}.
Implicit Types (l : list (string * V)) (k : string) (v : V).

Lemma assoc_get_set_eq l k v : assoc_get (assoc_set l k v) k = Some v.
Proof.
  induction l as [|[k' v'] l IH]; simpl.
  - by rewrite String.eqb_refl.
  - destruct (String.eqb_spec k' k) as [->|Hne]; simpl.
    + by rewrite String.eqb_refl.
    + destruct (String.eqb_spec k' k); [done|apply IH].
Qed.

Lemma assoc_get_set_ne l k k' v :
  k <> k' -> assoc_get (assoc_set l k v) k' = assoc_get l k'.
Proof.
  intros Hne. induction l as [|[k0 v0] l IH]; simpl.
  - destruct (String.eqb_spec k k'); [done|reflexivity].
  - destruct (String.eqb_spec k0 k) as [->|Hk]; simpl.
    + destruct (String.eqb_spec k k'); [done|reflexivity].
    + destruct (String.eqb_spec k0 k'); [reflexivity|apply IH].
Qed.

Lemma assoc_get_None l k : assoc_get l k = None <-> k ∉ l.*1.
Proof.
  induction l as [|[k' v'] l IH]; simpl.
  - split; [intros _; apply not_elem_of_nil|done].
  - rewrite not_elem_of_cons. destruct (String.eqb_spec k' k) as [->|Hk].
    + split; [done|intros [? _]; done].
    + rewrite IH. split; [intros ?; split; [congruence|done]|intros [_ ?]; done].
Qed.

Lemma assoc_get_Some_elem l k v : assoc_get l k = Some v -> (k, v) ∈ l.
Proof.
  induction l as [|[k' v'] l IH]; simpl; [done|].
  destruct (String.eqb_spec k' k) as [->|Hk].
  - intros [= ->]. apply list_elem_of_here.
  - intros H. apply list_elem_of_further, IH, H.
Qed.

End assoc_facts.

Lemma in_list_elem_of s l : in_list s l = true <-> s ∈ l.
Proof.
  unfold in_list. rewrite existsb_exists. split.
  - intros (x & Hin & Heq). apply String.eqb_eq in Heq as ->.
    by apply list_elem_of_In.
  - intros Hin. exists s. split; [by apply list_elem_of_In|apply String.eqb_refl].
Qed.

Lemma in_list_false s l : in_list s l = false <-> s ∉ l.
Proof.
  rewrite <-in_list_elem_of. destruct (in_list s l); split; try done.
Qed.

(** * The directory tree *)

Lemma file_at_write_eq st t name v st' :
  write_json st t name v = Ret st' -> file_at st' t name = Some (Text v).
Proof.
  unfold write_json, file_at. destruct (st !! t) as [d|] eqn:Hd; [|done].
  intros [= <-]. rewrite lookup_insert_eq. simpl. apply assoc_get_set_eq.
Qed.

Lemma file_at_write_ne st t name v st' t' name' :
  write_json st t name v = Ret st' -> (t', name') <> (t, name) ->
  file_at st' t' name' = file_at st t' name'.
Proof.
  unfold write_json, file_at. destruct (st !! t) as [d|] eqn:Hd; [|done].
  intros [= <-] Hne. destruct (decide (t' = t)) as [->|Ht].
  - rewrite lookup_insert_eq, Hd. simpl. apply assoc_get_set_ne. congruence.
  - by rewrite lookup_insert_ne.
Qed.

Lemma write_json_Ret st t name v :
  is_Some (st !! t) -> exists st', write_json st t name v = Ret st'.
Proof. intros [d Hd]. eexists. unfold write_json. by rewrite Hd. Qed.

Lemma write_json_initialised st t name v st' :
  write_json st t name v = Ret st' -> initialised st -> initialised st'.
Proof.
  unfold write_json. destruct (st !! t) as [d|] eqn:Hd; [|done].
  intros [= <-] Hi t' Ht'. destruct (decide (t' = t)) as [->|Hne].
  - rewrite lookup_insert_eq. eauto.
  - rewrite lookup_insert_ne by done. by apply Hi.
Qed.

Lemma path_exists_file_at st t name :
  path_exists st t name = true <-> is_Some (file_at st t name).
Proof.
  unfold path_exists. destruct (file_at st t name); split; eauto; try done.
Qed.

(** * get_feedback *)

Lemma get_feedback_in_locate st feedback_id types :
  get_feedback_in st feedback_id types =
    match locate st feedback_id types with
    | Some t =>
        match file_at st t (json_name feedback_id) with
        | Some (Text v) => v
        | _ => JNull
        end
    | None => JNull
    end.
Proof.
  induction types as [|t rest IH]; simpl; [done|].
  destruct (path_exists st t (json_name feedback_id)) eqn:He; [|apply IH].
  unfold read_json. by destruct (file_at st t (json_name feedback_id)) as [[]|].
Qed.

Lemma locate_None st feedback_id types :
  locate st feedback_id types = None <->
  forall t, t ∈ types -> path_exists st t (json_name feedback_id) = false.
Proof.
  induction types as [|t rest IH]; simpl.
  - split; [intros _ t Ht; inversion Ht|done].
  - destruct (path_exists st t (json_name feedback_id)) eqn:He.
    + split; [done|]. intros H. rewrite H in He; [done|left].
    + rewrite IH. split.
      * intros H t' Ht'. apply elem_of_cons in Ht' as [->|Ht']; [done|by apply H].
      * intros H t' Ht'. apply H. by right.
Qed.

Lemma get_feedback_absent st feedback_id :
  absent st feedback_id -> get_feedback st feedback_id = JNull.
Proof.
  intros Ha. unfold get_feedback. rewrite get_feedback_in_locate.
  by apply locate_None in Ha as ->.
Qed.

Lemma path_exists_write st t name v st' t' name' :
  write_json st t name v = Ret st' ->
  path_exists st' t' name' =
    if decide ((t', name') = (t, name)) then true else path_exists st t' name'.
Proof.
  intros Hw. unfold path_exists. case_decide as Heq.
  - injection Heq as -> ->. by rewrite (file_at_write_eq _ _ _ _ _ Hw).
  - by rewrite (file_at_write_ne _ _ _ _ _ _ _ Hw Heq).
Qed.

Lemma locate_Some st feedback_id types t :
  locate st feedback_id types = Some t ->
  t ∈ types /\ path_exists st t (json_name feedback_id) = true.
Proof.
  induction types as [|t0 rest IH]; simpl; [done|].
  destruct (path_exists st t0 (json_name feedback_id)) eqn:He.
  - intros [= <-]. split; [left|done].
  - intros H. destruct (IH H). split; [by right|done].
Qed.

(** After a write of the id's file into partition [t'], the search finds
    the partition that comes first: [t'] or the one it found before. *)
Lemma locate_write st t' feedback_id v st' types p :
  write_json st t' (json_name feedback_id) v = Ret st' ->
  locate st feedback_id types = Some p ->
  locate st' feedback_id types =
    Some (if Nat.ltb (rank t' types) (rank p types) then t' else p).
Proof.
  intros Hw. induction types as [|t0 rest IH]; simpl; [done|].
  rewrite (path_exists_write _ _ _ _ _ t0 (json_name feedback_id) Hw).
  case_decide as Heq.
  - injection Heq as ->. rewrite String.eqb_refl. intros Hp.
    destruct (String.eqb_spec t' p) as [->|Hne]; [done|done].
  - destruct (String.eqb_spec t0 t') as [->|Ht0]; [done|].
    destruct (path_exists st t0 (json_name feedback_id)) eqn:He.
    + intros [= <-]. by rewrite String.eqb_refl.
    + intros Hp. destruct (String.eqb_spec t0 p) as [->|Hp0].
      * apply locate_Some in Hp as [_ Hp]. congruence.
      * rewrite (IH Hp). done.
Qed.

Lemma locate_write_fresh st t feedback_id v st' types :
  write_json st t (json_name feedback_id) v = Ret st' ->
  t ∈ types ->
  locate st feedback_id types = None ->
  locate st' feedback_id types = Some t.
Proof.
  intros Hw Ht Hnone. rewrite locate_None in Hnone.
  induction types as [|t0 rest IH]; simpl; [inversion Ht|].
  rewrite (path_exists_write _ _ _ _ _ t0 (json_name feedback_id) Hw).
  case_decide as Heq; [by injection Heq as ->|].
  rewrite Hnone by left. apply IH.
  - apply elem_of_cons in Ht as [->|Ht]; [done|done].
  - intros t1 Ht1. apply Hnone. by right.
Qed.

(** * submit_feedback *)

(** The record [submit_feedback] builds, read back field by field. *)
Lemma submit_feedback_written st feedback_type title description priority
    tags context uuid now1 now2 :
  let t := if in_list feedback_type TYPES then feedback_type else "other" in
  let p := if in_list priority PRIORITIES then priority else "medium" in
  is_Some (st !! t) ->
  exists st' kv,
    submit_feedback st feedback_type title description priority tags context
      uuid now1 now2 = (uuid, st') /\
    write_json st t (json_name uuid) (JObj kv) = Ret st' /\
    assoc_get kv "id" = Some (JStr uuid) /\
    assoc_get kv "type" = Some (JStr t) /\
    assoc_get kv "title" = Some (JStr title) /\
    assoc_get kv "description" = Some (JStr description) /\
    assoc_get kv "priority" = Some (JStr p) /\
    assoc_get kv "tags" = Some (JArr (map JStr (default [] tags))) /\
    assoc_get kv "context" = Some (JObj (default [] context)) /\
    assoc_get kv "status" = Some (JStr "new") /\
    assoc_get kv "comments" = Some (JArr []).
Proof.
  intros t p Hdir. unfold submit_feedback. fold t. fold p.
  destruct (write_json_Ret st t (json_name uuid)
    (JObj [("id", JStr uuid); ("type", JStr t); ("title", JStr title);
           ("description", JStr description); ("priority", JStr p);
           ("tags", JArr (map JStr (default [] tags)));
           ("context", JObj (default [] context)); ("status", JStr "new");
           ("created_at", JStr now1); ("updated_at", JStr now2);
           ("comments", JArr [])]) Hdir) as [st' Hw].
  rewrite Hw. eexists st', _. split; [reflexivity|]. split; [exact Hw|].
  repeat split; reflexivity.
Qed.

Lemma TYPES_other : "other" ∈ TYPES.
Proof. apply in_list_elem_of. reflexivity. Qed.

(** C3.  In a store whose five partitions exist, [submit_feedback] returns
    the new id whatever the [type] and [priority] strings are, and the
    record it wrote is read back with type ["other"] when the given type is
    outside the closed set, priority ["medium"] when the given priority is
    outside its closed set, and the given values otherwise. *)
Theorem submit_feedback_coerces_enums st feedback_type title description
    priority tags context uuid now1 now2 :
  initialised st ->
  exists st' t kv,
    submit_feedback st feedback_type title description priority tags context
      uuid now1 now2 = (uuid, st') /\
    read_json st' t (json_name uuid) = Ret (JObj kv) /\
    assoc_get kv "type" = Some (JStr t) /\
    (feedback_type ∈ TYPES -> t = feedback_type) /\
    (feedback_type ∉ TYPES -> t = "other") /\
    (priority ∈ PRIORITIES -> assoc_get kv "priority" = Some (JStr priority)) /\
    (priority ∉ PRIORITIES -> assoc_get kv "priority" = Some (JStr "medium")).
Proof.
  intros Hinit.
  pose proof (submit_feedback_written st feedback_type title description
                priority tags context uuid now1 now2) as H. cbv zeta in H.
  destruct H as (st' & kv & Hs & Hw & _ & Hty & _ & _ & Hpr & _).
  - apply Hinit. destruct (in_list feedback_type TYPES) eqn:E.
    + by apply in_list_elem_of. 
    + apply TYPES_other.
  - eexists st', _, kv. split; [exact Hs|]. split.
    { unfold read_json. by rewrite (file_at_write_eq _ _ _ _ _ Hw). }
    split; [exact Hty|].
    split; [intros Hin; apply in_list_elem_of in Hin; by rewrite Hin|].
    split; [intros Hin; apply in_list_false in Hin; by rewrite Hin|].
    split; intros Hin.
    + apply in_list_elem_of in Hin. by rewrite Hin in Hpr.
    + apply in_list_false in Hin. by rewrite Hin in Hpr.
Qed.

Lemma initialised_empty_store : initialised empty_store.
Proof.
  intros t Ht. unfold TYPES in Ht.
  repeat (apply elem_of_cons in Ht as [->|Ht]; [vm_compute; eauto|]).
  inversion Ht.
Qed.

Lemma submit_feedback_coerces_enums_witness :
  exists st' t kv,
    submit_feedback empty_store "bogus" "T" "D" "urgent" None None
      "id-1" "2024-01-01T10:00:00" "2024-01-01T10:00:01" = ("id-1", st') /\
    read_json st' t (json_name "id-1") = Ret (JObj kv) /\
    assoc_get kv "type" = Some (JStr t) /\
    ("bogus" ∈ TYPES -> t = "bogus") /\
    ("bogus" ∉ TYPES -> t = "other") /\
    ("urgent" ∈ PRIORITIES -> assoc_get kv "priority" = Some (JStr "urgent")) /\
    ("urgent" ∉ PRIORITIES -> assoc_get kv "priority" = Some (JStr "medium")).
Proof.
  apply (submit_feedback_coerces_enums empty_store "bogus" "T" "D" "urgent"
           None None "id-1" "2024-01-01T10:00:00" "2024-01-01T10:00:01").
  apply initialised_empty_store.
Defined.

(** C5.  For a valid [type] and [priority], in a store whose partitions
    exist and where the generated id is fresh, [submit_feedback] followed by
    [get_feedback] of the returned id yields a record with the submitted
    title, description, tags and context (an omitted [tags] is the empty
    list, an omitted [context] the empty mapping), status ["new"] and an
    empty comment list. *)
Theorem submit_then_get st feedback_type title description priority tags
    context uuid now1 now2 :
  initialised st ->
  feedback_type ∈ TYPES ->
  priority ∈ PRIORITIES ->
  absent st uuid ->
  exists st' kv,
    submit_feedback st feedback_type title description priority tags context
      uuid now1 now2 = (uuid, st') /\
    get_feedback st' uuid = JObj kv /\
    assoc_get kv "title" = Some (JStr title) /\
    assoc_get kv "description" = Some (JStr description) /\
    assoc_get kv "tags" = Some (JArr (map JStr (default [] tags))) /\
    assoc_get kv "context" = Some (JObj (default [] context)) /\
    assoc_get kv "status" = Some (JStr "new") /\
    assoc_get kv "comments" = Some (JArr []) /\
    assoc_get kv "type" = Some (JStr feedback_type) /\
    assoc_get kv "priority" = Some (JStr priority).
Proof.
  intros Hinit Hty Hpr Habs.
  pose proof (submit_feedback_written st feedback_type title description
                priority tags context uuid now1 now2) as H. cbv zeta in H.
  apply in_list_elem_of in Hpr as Hpr'. rewrite Hpr' in H.
  apply in_list_elem_of in Hty as Hty'. rewrite Hty' in H.
  destruct H as (st' & kv & Hs & Hw & _ & Hkty & Hti & Hde & Hkpr & Hta & Hco
                 & Hst & Hcm); [by apply Hinit|].
  exists st', kv. split; [exact Hs|]. split; [|by repeat split].
  unfold get_feedback. rewrite get_feedback_in_locate.
  rewrite (locate_write_fresh _ _ _ _ _ _ Hw Hty).
  - by rewrite (file_at_write_eq _ _ _ _ _ Hw).
  - by apply locate_None.
Qed.

Lemma absent_empty_store feedback_id : absent empty_store feedback_id.
Proof.
  intros t Ht. unfold TYPES in Ht. unfold path_exists, file_at.
  repeat (apply elem_of_cons in Ht as [->|Ht]; [reflexivity|]).
  inversion Ht.
Qed.

Lemma submit_then_get_witness :
  exists st' kv,
    submit_feedback empty_store "issue" "Crash" "It crashes" "high"
      (Some ["ui"; "bug"]) (Some [("os", JStr "linux")])
      "id-1" "2024-01-01T10:00:00" "2024-01-01T10:00:01" = ("id-1", st') /\
    get_feedback st' "id-1" = JObj kv /\
    assoc_get kv "title" = Some (JStr "Crash") /\
    assoc_get kv "description" = Some (JStr "It crashes") /\
    assoc_get kv "tags" = Some (JArr [JStr "ui"; JStr "bug"]) /\
    assoc_get kv "context" = Some (JObj [("os", JStr "linux")]) /\
    assoc_get kv "status" = Some (JStr "new") /\
    assoc_get kv "comments" = Some (JArr []) /\
    assoc_get kv "type" = Some (JStr "issue") /\
    assoc_get kv "priority" = Some (JStr "high").
Proof.
  apply (submit_then_get empty_store "issue" "Crash" "It crashes" "high"
           (Some ["ui"; "bug"]) (Some [("os", JStr "linux")])
           "id-1" "2024-01-01T10:00:00" "2024-01-01T10:00:01").
  - apply initialised_empty_store.
  - apply in_list_elem_of. reflexivity.
  - apply in_list_elem_of. reflexivity.
  - apply absent_empty_store.
Defined.

(** * update_feedback *)

Lemma apply_updates_not_in kv updates k :
  k ∉ updates.*1 -> assoc_get (apply_updates kv updates) k = assoc_get kv k.
Proof.
  revert kv. induction updates as [|[k0 v0] rest IH]; intros kv Hk; [done|].
  cbn [fmap list_fmap fst] in Hk. apply not_elem_of_cons in Hk as [Hne Hk].
  cbn [apply_updates].
  destruct (in_list k0 ["id"; "created_at"]); [by apply IH|].
  rewrite IH by done. apply assoc_get_set_ne. congruence.
Qed.

Lemma apply_updates_protected kv updates k :
  k ∈ ["id"; "created_at"] ->
  assoc_get (apply_updates kv updates) k = assoc_get kv k.
Proof.
  intros Hk. revert kv. induction updates as [|[k0 v0] rest IH]; intros kv; [done|].
  cbn [apply_updates].
  destruct (in_list k0 ["id"; "created_at"]) eqn:E; [apply IH|].
  rewrite IH. apply assoc_get_set_ne. intros ->.
  apply in_list_elem_of in Hk. congruence.
Qed.

Lemma apply_updates_applied kv updates k v :
  NoDup updates.*1 -> (k, v) ∈ updates -> k ∉ ["id"; "created_at"] ->
  assoc_get (apply_updates kv updates) k = Some v.
Proof.
  intros Hnd Hin Hk. revert kv.
  induction updates as [|[k0 v0] rest IH]; intros kv; [inversion Hin|].
  cbn [fmap list_fmap fst] in Hnd. apply NoDup_cons in Hnd as [Hk0 Hnd].
  apply elem_of_cons in Hin as [[= -> ->]|Hin]; cbn [apply_updates].
  - apply in_list_false in Hk. rewrite Hk.
    rewrite apply_updates_not_in by done. apply assoc_get_set_eq.
  - destruct (in_list k0 ["id"; "created_at"]); by apply IH.
Qed.

(** What a call of [update_feedback] that returns [True] has done. *)
Lemma update_feedback_true st feedback_id updates now st' :
  update_feedback st feedback_id updates now = (Ret true, st') ->
  exists kv t,
    get_feedback st feedback_id = JObj kv /\
    assoc_get (apply_updates kv updates) "type" = Some (JStr t) /\
    write_json st t (json_name feedback_id)
      (JObj (assoc_set (apply_updates kv updates) "updated_at" (JStr now)))
      = Ret st'.
Proof.
  unfold update_feedback.
  destruct (truthy (get_feedback st feedback_id)); simpl; [|done].
  destruct (get_feedback st feedback_id) as [| | | | |kv]; try done.
  rewrite assoc_get_set_ne by done.
  destruct (assoc_get (apply_updates kv updates) "type") as [[| | |t| |]|] eqn:Hty;
    try done.
  destruct (write_json st t (json_name feedback_id) _) as [st2|] eqn:Hw; [|done].
  intros [= <-]. by exists kv, t.
Qed.

(** A call that does not return [True] has written nothing. *)
Lemma update_feedback_not_true st feedback_id updates now r st' :
  update_feedback st feedback_id updates now = (r, st') ->
  r <> Ret true -> st' = st.
Proof.
  unfold update_feedback.
  destruct (negb (truthy (get_feedback st feedback_id))); [by intros [= <- <-]|].
  destruct (get_feedback st feedback_id) as [| | | | |kv];
    try by intros [= <- <-].
  destruct (assoc_get _ "type") as [[| | |t| |]|]; try by intros [= <- <-].
  destruct (write_json st t (json_name feedback_id) _) as [st2|];
    [|by intros [= <- <-]].
  by intros [= <- <-] ?.
Qed.

Lemma get_feedback_JObj st feedback_id kv :
  get_feedback st feedback_id = JObj kv ->
  exists p, locate st feedback_id TYPES = Some p /\
            file_at st p (json_name feedback_id) = Some (Text (JObj kv)).
Proof.
  unfold get_feedback. rewrite get_feedback_in_locate.
  destruct (locate st feedback_id TYPES) as [p|]; [|done].
  destruct (file_at st p (json_name feedback_id)) as [[v|]|] eqn:Hf; try done.
  intros ->. by exists p.
Qed.

(** After a successful write of the id's file, [get_feedback] returns the
    record it returned before or the record just written. *)
Lemma get_feedback_after_write st t feedback_id kv kv' st' :
  get_feedback st feedback_id = JObj kv ->
  write_json st t (json_name feedback_id) (JObj kv') = Ret st' ->
  exists p, locate st feedback_id TYPES = Some p /\
    get_feedback st' feedback_id =
      if Nat.ltb (rank t TYPES) (rank p TYPES) then JObj kv'
      else if decide (p = t) then JObj kv' else JObj kv.
Proof.
  intros Hget Hw. apply get_feedback_JObj in Hget as (p & Hloc & Hfile).
  exists p. split; [done|].
  unfold get_feedback. rewrite get_feedback_in_locate.
  rewrite (locate_write _ _ _ _ _ _ _ Hw Hloc).
  destruct (Nat.ltb (rank t TYPES) (rank p TYPES)).
  - by rewrite (file_at_write_eq _ _ _ _ _ Hw).
  - case_decide as Hpt.
    + subst p. by rewrite (file_at_write_eq _ _ _ _ _ Hw).
    + rewrite (file_at_write_ne _ _ _ _ _ _ _ Hw) by congruence.
      by rewrite Hfile.
Qed.

(** C1.  Whatever the payload and whatever the outcome, the [id] and the
    [created_at] that [get_feedback] reports for the id are the same after
    [update_feedback] as before.  A call that does not return [True] leaves
    the tree as it was.  A call that returns [True] has written, under the
    partition named by the record's resulting [type], the loaded record
    with [id] and [created_at] as loaded, every other key of the payload set
    to the payload's value, [updated_at] set to the clock reading (also
    when the payload carries an [updated_at] of its own), the keys the
    payload does not mention as loaded, and no other file touched. *)
Theorem update_feedback_keeps_id_and_created_at st feedback_id updates now r st' :
  NoDup updates.*1 ->
  update_feedback st feedback_id updates now = (r, st') ->
  py_get (get_feedback st' feedback_id) "id"
    = py_get (get_feedback st feedback_id) "id" /\
  py_get (get_feedback st' feedback_id) "created_at"
    = py_get (get_feedback st feedback_id) "created_at" /\
  (r <> Ret true -> st' = st) /\
  (r = Ret true ->
   exists kv kv' t,
     get_feedback st feedback_id = JObj kv /\
     file_at st' t (json_name feedback_id) = Some (Text (JObj kv')) /\
     assoc_get kv' "type" = Some (JStr t) /\
     assoc_get kv' "id" = assoc_get kv "id" /\
     assoc_get kv' "created_at" = assoc_get kv "created_at" /\
     assoc_get kv' "updated_at" = Some (JStr now) /\
     (forall k v, (k, v) ∈ updates ->
                  k ∉ ["id"; "created_at"; "updated_at"] ->
                  assoc_get kv' k = Some v) /\
     (forall k, k ∉ updates.*1 -> k <> "updated_at" ->
                assoc_get kv' k = assoc_get kv k) /\
     (forall t' name, (t', name) <> (t, json_name feedback_id) ->
                      file_at st' t' name = file_at st t' name)).
Proof.
  intros Hnd Hup.
  assert (r = Ret true \/ r <> Ret true) as [->|Hr]
    by (destruct r as [[|]|]; [by left|by right|by right]).
  - destruct (update_feedback_true _ _ _ _ _ Hup) as (kv & t & Hget & Hty & Hw).
    set (kv' := assoc_set (apply_updates kv updates) "updated_at" (JStr now)) in *.
    assert (Hid : assoc_get kv' "id" = assoc_get kv "id").
    { unfold kv'. rewrite assoc_get_set_ne by done.
      apply apply_updates_protected, in_list_elem_of. reflexivity. }
    assert (Hcr : assoc_get kv' "created_at" = assoc_get kv "created_at").
    { unfold kv'. rewrite assoc_get_set_ne by done.
      apply apply_updates_protected, in_list_elem_of. reflexivity. }
    destruct (get_feedback_after_write _ _ _ _ _ _ Hget Hw) as (p & _ & Hafter).
    assert (Hcases : get_feedback st' feedback_id = JObj kv'
                     \/ get_feedback st' feedback_id = JObj kv).
    { rewrite Hafter. destruct (Nat.ltb _ _); [by left|].
      case_decide; [by left|by right]. }
    split; [|split; [|split; [done|]]].
    + rewrite Hget. destruct Hcases as [-> | ->]; simpl; by rewrite ?Hid.
    + rewrite Hget. destruct Hcases as [-> | ->]; simpl; by rewrite ?Hcr.
    + intros _. exists kv, kv', t. split; [done|].
      split; [by apply (file_at_write_eq _ _ _ _ _ Hw)|].
      split; [unfold kv'; by rewrite assoc_get_set_ne|].
      split; [done|]. split; [done|].
      split; [apply assoc_get_set_eq|].
      split; [|split].
      * intros k v Hin Hk. unfold kv'.
        rewrite !not_elem_of_cons in Hk. destruct Hk as (H1 & H2 & H3 & _).
        rewrite assoc_get_set_ne by done.
        apply apply_updates_applied; [done|done|].
        rewrite !not_elem_of_cons. by repeat split; try apply not_elem_of_nil.
      * intros k Hk Hne. unfold kv'. rewrite assoc_get_set_ne by done.
        by apply apply_updates_not_in.
      * intros t' name Hne. by apply (file_at_write_ne _ _ _ _ _ _ _ Hw).
  - rewrite (update_feedback_not_true _ _ _ _ _ _ Hup Hr). by repeat split.
Qed.



Lemma update_feedback_keeps_id_and_created_at_witness :
  let r := (update_feedback store_a1 "a1" sample_updates "2024-02-01T00:00:00").1 in
  let st' := (update_feedback store_a1 "a1" sample_updates "2024-02-01T00:00:00").2 in
  r = Ret true /\
  py_get (get_feedback st' "a1") "id" = Ret (JStr "a1") /\
  py_get (get_feedback st' "a1") "created_at" = Ret (JStr "2024-01-01T10:00:00") /\
  py_get (get_feedback st' "a1") "status" = Ret (JStr "resolved") /\
  py_get (get_feedback st' "a1") "updated_at" = Ret (JStr "2024-02-01T00:00:00") /\
  py_get (get_feedback st' "a1") "id" = py_get (get_feedback store_a1 "a1") "id" /\
  py_get (get_feedback st' "a1") "created_at"
    = py_get (get_feedback store_a1 "a1") "created_at".
Proof.
  intros r st'.
  pose proof (update_feedback_keeps_id_and_created_at store_a1 "a1"
                sample_updates "2024-02-01T00:00:00" r st') as H.
  destruct H as (Hid & Hcr & _).
  - apply (bool_decide_unpack _). vm_compute. exact I.
  - reflexivity.
  - split; [reflexivity|]. split; [vm_compute; reflexivity|].
    split; [vm_compute; reflexivity|]. split; [vm_compute; reflexivity|].
    split; [vm_compute; reflexivity|]. split; [exact Hid|exact Hcr].
Defined.

(** C10.  A record filed under its type [p] whose payload sets ["type"] to
    another valid type [t']: the call returns [True], the new version is
    written under [t'], the file under [p] still holds the version from
    before the call, and [get_feedback] afterwards returns the copy of the
    partition that comes first in the fixed search order, the new version
    when [t'] precedes [p] and the one from before the call otherwise. *)
Theorem update_feedback_type_change st feedback_id updates now p kv t' :
  initialised st ->
  locate st feedback_id TYPES = Some p ->
  file_at st p (json_name feedback_id) = Some (Text (JObj kv)) ->
  assoc_get kv "type" = Some (JStr p) ->
  NoDup updates.*1 ->
  ("type", JStr t') ∈ updates ->
  t' ∈ TYPES ->
  t' <> p ->
  exists st' kv',
    update_feedback st feedback_id updates now = (Ret true, st') /\
    file_at st' p (json_name feedback_id) = Some (Text (JObj kv)) /\
    file_at st' t' (json_name feedback_id) = Some (Text (JObj kv')) /\
    assoc_get kv' "type" = Some (JStr t') /\
    assoc_get kv' "id" = assoc_get kv "id" /\
    kv' <> kv /\
    get_feedback st' feedback_id =
      if Nat.ltb (rank t' TYPES) (rank p TYPES) then JObj kv' else JObj kv.
Proof.
  intros Hinit Hloc Hfile Hkty Hnd Hin Ht' Hne.
  assert (Hget : get_feedback st feedback_id = JObj kv).
  { unfold get_feedback. rewrite get_feedback_in_locate, Hloc. by rewrite Hfile. }
  set (kv' := assoc_set (apply_updates kv updates) "updated_at" (JStr now)).
  assert (Hty : assoc_get (apply_updates kv updates) "type" = Some (JStr t')).
  { apply apply_updates_applied; [done|done|].
    rewrite !not_elem_of_cons. by repeat split; try apply not_elem_of_nil. }
  destruct (write_json_Ret st t' (json_name feedback_id) (JObj kv')
              (Hinit _ Ht')) as [st' Hw].
  assert (Hup : update_feedback st feedback_id updates now = (Ret true, st')).
  { unfold update_feedback. rewrite Hget.
    destruct kv as [|kv0 kvr]; [done|]. cbn [truthy negb].
    rewrite assoc_get_set_ne by done. rewrite Hty. fold kv'. by rewrite Hw. }
  assert (Hty' : assoc_get kv' "type" = Some (JStr t')).
  { unfold kv'. by rewrite assoc_get_set_ne. }
  exists st', kv'. split; [done|].
  split; [rewrite (file_at_write_ne _ _ _ _ _ _ _ Hw) by congruence; done|].
  split; [by apply (file_at_write_eq _ _ _ _ _ Hw)|].
  split; [done|]. split.
  { unfold kv'. rewrite assoc_get_set_ne by done.
    apply apply_updates_protected, in_list_elem_of. reflexivity. }
  split; [intros Heq; rewrite Heq in Hty'; congruence|].
  destruct (get_feedback_after_write _ _ _ _ _ _ Hget Hw) as (p' & Hloc' & ->).
  assert (p' = p) as -> by congruence.
  destruct (Nat.ltb _ _); [done|]. by case_decide.
Qed.

Lemma update_feedback_type_change_witness :
  exists st' kv',
    update_feedback store_a1 "a1"
      [("type", JStr "other"); ("status", JStr "resolved")]
      "2024-02-01T00:00:00" = (Ret true, st') /\
    file_at st' "issue" (json_name "a1")
      = Some (Text (sample_record "a1" "issue" "new" "high" ["ui"]
                      "2024-01-01T10:00:00")) /\
    file_at st' "other" (json_name "a1") = Some (Text (JObj kv')) /\
    assoc_get kv' "type" = Some (JStr "other") /\
    assoc_get kv' "id" = Some (JStr "a1") /\
    JObj kv' <> sample_record "a1" "issue" "new" "high" ["ui"]
                  "2024-01-01T10:00:00" /\
    get_feedback st' "a1"
      = sample_record "a1" "issue" "new" "high" ["ui"] "2024-01-01T10:00:00".
Proof.
  destruct (update_feedback_type_change store_a1 "a1"
              [("type", JStr "other"); ("status", JStr "resolved")]
              "2024-02-01T00:00:00" "issue"
              [("id", JStr "a1"); ("type", JStr "issue");
               ("title", JStr "Crash"); ("description", JStr "It crashes");
               ("priority", JStr "high"); ("tags", JArr [JStr "ui"]);
               ("context", JObj []); ("status", JStr "new");
               ("created_at", JStr "2024-01-01T10:00:00");
               ("updated_at", JStr "2024-01-01T10:00:00");
               ("comments", JArr [])] "other")
    as (st' & kv' & Hup & Hold & Hnew & Hty & Hid & Hne & Hget).
  - intros t Ht. unfold TYPES in Ht.
    repeat (apply elem_of_cons in Ht as [->|Ht]; [vm_compute; eauto|]).
    inversion Ht.
  - reflexivity.
  - reflexivity.
  - reflexivity.
  - apply (bool_decide_unpack _). vm_compute. exact I.
  - apply list_elem_of_here.
  - apply in_list_elem_of. reflexivity.
  - discriminate.
  - exists st', kv'. split; [exact Hup|]. split; [exact Hold|].
    split; [exact Hnew|]. split; [exact Hty|]. split; [exact Hid|].
    split; [intros [= Heq]; by apply Hne|exact Hget].
Defined.

(** * list_feedback: the scan *)

Section scan.
Variables (st : store) (status priority : option string)
          (tags : option (list string)) (limit : Z).

Lemma scan_files_spec directory filenames results :
  (Z.of_nat (List.length results) < limit)%Z ->
  scan_files st directory filenames status priority tags limit results =
    take (Z.to_nat limit)
      (results ++ omap (passing_file st directory status priority tags)
                    filenames)%list.
Proof.
  revert results. induction filenames as [|filename rest IH];
    intros results Hlt.
  - simpl. rewrite app_nil_r, take_ge; [done|lia].
  - cbn [scan_files omap list_omap]. unfold passing_file at 1.
    destruct (endswith filename ".json"); cbn [negb]; [|by apply IH].
    destruct (read_json st directory filename) as [fd|]; [|by apply IH].
    destruct (record_passes status priority tags fd) as [[|]|];
      [|by apply IH|by apply IH].
    replace (results ++ fd :: omap (passing_file st directory status priority tags) rest)%list
      with ((results ++ [fd]) ++ omap (passing_file st directory status priority tags) rest)%list
      by (by rewrite <-app_assoc).
    destruct (Z.leb_spec limit (Z.of_nat (List.length (results ++ [fd])))) as [Hge|Hlt'].
    + rewrite length_app in Hge. simpl in Hge.
      rewrite take_app_le by (rewrite length_app; simpl; lia).
      rewrite take_ge; [done|rewrite length_app; simpl; lia].
    + by apply IH.
Qed.

Lemma scan_dirs_spec directories results :
  (Z.of_nat (List.length results) < limit)%Z ->
  scan_dirs st directories status priority tags limit results =
    take (Z.to_nat limit)
      (results ++ candidates st directories status priority tags)%list.
Proof.
  revert results. induction directories as [|directory rest IH];
    intros results Hlt.
  - simpl. rewrite app_nil_r, take_ge; [done|lia].
  - cbn [scan_dirs candidates flat_map]. fold (candidates st rest status priority tags).
    unfold dir_candidates at 1.
    destruct (st !! directory) as [d|]; [|by apply IH].
    rewrite scan_files_spec by done. rewrite app_assoc.
    set (l := (results ++ omap _ (map fst d))%list).
    destruct (Z.leb_spec limit (Z.of_nat (List.length (take (Z.to_nat limit) l))))
      as [Hge|Hlt'].
    + rewrite length_take in Hge.
      by rewrite take_app_le by lia.
    + rewrite length_take in Hlt'.
      rewrite take_ge by lia. apply IH. lia.
Qed.
End scan.

(** * The order of the sort keys *)

Lemma string_ltb_lt a b : String.ltb a b = true <-> String_as_OT.lt a b.
Proof.
  rewrite <-String_as_OT.cmp_lt. unfold String.ltb, String_as_OT.cmp.
  destruct (String.compare a b); split; congruence.
Qed.

Lemma string_ltb_asym a b : String.ltb a b = true -> String.ltb b a = false.
Proof.
  unfold String.ltb. rewrite (String.compare_antisym a b).
  by destruct (String.compare b a).
Qed.

Lemma string_ltb_trans a b c :
  String.ltb a b = true -> String.ltb b c = true -> String.ltb a c = true.
Proof. rewrite !string_ltb_lt. apply String_as_OT.lt_trans. Qed.

Lemma string_ltb_total a b :
  String.ltb a b = false -> String.ltb b a = false -> a = b.
Proof.
  unfold String.ltb. rewrite (String.compare_antisym a b).
  destruct (String.compare b a) eqn:E; simpl; try done.
  intros _ _. symmetry. by apply String.compare_eq_iff.
Qed.

(** Not-less is transitive: the order is total. *)
Lemma string_geb_trans a b c :
  String.ltb a b = false -> String.ltb b c = false -> String.ltb a c = false.
Proof.
  intros Hab Hbc. destruct (String.ltb a c) eqn:Hac; [|done].
  destruct (String.ltb b a) eqn:Hba.
  - by rewrite (string_ltb_trans b a c Hba Hac) in Hbc.
  - rewrite (string_ltb_total a b Hab Hba) in Hac. congruence.
Qed.

Lemma key_lt_asym a b : key_lt a b = Ret true -> key_lt b a = Ret false.
Proof.
  destruct a as [ | [ | ] | n1 | s1 | l1 | kv1 ],
    b as [ | [ | ] | n2 | s2 | l2 | kv2 ];
    simpl; try done; intros [= H]; f_equal;
    try (by apply string_ltb_asym); lia.
Qed.

Lemma key_ge_trans a b c :
  key_lt a b = Ret false -> key_lt b c = Ret false -> key_lt a c = Ret false.
Proof.
  destruct a as [ | [ | ] | n1 | s1 | l1 | kv1 ],
    b as [ | [ | ] | n2 | s2 | l2 | kv2 ];
    simpl; try done;
    destruct c as [ | [ | ] | n3 | s3 | l3 | kv3 ]; simpl; try done;
    intros H1 H2; simplify_eq; f_equal;
    try (by eapply string_geb_trans); lia.
Qed.

(** * list_feedback: the sort *)

Lemma decorate_Ret results keyed :
  decorate results = Ret keyed ->
  map snd keyed = results /\
  Forall (fun p => created_key p.2 = Ret p.1) keyed.
Proof.
  revert keyed. induction results as [|x r IH]; intros keyed; simpl.
  - intros [= <-]. by split.
  - destruct (created_key x) as [k|] eqn:Hk; [|done]. simpl.
    destruct (decorate r) as [d|]; [|done]. simpl. intros [= <-].
    destruct (IH d eq_refl) as [Hm Hf]. simpl. split; [by rewrite Hm|].
    by constructor.
Qed.

Lemma insert_desc_perm p l l' : insert_desc p l = Ret l' -> l' ≡ₚ p :: l.
Proof.
  revert l'. induction l as [|q r IH]; intros l'; simpl.
  - by intros [= <-].
  - destruct (key_lt p.1 q.1) as [[|]|]; simpl; [|by intros [= <-]|done].
    destruct (insert_desc p r) as [r'|]; [|done]. simpl. intros [= <-].
    rewrite (IH r' eq_refl). apply Permutation_swap.
Qed.

Lemma sort_desc_perm l s : sort_desc l = Ret s -> s ≡ₚ l.
Proof.
  revert s. induction l as [|p r IH]; intros s; simpl.
  - by intros [= <-].
  - destruct (sort_desc r) as [s0|]; [|done]. simpl. intros Hi.
    rewrite (insert_desc_perm _ _ _ Hi). by rewrite (IH s0 eq_refl).
Qed.

Lemma insert_desc_sorted p l l' :
  keys_descending l -> insert_desc p l = Ret l' -> keys_descending l'.
Proof.
  unfold keys_descending. revert l'.
  induction l as [|q r IH]; intros l' Hs; simpl.
  - intros [= <-]. by repeat constructor.
  - apply StronglySorted_inv in Hs as [Hr Hq].
    destruct (key_lt p.1 q.1) as [[|]|] eqn:Hpq; simpl; [| |done].
    + destruct (insert_desc p r) as [r'|] eqn:Hi; [|done]. simpl.
      intros [= <-]. constructor; [by apply IH|].
      rewrite (insert_desc_perm _ _ _ Hi). constructor; [|done].
      by apply key_lt_asym.
    + intros [= <-]. constructor; [by constructor|].
      constructor; [done|].
      eapply Forall_impl; [exact Hq|]. intros z Hz. simpl in Hz.
      by eapply key_ge_trans.
Qed.

Lemma sort_desc_sorted l s : sort_desc l = Ret s -> keys_descending s.
Proof.
  revert s. induction l as [|p r IH]; intros s; simpl.
  - intros [= <-]. constructor.
  - destruct (sort_desc r) as [s0|]; [|done]. simpl.
    apply insert_desc_sorted. by apply IH.
Qed.

Lemma StronglySorted_take {A} (R : A -> A -> Prop) n l :
  StronglySorted R l -> StronglySorted R (take n l).
Proof.
  revert n. induction l as [|x l IH]; intros [|n] Hs; simpl; try constructor.
  - apply StronglySorted_inv in Hs as [Hl _]. by apply IH.
  - apply StronglySorted_inv in Hs as [_ Hx].
    by apply Forall_take.
Qed.

Lemma keys_descending_newest_first sorted :
  keys_descending sorted ->
  Forall (fun p => created_key p.2 = Ret p.1) sorted ->
  newest_first (map snd sorted).
Proof.
  unfold keys_descending, newest_first.
  induction sorted as [|p r IH]; intros Hs Hk; simpl; [constructor|].
  apply StronglySorted_inv in Hs as [Hr Hp].
  apply Forall_cons in Hk as [Hkp Hkr].
  constructor; [by apply IH|].
  apply Forall_fmap, Forall_forall. intros q Hq. simpl.
  exists p.1, q.1. split; [done|]. split.
  - by apply (proj1 (Forall_forall _ _) Hkr).
  - by apply (proj1 (Forall_forall _ _) Hp).
Qed.

Lemma list_feedback_Ret st feedback_type status priority tags limit results :
  list_feedback st feedback_type status priority tags limit = Ret results ->
  exists keyed sorted,
    decorate (scan_dirs st (search_directories feedback_type)
                status priority tags limit []) = Ret keyed /\
    sort_desc keyed = Ret sorted /\
    results = slice_to (map snd sorted) limit.
Proof.
  unfold list_feedback.
  destruct (decorate _) as [keyed|] eqn:Hd; [|done]. simpl.
  destruct (sort_desc keyed) as [sorted|] eqn:Hs; [|done]. simpl.
  intros [= <-]. by exists keyed, sorted.
Qed.

Lemma slice_to_take {A} (l : list A) limit :
  exists n, slice_to l limit = take n l.
Proof. unfold slice_to. destruct (0 <=? limit)%Z; eauto. Qed.

Lemma slice_to_all {A} (l : list A) limit :
  (Z.of_nat (List.length l) <= limit)%Z -> slice_to l limit = l.
Proof.
  intros Hle. unfold slice_to.
  destruct (Z.leb_spec 0 limit); [|lia]. apply take_ge. lia.
Qed.

(** The returned list is in descending order of the keys, for every store,
    filter and limit. *)
Lemma list_feedback_sorted st feedback_type status priority tags limit results :
  list_feedback st feedback_type status priority tags limit = Ret results ->
  newest_first results.
Proof.
  intros H. apply list_feedback_Ret in H as (keyed & sorted & Hd & Hs & ->).
  destruct (slice_to_take (map snd sorted) limit) as [n ->].
  apply StronglySorted_take, keys_descending_newest_first.
  - by eapply sort_desc_sorted.
  - rewrite (sort_desc_perm _ _ Hs). by apply decorate_Ret in Hd as [_ Hd].
Qed.

(** With a limit of at least one, the returned list holds the first
    [limit] passing records of the scan. *)
Lemma list_feedback_perm st feedback_type status priority tags limit results :
  (1 <= limit)%Z ->
  list_feedback st feedback_type status priority tags limit = Ret results ->
  results ≡ₚ take (Z.to_nat limit)
               (candidates st (search_directories feedback_type)
                  status priority tags).
Proof.
  intros Hlim H. apply list_feedback_Ret in H as (keyed & sorted & Hd & Hs & ->).
  rewrite scan_dirs_spec in Hd by (simpl; lia). simpl in Hd.
  apply decorate_Ret in Hd as [Hm _].
  rewrite slice_to_all.
  - rewrite <-Hm. apply Permutation_map. by apply sort_desc_perm.
  - rewrite length_map, (Permutation_length (sort_desc_perm _ _ Hs)).
    rewrite <-(length_map snd), Hm, length_take. lia.
Qed.

Lemma decorate_total results :
  Forall (fun x => exists k, created_key x = Ret k) results ->
  decorate results = Ret (map with_key results).
Proof.
  induction 1 as [|x r [k Hk] _ IH]; simpl; [done|].
  unfold with_key at 1. rewrite Hk. simpl. by rewrite IH.
Qed.

Lemma insert_desc_total p l :
  Forall (fun q => exists s, q.1 = JStr s) (p :: l) ->
  exists l', insert_desc p l = Ret l'.
Proof.
  intros H. apply Forall_cons in H as [[s Hs] Hl].
  induction Hl as [|q r [s' Hs'] _ IH]; simpl; [eauto|].
  rewrite Hs, Hs'. simpl. destruct (String.ltb s s'); [|eauto].
  destruct IH as [l' ->]. simpl. eauto.
Qed.

Lemma sort_desc_total l :
  Forall (fun q => exists s, q.1 = JStr s) l -> exists s, sort_desc l = Ret s.
Proof.
  induction 1 as [|p r Hp Hr [s Hs]]; simpl; [eauto|].
  rewrite Hs. simpl. apply insert_desc_total. constructor; [done|].
  by rewrite (sort_desc_perm _ _ Hs).
Qed.

(** Two sorted arrangements of the same elements coincide when no two
    distinct elements are each in relation with the other. *)
Lemma StronglySorted_perm_eq {A} (R : A -> A -> Prop) l1 l2 :
  StronglySorted R l1 -> StronglySorted R l2 -> l1 ≡ₚ l2 ->
  (forall x y, x ∈ l1 -> y ∈ l1 -> R x y -> R y x -> x = y) ->
  l1 = l2.
Proof.
  revert l2. induction l1 as [|x l1 IH]; intros l2 Hs1 Hs2 Hp Hanti.
  - by apply Permutation_nil_l in Hp.
  - destruct l2 as [|y l2]; [by apply Permutation_nil_r in Hp|].
    apply StronglySorted_inv in Hs1 as [Hs1 Hx].
    apply StronglySorted_inv in Hs2 as [Hs2 Hy].
    assert (x = y) as <-.
    { assert (Hxin : x ∈ y :: l2) by (rewrite <-Hp; left).
      assert (Hyin : y ∈ x :: l1) by (rewrite Hp; left).
      apply elem_of_cons in Hxin as [?|Hxin]; [done|].
      apply elem_of_cons in Hyin as [?|Hyin]; [done|].
      apply Hanti; [left|by right| |].
      - by apply (proj1 (Forall_forall _ _) Hx).
      - by apply (proj1 (Forall_forall _ _) Hy). }
    f_equal. apply IH; [done|done|by apply Permutation_cons_inv in Hp|].
    intros a b Ha Hb. apply Hanti; by right.
Qed.

(** C7.  Whatever the store, the filter and the limit, a list that
    [list_feedback] returns is in descending order of the sort key
    [created_at]: no record is followed by one with a greater key.  When
    the store holds three records with creation times [t1 < t2 < t3], the
    call without filter and with a limit of at least three returns them as
    [[t3; t2; t1]], in whatever order the scan meets them. *)
Theorem list_feedback_newest_first :
  (forall st feedback_type status priority tags limit results,
     list_feedback st feedback_type status priority tags limit = Ret results ->
     newest_first results) /\
  (forall st limit r1 r2 r3 t1 t2 t3,
     candidates st TYPES None None None ≡ₚ [r1; r2; r3] ->
     created_key r1 = Ret (JStr t1) ->
     created_key r2 = Ret (JStr t2) ->
     created_key r3 = Ret (JStr t3) ->
     String.ltb t1 t2 = true ->
     String.ltb t2 t3 = true ->
     (3 <= limit)%Z ->
     list_feedback st None None None None limit = Ret [r3; r2; r1]).
Proof.
  split; [apply list_feedback_sorted|].
  intros st limit r1 r2 r3 t1 t2 t3 Hp H1 H2 H3 H12 H23 Hlim.
  pose proof (string_ltb_trans _ _ _ H12 H23) as H13.
  unfold list_feedback. cbn [search_directories].
  rewrite scan_dirs_spec by (simpl; lia). cbn [app].
  rewrite take_ge by (rewrite (Permutation_length Hp); simpl; lia).
  set (cands := candidates st TYPES None None None) in *.
  assert (Hkeys : Forall (fun x => exists k, created_key x = Ret k) cands).
  { rewrite Hp. repeat constructor; eauto. }
  rewrite (decorate_total _ Hkeys). cbn [bind].
  set (expected := [(JStr t3, r3); (JStr t2, r2); (JStr t1, r1)]).
  assert (Hpk : map with_key cands ≡ₚ expected).
  { rewrite Hp. unfold with_key. simpl. rewrite H1, H2, H3.
    change expected with (reverse [(JStr t1, r1); (JStr t2, r2); (JStr t3, r3)]).
    by rewrite reverse_Permutation. }
  destruct (sort_desc_total (map with_key cands)) as [sorted Hs].
  { rewrite Hpk. repeat constructor; simpl; eauto. }
  rewrite Hs. cbn [bind].
  assert (sorted = expected) as ->.
  { symmetry. apply (StronglySorted_perm_eq
                       (fun p q => key_lt p.1 q.1 = Ret false)).
    - repeat constructor; simpl; f_equal; by apply string_ltb_asym.
    - by apply (sort_desc_sorted _ _ Hs).
    - by rewrite (sort_desc_perm _ _ Hs).
    - intros x y Hx Hy. unfold expected in Hx, Hy.
      rewrite !elem_of_cons, elem_of_nil in Hx, Hy.
      destruct Hx as [->|[->|[->|[]]]], Hy as [->|[->|[->|[]]]];
        simpl; intros [= Hxy] [= Hyx]; try done; congruence. }
  simpl. rewrite slice_to_all by (simpl; lia). done.
Qed.

Lemma list_feedback_newest_first_witness :
  list_feedback store_three None None None None 100%Z
    = Ret [rec_b2; rec_a1; rec_c3].
Proof.
  apply (proj2 list_feedback_newest_first store_three 100%Z rec_c3 rec_a1 rec_b2
           "2024-01-01T10:00:00" "2024-01-02T10:00:00" "2024-01-03T10:00:00").
  - change (candidates store_three TYPES None None None)
      with ([rec_a1; rec_b2] ++ [rec_c3])%list.
    symmetry. apply Permutation_cons_append.
  - reflexivity.
  - reflexivity.
  - reflexivity.
  - reflexivity.
  - reflexivity.
  - lia.
Defined.

(** * list_feedback: the filter *)

Lemma filter_rejects_JObj filter kv key :
  filter_rejects filter (JObj kv) key =
    Ret (match given filter with
         | None => false
         | Some s => negb (field_is kv key s)
         end).
Proof.
  unfold filter_rejects, given, field_is. destruct filter as [s|]; [|done].
  destruct (String.eqb s ""); [done|]. simpl.
  by destruct (assoc_get kv key) as [[ | | | | | ]|].
Qed.

Lemma all_tags_in_list tags kv :
  tags_is_list kv ->
  all_tags_in tags (default (JArr []) (assoc_get kv "tags"))
    = Ret (forallb (has_tag kv) tags).
Proof.
  unfold tags_is_list, has_tag. intros Hl.
  induction tags as [|tag rest IH]; [done|]. cbn [all_tags_in forallb].
  destruct (assoc_get kv "tags") as [[ | | | |l| ]|]; try done; simpl in *.
  destruct (existsb _ l); [exact IH|done].
Qed.

Lemma record_passes_JObj status priority tags kv :
  tags_is_list kv ->
  record_passes status priority tags (JObj kv)
    = Ret (code_match status priority tags kv).
Proof.
  intros Hl. unfold record_passes, code_match, claimed_match.
  rewrite !filter_rejects_JObj. cbn [bind].
  destruct (given status) as [s|].
  - destruct (field_is kv "status" s); [|done]. cbn [negb andb].
    destruct (given priority) as [p|].
    + destruct (field_is kv "priority" p); [|done]. cbn [negb andb].
      destruct tags as [[|tag rest]|]; [done| |done].
      cbn [py_get_default bind]. by apply all_tags_in_list.
    + cbn [andb]. destruct tags as [[|tag rest]|]; [done| |done].
      cbn [py_get_default bind]. by apply all_tags_in_list.
  - cbn [andb]. destruct (given priority) as [p|].
    + destruct (field_is kv "priority" p); [|done]. cbn [negb andb].
      destruct tags as [[|tag rest]|]; [done| |done].
      cbn [py_get_default bind]. by apply all_tags_in_list.
    + cbn [andb]. destruct tags as [[|tag rest]|]; [done| |done].
      cbn [py_get_default bind]. by apply all_tags_in_list.
Qed.

Lemma elem_of_candidates st directories status priority tags r :
  r ∈ candidates st directories status priority tags <->
  exists t d name,
    t ∈ directories /\ st !! t = Some d /\ name ∈ d.*1 /\
    endswith name ".json" = true /\
    read_json st t name = Ret r /\
    record_passes status priority tags r = Ret true.
Proof.
  unfold candidates. rewrite list_elem_of_In, in_flat_map. split.
  - intros (t & Ht & Hr). apply list_elem_of_In in Ht, Hr.
    unfold dir_candidates in Hr. destruct (st !! t) as [d|] eqn:Hd;
      [|by apply elem_of_nil in Hr].
    apply list_elem_of_omap in Hr as (name & Hname & Hpass).
    exists t, d, name. unfold passing_file in Hpass.
    destruct (endswith name ".json"); [|done].
    destruct (read_json st t name) as [fd|]; [|done].
    destruct (record_passes status priority tags fd) as [[|]|] eqn:Hrp;
      try done.
    injection Hpass as <-. done.
  - intros (t & d & name & Ht & Hd & Hname & He & Hread & Hrp).
    exists t. split; [by apply list_elem_of_In|]. apply list_elem_of_In.
    unfold dir_candidates. rewrite Hd. apply list_elem_of_omap.
    exists name. split; [done|]. unfold passing_file.
    by rewrite He, Hread, Hrp.
Qed.

(** C6, as the code has it.  For a limit of at least one, the returned
    list holds exactly the first [limit] candidates of the scan; the
    candidates are the readable [.json] files of the searched partitions
    (the one given by a valid [type] filter, all five otherwise) that pass
    the filter; and a record whose [tags] entry is a list passes exactly
    when the status filter is absent, empty or equal to its status, the
    priority filter is absent, empty or equal to its priority, and the tags
    filter is absent or every requested tag is among its tags. *)
Theorem list_feedback_filter st feedback_type status priority tags limit results :
  (1 <= limit)%Z ->
  list_feedback st feedback_type status priority tags limit = Ret results ->
  let cands :=
    candidates st (search_directories feedback_type) status priority tags in
  (forall r, r ∈ results <-> r ∈ take (Z.to_nat limit) cands) /\
  (forall r, r ∈ cands <->
     exists t d name,
       t ∈ search_directories feedback_type /\ st !! t = Some d /\
       name ∈ d.*1 /\ endswith name ".json" = true /\
       read_json st t name = Ret r /\
       record_passes status priority tags r = Ret true) /\
  (forall kv, tags_is_list kv ->
     record_passes status priority tags (JObj kv)
       = Ret (code_match status priority tags kv)).
Proof.
  intros Hlim Hlist cands. split; [|split].
  - intros r. by rewrite (list_feedback_perm _ _ _ _ _ _ _ Hlim Hlist).
  - intros r. apply elem_of_candidates.
  - intros kv. apply record_passes_JObj.
Qed.

Lemma list_feedback_filter_witness :
  let cands := candidates store_three (search_directories None)
                 (Some "new") None (Some ["ui"]) in
  (forall r, r ∈ [rec_a1] <-> r ∈ take (Z.to_nat 100) cands) /\
  (forall r, r ∈ cands <->
     exists t d name,
       t ∈ search_directories None /\ store_three !! t = Some d /\
       name ∈ d.*1 /\ endswith name ".json" = true /\
       read_json store_three t name = Ret r /\
       record_passes (Some "new") None (Some ["ui"]) r = Ret true) /\
  (forall kv, tags_is_list kv ->
     record_passes (Some "new") None (Some ["ui"]) (JObj kv)
       = Ret (code_match (Some "new") None (Some ["ui"]) kv)).
Proof.
  apply (list_feedback_filter store_three None (Some "new") None
           (Some ["ui"]) 100%Z [rec_a1]).
  - lia.
  - reflexivity.
Defined.

(** C6 as worded fails in three ways on the store of three records: the
    issue a1 meets every condition of the claim when only the type filter
    ["question"] is given, and is not returned; c3 meets them when no
    filter is given and the limit is 1, and is not returned; a1 has status
    ["new"], which differs from the status filter [""], and is returned. *)
Lemma list_feedback_filter_claim_fails :
  file_at store_three "issue" "a1.json" = Some (Text (JObj kv_a1)) /\
  file_at store_three "other" "c3.json" = Some (Text (JObj kv_c3)) /\
  ~ filter_claim store_three (Some "question") None None None 100 kv_a1 /\
  ~ filter_claim store_three None None None None 1 kv_c3 /\
  ~ filter_claim store_three None (Some "") None None 100 kv_a1.
Proof.
  split; [reflexivity|]. split; [reflexivity|]. split; [|split].
  - intros H. destruct (H [rec_b2] eq_refl) as [_ H2].
    specialize (H2 eq_refl). apply list_elem_of_singleton in H2. discriminate H2.
  - intros H. destruct (H [rec_a1] eq_refl) as [_ H2].
    specialize (H2 eq_refl). apply list_elem_of_singleton in H2. discriminate H2.
  - intros H. destruct (H [rec_b2; rec_a1; rec_c3] eq_refl) as [H1 _].
    assert (Hin : JObj kv_a1 ∈ [rec_b2; rec_a1; rec_c3])
      by (right; left).
    specialize (H1 Hin). discriminate H1.
Qed.

(** * get_feedback_stats *)

Lemma fmap_add_0 (o : option nat) : (fun n => n + 0) <$> o = o.
Proof. destruct o as [n|]; simpl; [f_equal; lia|done]. Qed.

Lemma fmap_add_add (o : option nat) a b :
  (fun n => n + b) <$> ((fun n => n + a) <$> o) = (fun n => n + (a + b)) <$> o.
Proof. destruct o as [n|]; simpl; [f_equal; lia|done]. Qed.

Lemma count_if_app {A} (f : A -> bool) l1 l2 :
  count_if f (l1 ++ l2) = count_if f l1 + count_if f l2.
Proof. unfold count_if. by rewrite List.filter_app, length_app. Qed.

Lemma count_if_cons {A} (f : A -> bool) x l :
  count_if f (x :: l) = Nat.b2n (f x) + count_if f l.
Proof. unfold count_if. simpl. by destruct (f x). Qed.

Lemma count_value_hashable m v :
  hashable (Some v) = true ->
  exists m', count_value m v = Ret m' /\
    forall x, m' !! x = (fun n => n + Nat.b2n (is_string x (Some v))) <$> m !! x.
Proof.
  destruct v as [ | b | n | s | l | kv ]; try done; intros _; simpl;
    try (eexists; split; [reflexivity|]; intros x; by rewrite fmap_add_0).
  destruct (m !! s) as [n|] eqn:Hs; eexists; (split; [reflexivity|]); intros x.
  - destruct (String.eqb_spec s x) as [->|Hne].
    + rewrite lookup_insert_eq, Hs. simpl. f_equal. lia.
    + rewrite lookup_insert_ne by done. simpl. by rewrite fmap_add_0.
  - destruct (String.eqb_spec s x) as [->|Hne]; [by rewrite Hs|].
    simpl. by rewrite fmap_add_0.
Qed.

Lemma count_value_unhashable m v :
  hashable (Some v) = false -> count_value m v = Raise TypeError.
Proof. by destruct v. Qed.

Lemma stats_record_spec feedback_type r s :
  total (stats_record feedback_type r s) = S (total s) /\
  by_type (stats_record feedback_type r s) = alter S feedback_type (by_type s) /\
  (forall x, by_status (stats_record feedback_type r s) !! x
             = (fun n => n + Nat.b2n (counts_status x r)) <$> by_status s !! x) /\
  (forall x, by_priority (stats_record feedback_type r s) !! x
             = (fun n => n + Nat.b2n (counts_priority x r)) <$> by_priority s !! x).
Proof.
  unfold stats_record, counts_status, counts_priority.
  destruct r as [ | b | n | str | l | kv ];
    try (simpl; repeat split; intros; by rewrite fmap_add_0).
  cbn [py_get_default bind status_of priority_of total by_type by_status by_priority].
  set (v := default (JStr "new") (assoc_get kv "status")).
  set (w := default (JStr "medium") (assoc_get kv "priority")).
  destruct (hashable (Some v)) eqn:Hv.
  - destruct (count_value_hashable (by_status s) v Hv) as (m' & -> & Hm').
    cbn [total by_type by_status by_priority andb].
    destruct (hashable (Some w)) eqn:Hw.
    + destruct (count_value_hashable (by_priority s) w Hw) as (m2 & -> & Hm2).
      cbn [total by_type by_status by_priority]. by repeat split.
    + rewrite (count_value_unhashable _ _ Hw).
      cbn [total by_type by_status by_priority].
      split; [done|]. split; [done|]. split; [done|]. intros x.
      replace (is_string x (Some w)) with false by (by destruct w).
      cbn [Nat.b2n]. by rewrite fmap_add_0.
  - rewrite (count_value_unhashable _ _ Hv).
    cbn [total by_type by_status by_priority andb].
    split; [done|]. split; [done|]. split; intros x.
    + replace (is_string x (Some v)) with false by (by destruct v).
      cbn [Nat.b2n]. by rewrite fmap_add_0.
    + cbn [Nat.b2n]. by rewrite fmap_add_0.
Qed.

Lemma stats_file_spec st feedback_type filename s :
  stats_file st feedback_type filename s =
    match file_record st feedback_type filename with
    | Some r => stats_record feedback_type r s
    | None => s
    end.
Proof.
  unfold stats_file, file_record.
  destruct (endswith filename ".json"); [|done]. simpl.
  by destruct (read_json st feedback_type filename).
Qed.

Lemma lookup_alter_S (m : gmap string nat) t t' :
  alter S t m !! t' = (fun n => n + Nat.b2n (String.eqb t t')) <$> m !! t'.
Proof.
  destruct (String.eqb_spec t t') as [->|Hne].
  - rewrite lookup_alter_eq. destruct (m !! t'); simpl; [f_equal; lia|done].
  - rewrite lookup_alter_ne by done. by rewrite fmap_add_0.
Qed.

Lemma omap_cons_eq {A B} (f : A -> option B) x l :
  omap f (x :: l) = match f x with Some y => y :: omap f l | None => omap f l end.
Proof. done. Qed.

(** The effect of the inner loop over the file names of one partition. *)
Lemma stats_files_spec st feedback_type filenames s :
  let s' := foldl (fun s filename => stats_file st feedback_type filename s)
              s filenames in
  let rs := omap (file_record st feedback_type) filenames in
  total s' = total s + List.length rs /\
  (forall t, by_type s' !! t
     = (fun n => n + (if String.eqb feedback_type t then List.length rs else 0))
         <$> by_type s !! t) /\
  (forall x, by_status s' !! x
     = (fun n => n + count_if (counts_status x) rs) <$> by_status s !! x) /\
  (forall x, by_priority s' !! x
     = (fun n => n + count_if (counts_priority x) rs) <$> by_priority s !! x).
Proof.
  revert s. induction filenames as [|filename rest IH]; intros s.
  - simpl. repeat split; intros; try rewrite fmap_add_0; try done; try lia.
    destruct (String.eqb feedback_type t); by rewrite fmap_add_0.
  - cbv zeta. cbn [foldl]. rewrite stats_file_spec, omap_cons_eq.
    destruct (file_record st feedback_type filename) as [r|]; [|apply IH].
    destruct (IH (stats_record feedback_type r s)) as (Ht & Hty & Hs & Hp).
    destruct (stats_record_spec feedback_type r s) as (Ht1 & Hty1 & Hs1 & Hp1).
    split; [rewrite Ht, Ht1, length_cons; lia|].
    split; [|split].
    + intros t. rewrite Hty, Hty1, lookup_alter_S, fmap_add_add.
      by destruct (String.eqb feedback_type t).
    + intros x. rewrite Hs, Hs1, fmap_add_add. by rewrite count_if_cons.
    + intros x. rewrite Hp, Hp1, fmap_add_add. by rewrite count_if_cons.
Qed.

(** The effect of the outer loop over a list of partitions. *)
Lemma stats_dirs_spec st types s :
  let s' := foldl (stats_dir st) s types in
  total s' = total s + List.length (flat_map (readable_records st) types) /\
  (forall t, by_type s' !! t
     = (fun n => n + List.length
                      (flat_map (fun t' => if String.eqb t' t
                                           then readable_records st t' else [])
                         types))
         <$> by_type s !! t) /\
  (forall x, by_status s' !! x
     = (fun n => n + count_if (counts_status x)
                       (flat_map (readable_records st) types))
         <$> by_status s !! x) /\
  (forall x, by_priority s' !! x
     = (fun n => n + count_if (counts_priority x)
                       (flat_map (readable_records st) types))
         <$> by_priority s !! x).
Proof.
  revert s. induction types as [|t0 rest IH]; intros s; simpl.
  - repeat split; intros; try rewrite fmap_add_0; try done; lia.
  - destruct (IH (stats_dir st s t0)) as (Ht & Hty & Hs & Hp).
    assert (Hdir :
      total (stats_dir st s t0) = total s + List.length (readable_records st t0) /\
      (forall t, by_type (stats_dir st s t0) !! t
         = (fun n => n + (if String.eqb t0 t
                          then List.length (readable_records st t0) else 0))
             <$> by_type s !! t) /\
      (forall x, by_status (stats_dir st s t0) !! x
         = (fun n => n + count_if (counts_status x) (readable_records st t0))
             <$> by_status s !! x) /\
      (forall x, by_priority (stats_dir st s t0) !! x
         = (fun n => n + count_if (counts_priority x) (readable_records st t0))
             <$> by_priority s !! x)).
    { unfold stats_dir, readable_records. destruct (st !! t0) as [d|].
      - apply stats_files_spec.
      - repeat split; intros; try rewrite fmap_add_0; try done; try lia.
        destruct (String.eqb t0 t); by rewrite fmap_add_0. }
    destruct Hdir as (Ht1 & Hty1 & Hs1 & Hp1).
    split; [rewrite Ht, Ht1, length_app; lia|].
    split; [|split].
    + intros t. rewrite Hty, Hty1, fmap_add_add, length_app.
      by destruct (String.eqb t0 t).
    + intros x. by rewrite Hs, Hs1, fmap_add_add, count_if_app.
    + intros x. by rewrite Hp, Hp1, fmap_add_add, count_if_app.
Qed.

Lemma zero_counters_lookup members x :
  zero_counters members !! x = if in_list x members then Some 0 else None.
Proof.
  unfold zero_counters, in_list. induction members as [|m rest IH]; simpl.
  - apply lookup_empty.
  - destruct (String.eqb_spec x m) as [->|Hne]; simpl.
    + by rewrite lookup_insert_eq.
    + by rewrite lookup_insert_ne.
Qed.

(** C8.  [get_feedback_stats] has a counter for every member of each
    closed set and for nothing else.  [total] is the number of records of
    the five partitions (the [.json] files that load); the type counter of
    a partition is the number of records in that partition; the counter of
    a status is the number of records counted under it, which are those
    whose stored status is that string, or whose status is missing when the
    string is ["new"]; likewise for a priority, with ["medium"] for a
    missing one and not for the records whose status is a list or a
    dictionary.  A record with any other status or priority adds to
    [total] and to no counter of that breakdown.  On the empty store every
    counter is zero. *)
Theorem get_feedback_stats_counts st :
  total (get_feedback_stats st) = List.length (all_records st) /\
  (forall t, by_type (get_feedback_stats st) !! t
     = if in_list t TYPES then Some (List.length (readable_records st t))
       else None) /\
  (forall x, by_status (get_feedback_stats st) !! x
     = if in_list x STATUSES
       then Some (count_if (counts_status x) (all_records st)) else None) /\
  (forall x, by_priority (get_feedback_stats st) !! x
     = if in_list x PRIORITIES
       then Some (count_if (counts_priority x) (all_records st)) else None) /\
  get_feedback_stats empty_store
    = {| total := 0;
         by_type := zero_counters TYPES;
         by_status := zero_counters STATUSES;
         by_priority := zero_counters PRIORITIES |}.
Proof.
  unfold get_feedback_stats.
  set (s0 := {| total := 0; by_type := zero_counters TYPES;
                by_status := zero_counters STATUSES;
                by_priority := zero_counters PRIORITIES |}).
  destruct (stats_dirs_spec st TYPES s0) as (Ht & Hty & Hs & Hp).
  split; [exact Ht|]. split; [|split; [|split]].
  - intros t. rewrite Hty. unfold s0. cbn [by_type].
    rewrite zero_counters_lookup.
    destruct (in_list t TYPES) eqn:E; [|done].
    apply in_list_elem_of in E. unfold TYPES in E.
    repeat (apply elem_of_cons in E as [->|E];
            [simpl; f_equal; by rewrite ?app_nil_r|]).
    inversion E.
  - intros x. rewrite Hs. unfold s0. cbn [by_status].
    rewrite zero_counters_lookup. by destruct (in_list x STATUSES).
  - intros x. rewrite Hp. unfold s0. cbn [by_priority].
    rewrite zero_counters_lookup. by destruct (in_list x PRIORITIES).
  - reflexivity.
Qed.

(** * cleanup_old_feedback *)

Section assoc_more.
Context {V : Type}.
Implicit Types (l : list (string * V)) (k : string).

Lemma assoc_get_app_notin l1 l2 k :
  k ∉ l1.*1 -> assoc_get (l1 ++ l2) k = assoc_get l2 k.
Proof.
  induction l1 as [|[k' v'] l1 IH]; simpl; [done|].
  intros Hk. apply not_elem_of_cons in Hk as [Hne Hk].
  destruct (String.eqb_spec k' k); [congruence|by apply IH].
Qed.

Lemma assoc_del_app_notin l1 l2 k :
  k ∉ l1.*1 -> assoc_del (l1 ++ l2) k = (l1 ++ assoc_del l2 k)%list.
Proof.
  induction l1 as [|[k' v'] l1 IH]; simpl; [done|].
  intros Hk. apply not_elem_of_cons in Hk as [Hne Hk].
  destruct (String.eqb_spec k' k); [congruence|by rewrite IH].
Qed.

Lemma filter_names_subseteq (f : string * V -> bool) l k :
  k ∈ (List.filter f l).*1 -> k ∈ l.*1.
Proof.
  rewrite !list_elem_of_fmap. intros ([k' v] & -> & Hin).
  apply list_elem_of_In, List.filter_In in Hin as [Hin _].
  exists (k', v). split; [done|by apply list_elem_of_In].
Qed.

Lemma filter_names_NoDup (f : string * V -> bool) l :
  NoDup l.*1 -> NoDup (List.filter f l).*1.
Proof.
  induction l as [|[k v] l IH]; simpl; [done|].
  intros Hnd. apply NoDup_cons in Hnd as [Hk Hnd].
  destruct (f (k, v)); [|by apply IH]. simpl. apply NoDup_cons.
  split; [|by apply IH]. intros Hin. by apply Hk, (filter_names_subseteq f).
Qed.

Lemma assoc_get_filter (f : string * V -> bool) l k v :
  NoDup l.*1 -> assoc_get l k = Some v ->
  assoc_get (List.filter f l) k = if f (k, v) then Some v else None.
Proof.
  induction l as [|[k' v'] l IH]; simpl; [done|].
  intros Hnd. apply NoDup_cons in Hnd as [Hk' Hnd].
  destruct (String.eqb_spec k' k) as [->|Hne].
  - intros [= ->]. destruct (f (k, v)); simpl.
    + by rewrite String.eqb_refl.
    + apply assoc_get_None. intros Hin. by apply Hk', (filter_names_subseteq f).
  - intros Hget. destruct (f (k', v')); simpl; [|by apply IH].
    destruct (String.eqb_spec k' k); [done|by apply IH].
Qed.

Lemma assoc_get_filter_None (f : string * V -> bool) l k :
  assoc_get l k = None -> assoc_get (List.filter f l) k = None.
Proof.
  rewrite !assoc_get_None. intros Hk Hin. by apply Hk, (filter_names_subseteq f).
Qed.
End assoc_more.

Section cleanup_facts.
Variable fp : float_ops.
Variables (cutoff_date : float fp) (status : option string).

Local Abbreviation elig := (eligible fp true cutoff_date status).
Local Abbreviation keep := (kept fp cutoff_date status).

Lemma cleanup_file_spec st t d filename f removed_count :
  st !! t = Some d ->
  assoc_get d filename = Some f ->
  cleanup_file fp st t filename cutoff_date status removed_count =
    if elig (filename, f)
    then (<[t := assoc_del d filename]> st, S removed_count)
    else (st, removed_count).
Proof.
  intros Hd Hf. unfold cleanup_file, eligible, read_json, remove_file, file_at.
  cbn [fst snd]. rewrite Hd. cbn [mbind option_bind]. rewrite Hf.
  destruct (endswith filename ".json"); [|done]. cbn [negb andb].
  destruct f as [v|]; [|done].
  destruct v as [ | b | n | s | l | kv ]; try done.
  cbn [py_get_default]. unfold created_timestamp.
  destruct (assoc_get kv "created_at") as [[ | b | n | s | l | kv' ]|];
    cbn [default id truthy negb]; try done;
    try (by destruct b); try (by destruct (n =? 0)%Z);
    try (by destruct l); try (by destruct kv').
  destruct (String.eqb s ""); [done|]. cbn [negb].
  destruct (timestamp fp s) as [created|]; [|done].
  rewrite filter_rejects_JObj. unfold code_match, claimed_match.
  rewrite andb_true_r.
  destruct (float_gt fp created cutoff_date); [done|].
  cbn [negb andb given]. rewrite andb_true_r.
  destruct (given status) as [s'|]; [|done].
  by destruct (field_is kv "status" s').
Qed.

Lemma kept_app d1 d2 : keep (d1 ++ d2) = (keep d1 ++ keep d2)%list.
Proof. apply List.filter_app. Qed.

(** The inner loop, started in the middle of a listing: [seen] has been
    visited, [todo] is still to come. *)
Lemma cleanup_files_spec t (todo : dir) : forall (seen : dir) st removed_count,
  NoDup (seen ++ todo)%list.*1 ->
  st !! t = Some (keep seen ++ todo)%list ->
  foldl (fun acc filename =>
           cleanup_file fp acc.1 t filename cutoff_date status acc.2)
    (st, removed_count) todo.*1
  = (<[t := keep (seen ++ todo)%list]> st, removed_count + count_if elig todo).
Proof.
  induction todo as [|[filename f] todo IH]; intros seen st c Hnd Hst.
  - simpl. rewrite app_nil_r in *. rewrite insert_id by done.
    f_equal. unfold count_if. simpl. lia.
  - cbn [fmap list_fmap foldl fst snd].
    assert (Hnotin : filename ∉ (keep seen).*1).
    { intros Hin. apply filter_names_subseteq in Hin.
      rewrite fmap_app in Hnd. apply NoDup_app in Hnd as (_ & Hdis & _).
      apply (Hdis _ Hin). left. }
    rewrite (cleanup_file_spec st t _ filename f c Hst)
      by (rewrite assoc_get_app_notin by done; simpl;
          by rewrite String.eqb_refl).
    replace (seen ++ (filename, f) :: todo)%list
      with ((seen ++ [(filename, f)]) ++ todo)%list in *
      by (by rewrite <-app_assoc).
    rewrite count_if_cons.
    destruct (elig (filename, f)) eqn:He.
    + rewrite (IH (seen ++ [(filename, f)])%list); [| done |].
      * rewrite insert_insert_eq. f_equal. simpl. lia.
      * rewrite lookup_insert_eq. f_equal.
        rewrite assoc_del_app_notin by done. simpl.
        rewrite String.eqb_refl. rewrite kept_app. unfold kept at 2.
        simpl. rewrite He. simpl. by rewrite app_nil_r.
    + rewrite (IH (seen ++ [(filename, f)])%list); [done | done |].
      rewrite Hst. f_equal. rewrite kept_app. unfold kept at 3.
      simpl. rewrite He. simpl. by rewrite <-app_assoc.
Qed.

Lemma cleanup_dir_spec st removed_count t :
  well_formed st ->
  cleanup_dir fp cutoff_date status (st, removed_count) t =
    match st !! t with
    | Some d => (<[t := keep d]> st, removed_count + count_if elig d)
    | None => (st, removed_count)
    end.
Proof.
  intros Hwf. unfold cleanup_dir. cbn [fst snd].
  destruct (st !! t) as [d|] eqn:Hd; [|done].
  apply (cleanup_files_spec t d []); [|done].
  simpl. by apply (Hwf t d).
Qed.

Lemma well_formed_kept st t d :
  well_formed st -> st !! t = Some d -> well_formed (<[t := keep d]> st).
Proof.
  intros Hwf Hd. apply map_Forall_insert_2; [|done].
  apply filter_names_NoDup. by apply (Hwf t d).
Qed.

Lemma eligible_count_insert_notin st t (d : dir) types :
  t ∉ types ->
  eligible_count fp cutoff_date status (<[t := d]> st) types
  = eligible_count fp cutoff_date status st types.
Proof.
  unfold eligible_count. intros Ht. f_equal.
  induction types as [|t0 rest IH]; [done|]. simpl.
  apply not_elem_of_cons in Ht as [Hne Ht].
  rewrite lookup_insert_ne by done. by rewrite IH.
Qed.

(** The outer loop: the tree it leaves and the count it returns. *)
Lemma cleanup_dirs_spec types : forall st removed_count,
  well_formed st -> NoDup types ->
  foldl (cleanup_dir fp cutoff_date status) (st, removed_count) types
  = (swept fp cutoff_date status st types,
     removed_count + eligible_count fp cutoff_date status st types).
Proof.
  induction types as [|t rest IH]; intros st c Hwf Hnd.
  - simpl. f_equal. unfold eligible_count, count_if. simpl. lia.
  - apply NoDup_cons in Hnd as [Ht Hnd]. cbn [foldl].
    rewrite cleanup_dir_spec by done. unfold swept. cbn [foldl].
    fold (swept fp cutoff_date status).
    unfold eligible_count at 1. cbn [flat_map].
    destruct (st !! t) as [d|] eqn:Hd.
    + rewrite IH; [|by apply well_formed_kept|done].
      rewrite eligible_count_insert_notin by done.
      f_equal. cbn [default]. rewrite count_if_app. unfold eligible_count.
      unfold id. lia.
    + rewrite IH by done. f_equal.
Qed.

Lemma swept_cons st t rest :
  swept fp cutoff_date status st (t :: rest)
  = swept fp cutoff_date status
      (match st !! t with Some d => <[t := keep d]> st | None => st end) rest.
Proof. done. Qed.

Lemma swept_lookup_notin types : forall st t,
  t ∉ types -> swept fp cutoff_date status st types !! t = st !! t.
Proof.
  induction types as [|t0 rest IH]; intros st t Ht; [done|].
  apply not_elem_of_cons in Ht as [Hne Ht]. rewrite swept_cons.
  rewrite IH by done. destruct (st !! t0); [|done].
  by rewrite lookup_insert_ne.
Qed.

Lemma swept_lookup_in types : forall st t,
  NoDup types -> t ∈ types ->
  swept fp cutoff_date status st types !! t = keep <$> st !! t.
Proof.
  induction types as [|t0 rest IH]; intros st t Hnd Ht; [inversion Ht|].
  apply NoDup_cons in Hnd as [Ht0 Hnd]. rewrite swept_cons.
  destruct (decide (t = t0)) as [->|Hne].
  - rewrite swept_lookup_notin by done.
    destruct (st !! t0) as [d|] eqn:Hd; [by rewrite lookup_insert_eq|].
    by rewrite Hd.
  - apply elem_of_cons in Ht as [?|Ht]; [done|].
    rewrite IH by done. destruct (st !! t0); [|done].
    by rewrite lookup_insert_ne.
Qed.

Lemma files_count_swept (st st' : store) types :
  (forall t, t ∈ types -> st' !! t = keep <$> st !! t) ->
  eligible_count fp cutoff_date status st types
  + List.length (flat_map (fun t => default [] (st' !! t)) types)
  = List.length (flat_map (fun t => default [] (st !! t)) types).
Proof.
  unfold eligible_count. induction types as [|t rest IH]; intros H; [done|].
  cbn [flat_map]. rewrite count_if_app, !length_app.
  rewrite <-IH by (intros t' Ht'; apply H; by right).
  rewrite (H t) by left.
  assert (Hd : forall d : dir,
             count_if elig d + List.length (keep d) = List.length d).
  { intros d. unfold count_if, kept. apply List.filter_length. }
  destruct (st !! t) as [d|]; simpl; [|done].
  specialize (Hd d). unfold id. lia.
Qed.
End cleanup_facts.

Lemma NoDup_TYPES : NoDup TYPES.
Proof. apply (bool_decide_unpack _). vm_compute. exact I. Qed.

Lemma cleanup_old_feedback_swept fp st days status now cutoff_date :
  well_formed st ->
  float_sub_int fp now (days * seconds_per_day) = Some cutoff_date ->
  cleanup_old_feedback fp st days status now =
    (Ret (eligible_count fp cutoff_date status st TYPES),
     swept fp cutoff_date status st TYPES).
Proof.
  intros Hwf Hc. unfold cleanup_old_feedback. rewrite Hc.
  by rewrite cleanup_dirs_spec by (done || apply NoDup_TYPES).
Qed.

Lemma file_at_swept fp cutoff_date status st t name :
  well_formed st ->
  file_at (swept fp cutoff_date status st TYPES) t name =
    match file_at st t name with
    | Some f =>
        if in_list t TYPES && eligible fp true cutoff_date status (name, f)
        then None else Some f
    | None => None
    end.
Proof.
  intros Hwf. unfold file_at. destruct (in_list t TYPES) eqn:Ht.
  - apply in_list_elem_of in Ht.
    rewrite swept_lookup_in by (done || apply NoDup_TYPES).
    destruct (st !! t) as [d|] eqn:Hd; [|done]. cbn [fmap option_fmap option_map mbind option_bind].
    destruct (assoc_get d name) as [f|] eqn:Hf.
    + unfold kept. rewrite (assoc_get_filter _ d name f) by (done || by apply (Hwf t d)).
      cbn [andb]. by destruct (eligible _ _ _ _ _).
    + by apply assoc_get_filter_None.
  - apply in_list_false in Ht. rewrite swept_lookup_notin by done.
    cbn [andb]. by destruct (st !! t ≫= _).
Qed.

Lemma eligible_strict fp cutoff_date status p :
  eligible fp false cutoff_date status p = true ->
  eligible fp true cutoff_date status p = true.
Proof.
  unfold eligible, strictly_older. destruct (endswith p.1 ".json"); [|done].
  cbn [andb].
  destruct p.2 as [[ | | | | |kv]|]; try done.
  destruct (created_timestamp fp kv) as [created|]; [|done].
  by destruct (float_gt fp created cutoff_date),
    (float_gt fp cutoff_date created).
Qed.

(** C2, as the code has it.  Instants are the floating-point seconds
    that the source computes and compares; when the subtraction that gives
    the cutoff raises, the call raises and removes nothing.  Otherwise, in
    a tree where no directory lists a name twice: a [.json] record of a
    partition whose [created_at] parses to an instant strictly before the
    cutoff [now - days] and whose status the status filter accepts (the
    filter is absent, empty, or equal to the stored status) is gone
    afterwards; a file for which this fails even with the instants that
    are not after the cutoff counted as old is still there unchanged, in
    particular every record whose [created_at] is missing or does not
    parse; no file appears; and the returned count is the number of files
    that are gone. *)
Theorem cleanup_old_feedback_removes fp st days status now :
  well_formed st ->
  match float_sub_int fp now (days * seconds_per_day) with
  | None =>
      cleanup_old_feedback fp st days status now = (Raise OverflowError, st)
  | Some cutoff_date =>
      exists n st',
        cleanup_old_feedback fp st days status now = (Ret n, st') /\
        (forall t name f,
           t ∈ TYPES -> file_at st t name = Some f ->
           eligible fp false cutoff_date status (name, f) = true ->
           file_at st' t name = None) /\
        (forall t name f,
           file_at st t name = Some f ->
           eligible fp true cutoff_date status (name, f) = false ->
           file_at st' t name = Some f) /\
        (forall t name kv,
           file_at st t name = Some (Text (JObj kv)) ->
           created_timestamp fp kv = None ->
           file_at st' t name = Some (Text (JObj kv))) /\
        (forall t name, file_at st t name = None -> file_at st' t name = None) /\
        n + files_count st' = files_count st
  end.
Proof.
  intros Hwf.
  destruct (float_sub_int fp now (days * seconds_per_day))
    as [cutoff_date|] eqn:Hc.
  2:{ unfold cleanup_old_feedback. by rewrite Hc. }
  eexists _, _. split; [by apply cleanup_old_feedback_swept|].
  split; [|split; [|split; [|split]]].
  - intros t name f Ht Hf He. rewrite file_at_swept, Hf by done.
    apply in_list_elem_of in Ht. rewrite Ht.
    by rewrite (eligible_strict _ _ _ _ He).
  - intros t name f Hf He. rewrite file_at_swept, Hf, He by done.
    by rewrite andb_false_r.
  - intros t name kv Hf Hts. rewrite file_at_swept, Hf by done.
    unfold eligible. cbn [fst snd]. rewrite Hts.
    by rewrite !andb_false_r.
  - intros t name Hf. by rewrite file_at_swept, Hf.
  - apply files_count_swept. intros t Ht.
    apply swept_lookup_in; [apply NoDup_TYPES|done].
Qed.

Lemma well_formed_store_three : well_formed store_three.
Proof. apply (bool_decide_unpack _). vm_compute. exact I. Qed.

Lemma cleanup_old_feedback_removes_witness :
  exists n st',
    cleanup_old_feedback sample_floats store_three 30 None sample_now
    = (Ret n, st') /\
    file_at st' "other" "c3.json" = None /\
    file_at st' "question" "b2.json" = Some (Text rec_b2) /\
    n + files_count st' = files_count store_three.
Proof.
  destruct (cleanup_old_feedback_removes sample_floats store_three 30 None
              sample_now well_formed_store_three)
    as (n & st' & Hc & H1 & H2 & _ & _ & H5).
  exists n, st'. split; [exact Hc|]. split; [|split].
  - apply (H1 "other" "c3.json" (Text rec_c3)).
    + apply in_list_elem_of. reflexivity.
    + reflexivity.
    + vm_compute. reflexivity.
  - apply (H2 "question" "b2.json" (Text rec_b2)).
    + reflexivity.
    + vm_compute. reflexivity.
  - exact H5.
Defined.

(** C2 as worded fails in two ways on the store of three records, thirty
    days before the sample clock reading being the instant a1 was created:
    with the status filter [""] the record c3, of status ["new"], is
    removed; and a1, which is exactly as old as the cutoff and not older,
    is removed. *)
Lemma cleanup_old_feedback_claim_fails :
  let cutoff_date := (sample_now - 30 * seconds_per_day)%Z in
  file_at store_three "other" "c3.json" = Some (Text (JObj kv_c3)) /\
  claimed_eligible sample_floats cutoff_date (Some "") kv_c3 = false /\
  file_at (cleanup_old_feedback sample_floats store_three 30 (Some "")
             sample_now).2 "other" "c3.json" = None /\
  file_at store_three "issue" "a1.json" = Some (Text (JObj kv_a1)) /\
  created_timestamp sample_floats kv_a1 = Some cutoff_date /\
  claimed_eligible sample_floats cutoff_date None kv_a1 = false /\
  file_at (cleanup_old_feedback sample_floats store_three 30 None
             sample_now).2 "issue" "a1.json" = None.
Proof. repeat split; vm_compute; reflexivity. Qed.

(** * File names *)

Lemma string_length_app (s1 s2 : string) :
  String.length (s1 ++ s2) = String.length s1 + String.length s2.
Proof. induction s1 as [|a s1 IH]; simpl; [done|by rewrite IH]. Qed.

Lemma string_app_suffix_inj (s1 s2 suffix : string) :
  s1 ++ suffix = s2 ++ suffix -> s1 = s2.
Proof.
  revert s2. induction s1 as [|a s1 IH]; intros [|b s2] H; simpl in H.
  - done.
  - apply (f_equal String.length) in H.
    rewrite ?string_length_app in H. simpl in H.
    rewrite ?string_length_app in H. lia.
  - apply (f_equal String.length) in H.
    rewrite ?string_length_app in H. simpl in H.
    rewrite ?string_length_app in H. lia.
  - injection H as -> H. f_equal. by apply IH.
Qed.

Lemma json_name_inj sid1 sid2 : json_name sid1 = json_name sid2 -> sid1 = sid2.
Proof. apply string_app_suffix_inj. Qed.

Lemma substring_all (s : string) : substring 0 (String.length s) s = s.
Proof. induction s as [|a s IH]; simpl; [done|by rewrite IH]. Qed.

Lemma substring_skip (s1 s2 : string) n :
  substring (String.length s1) n (s1 ++ s2) = substring 0 n s2.
Proof. induction s1 as [|a s1 IH]; simpl; [done|exact IH]. Qed.

Lemma endswith_app (s suffix : string) : endswith (s ++ suffix) suffix = true.
Proof.
  unfold endswith. rewrite string_length_app.
  destruct (Nat.leb_spec (String.length suffix)
              (String.length s + String.length suffix)) as [_|Hlt]; [|lia].
  replace (String.length s + String.length suffix - String.length suffix)
    with (String.length s) by lia.
  rewrite substring_skip, substring_all. apply String.eqb_refl.
Qed.

Lemma endswith_json_name sid : endswith (json_name sid) ".json" = true.
Proof. apply endswith_app. Qed.

(** * import_feedback *)

Lemma get_feedback_in_ext (st st1 : store) sid types :
  (forall t, file_at st1 t (json_name sid) = file_at st t (json_name sid)) ->
  get_feedback_in st1 sid types = get_feedback_in st sid types.
Proof.
  intros H. induction types as [|t rest IH]; simpl; [done|].
  unfold path_exists, read_json. rewrite H.
  by destruct (file_at st t (json_name sid)) as [[v|]|].
Qed.

Lemma get_feedback_write_other st t sid v st1 sid' :
  write_json st t (json_name sid) v = Ret st1 -> sid' <> sid ->
  get_feedback st1 sid' = get_feedback st sid'.
Proof.
  intros Hw Hne. apply get_feedback_in_ext. intros t'.
  apply (file_at_write_ne _ _ _ _ _ _ _ Hw).
  intros [= _ Hn]. by apply json_name_inj in Hn.
Qed.

Lemma get_feedback_write_absent st t sid v st1 :
  absent st sid -> t ∈ TYPES ->
  write_json st t (json_name sid) v = Ret st1 ->
  get_feedback st1 sid = v.
Proof.
  intros Ha Ht Hw. unfold get_feedback. rewrite get_feedback_in_locate.
  rewrite (locate_write_fresh _ _ _ _ _ _ Hw Ht) by (by apply locate_None).
  by rewrite (file_at_write_eq _ _ _ _ _ Hw).
Qed.

Lemma absent_write_other st t sid v st1 sid' :
  write_json st t (json_name sid) v = Ret st1 -> sid' <> sid ->
  absent st sid' -> absent st1 sid'.
Proof.
  intros Hw Hne Ha t' Ht'. unfold path_exists.
  rewrite (file_at_write_ne _ _ _ _ _ _ _ Hw).
  - by apply Ha.
  - intros [= _ Hn]. by apply json_name_inj in Hn.
Qed.

Lemma sound_get_feedback_falsy st sid :
  sound st -> truthy (get_feedback st sid) = false -> absent st sid.
Proof.
  intros Hs Hf. unfold absent. apply locate_None. unfold get_feedback in Hf.
  rewrite get_feedback_in_locate in Hf.
  destruct (locate st sid TYPES) as [p|] eqn:Hloc; [|done].
  apply locate_Some in Hloc as [Hp He].
  apply path_exists_file_at in He as [f Hfile]. rewrite Hfile in Hf.
  destruct (Hs p _ f Hp Hfile) as (v & -> & Hv). congruence.
Qed.

Lemma write_json_lookup st t name v st1 t' :
  write_json st t name v = Ret st1 ->
  (st1 !! t' = None <-> st !! t' = None).
Proof.
  unfold write_json. destruct (st !! t) as [d|] eqn:Hd; [|done].
  intros [= <-]. destruct (decide (t' = t)) as [->|Hne].
  - rewrite lookup_insert_eq, Hd. split; done.
  - by rewrite lookup_insert_ne.
Qed.

Lemma sound_write st t name v st1 :
  sound st -> truthy v = true -> write_json st t name v = Ret st1 -> sound st1.
Proof.
  intros Hs Hv Hw t' name' f Ht' Hf.
  destruct (decide ((t', name') = (t, name))) as [[= -> ->]|Hne].
  - rewrite (file_at_write_eq _ _ _ _ _ Hw) in Hf. injection Hf as <-. eauto.
  - rewrite (file_at_write_ne _ _ _ _ _ _ _ Hw Hne) in Hf. by apply (Hs t' name').
Qed.

Lemma only_partitions_write st t name v st1 :
  only_partitions st -> write_json st t name v = Ret st1 -> only_partitions st1.
Proof.
  intros Ho Hw t' [d Hd]. apply Ho.
  destruct (st !! t') as [d'|] eqn:E; [eauto|].
  apply (write_json_lookup _ _ _ _ _ t' Hw) in E. congruence.
Qed.

Lemma extends_refl st : extends st st.
Proof. by split. Qed.

Lemma extends_trans st1 st2 st3 :
  extends st1 st2 -> extends st2 st3 -> extends st1 st3.
Proof. intros [H1 H2] [H3 H4]. split; eauto. Qed.

Section import_facts.
Variable py_repr : json -> string.

(** The three ways the loop body can end. *)
Lemma import_one_cases st fd :
  (exists e, import_one py_repr st fd = Raise e) \/
  import_one py_repr st fd = Ret (st, false) \/
  (exists kv idv t st1,
     fd = JObj kv /\ py_get fd "id" = Ret idv /\ truthy idv = true /\
     py_get fd "type" = Ret (JStr t) /\ t <> "" /\
     truthy (get_feedback st (py_str py_repr idv)) = false /\
     write_json st t (json_name (py_str py_repr idv)) fd = Ret st1 /\
     import_one py_repr st fd = Ret (st1, true)).
Proof.
  unfold import_one.
  destruct fd as [ | b | n | s | l | kv ]; try (left; by eexists).
  cbn [py_get bind].
  set (idv := default JNull (assoc_get kv "id")).
  set (tyv := default JNull (assoc_get kv "type")).
  destruct (truthy idv) eqn:Hid; cbn [negb orb]; [|by right; left].
  destruct (truthy tyv) eqn:Hty; cbn [negb]; [|by right; left].
  destruct (truthy (get_feedback st (py_str py_repr idv))) eqn:Hex;
    [by right; left|].
  destruct tyv as [ | b | n | t | l | kv' ] eqn:Etyv; try (left; by eexists).
  destruct (write_json st t (json_name (py_str py_repr idv)) (JObj kv))
    as [st1|] eqn:Hw; [|by right; left].
  right; right. exists kv, idv, t, st1. repeat split; try done.
  intros ->. done.
Qed.

Lemma import_one_extends st fd st1 b :
  sound st -> only_partitions st ->
  import_one py_repr st fd = Ret (st1, b) ->
  sound st1 /\ only_partitions st1 /\ extends st st1.
Proof.
  intros Hs Ho H.
  destruct (import_one_cases st fd)
    as [[e He]|[He|(kv & idv & t & st2 & -> & Hid & Hidt & Hty & Ht & Hex & Hw & He)]];
    rewrite He in H; try done.
  - injection H as <- <-. split; [done|]. split; [done|apply extends_refl].
  - injection H as <- <-.
    split; [|split; [by eapply only_partitions_write|]].
    + eapply sound_write; [done| |done].
      destruct kv; [|done]. simpl in Hid. injection Hid as <-. done.
    + split.
      * intros t' Hn. by apply (write_json_lookup _ _ _ _ _ t' Hw).
      * intros sid Hsid.
        rewrite (get_feedback_write_other _ _ _ _ _ sid Hw); [done|].
        intros ->. congruence.
Qed.

(** A candidate that did not raise is skipped in every later tree. *)
Lemma import_one_again st fd st1 b st' :
  sound st -> only_partitions st ->
  import_one py_repr st fd = Ret (st1, b) ->
  extends st1 st' ->
  import_one py_repr st' fd = Ret (st', false).
Proof.
  intros Hs Ho H [Hdirs Hfind].
  destruct (import_one_cases st fd)
    as [[e He]|[He|(kv & idv & t & st2 & -> & Hid & Hidt & Hty & Ht & Hex & Hw & He)]];
    rewrite He in H; try done.
  - injection H as <- <-. revert He. unfold import_one.
    destruct (py_get fd "id") as [idv|]; [|done]. cbn [bind].
    destruct (py_get fd "type") as [tyv|]; [|done]. cbn [bind].
    destruct (negb (truthy idv) || negb (truthy tyv)); [done|].
    destruct (truthy (get_feedback st (py_str py_repr idv))) eqn:Hex.
    + intros _. by rewrite (Hfind _ Hex).
    + destruct tyv as [ | b' | n | t | l | kv' ]; try done.
      destruct (truthy (get_feedback st' (py_str py_repr idv))); [done|].
      unfold write_json.
      destruct (st !! t) as [d|] eqn:Hd; [done|].
      by rewrite (Hdirs t Hd).
  - injection H as <- <-. unfold import_one. rewrite Hid, Hty. cbn [bind].
    rewrite Hidt. cbn [negb orb truthy]. 
    destruct (String.eqb_spec t "") as [?|_]; [done|]. cbn [negb].
    rewrite (Hfind (py_str py_repr idv)); [done|].
    assert (Htin : t ∈ TYPES).
    { apply Ho. unfold write_json in Hw. destruct (st !! t); [eauto|done]. }
    rewrite (get_feedback_write_absent _ _ _ _ _
               (sound_get_feedback_falsy _ _ Hs Hex) Htin Hw).
    destruct kv; [|done]. simpl in Hid. injection Hid as <-. done.
Qed.

Lemma import_loop_extends l : forall st c r st',
  sound st -> only_partitions st ->
  import_loop py_repr st l c = (r, st') ->
  sound st' /\ only_partitions st' /\ extends st st'.
Proof.
  induction l as [|fd rest IH]; intros st c r st' Hs Ho H; simpl in H.
  - injection H as <- <-. split; [done|]. split; [done|apply extends_refl].
  - destruct (import_one py_repr st fd) as [[st1 b]|e] eqn:H1.
    + destruct (import_one_extends _ _ _ _ Hs Ho H1) as (Hs1 & Ho1 & He1).
      destruct (IH _ _ _ _ Hs1 Ho1 H) as (Hs' & Ho' & He').
      split; [done|]. split; [done|]. by eapply extends_trans.
    + injection H as <- <-. split; [done|]. split; [done|apply extends_refl].
Qed.

(** Running the loop again on the tree it left imports nothing and leaves
    the tree as it is. *)
Lemma import_loop_again l : forall st c r st' c2,
  sound st -> only_partitions st ->
  import_loop py_repr st l c = (r, st') ->
  import_loop py_repr st' l c2
  = (match r with Ret _ => Ret c2 | Raise e => Raise e end, st').
Proof.
  induction l as [|fd rest IH]; intros st c r st' c2 Hs Ho H; simpl in H.
  - by injection H as <- <-.
  - cbn [import_loop].
    destruct (import_one py_repr st fd) as [[st1 b]|e] eqn:H1.
    + destruct (import_one_extends _ _ _ _ Hs Ho H1) as (Hs1 & Ho1 & He1).
      destruct (import_loop_extends _ _ _ _ _ Hs1 Ho1 H) as (_ & _ & He').
      rewrite (import_one_again _ _ _ _ _ Hs Ho H1 He').
      by apply (IH st1 _ _ _ _ Hs1 Ho1 H).
    + injection H as <- <-. by rewrite H1.
Qed.
End import_facts.

Lemma record_of_fun t1 sid1 t2 sid2 kv :
  record_of t1 sid1 kv -> record_of t2 sid2 kv -> t1 = t2 /\ sid1 = sid2.
Proof. intros (H1 & _ & H2 & _) (H3 & _ & H4 & _). split; congruence. Qed.

Lemma TYPES_nonempty t : t ∈ TYPES -> t <> "".
Proof. intros Ht ->. apply in_list_elem_of in Ht. done. Qed.

Section import_fresh.
Variable py_repr : json -> string.

Lemma import_one_fresh st t sid kv :
  initialised st -> t ∈ TYPES -> record_of t sid kv -> absent st sid ->
  exists st1,
    write_json st t (json_name sid) (JObj kv) = Ret st1 /\
    import_one py_repr st (JObj kv) = Ret (st1, true).
Proof.
  intros Hi Ht (Hid & Hsid & Hty & _) Ha.
  destruct (write_json_Ret st t (json_name sid) (JObj kv) (Hi _ Ht)) as [st1 Hw].
  exists st1. split; [done|]. unfold import_one. cbn [py_get bind].
  rewrite Hid, Hty. cbn [default id truthy py_str].
  destruct (String.eqb_spec sid "") as [?|_]; [done|].
  destruct (String.eqb_spec t "") as [?|_]; [by apply TYPES_nonempty in Ht|].
  cbn [negb orb]. rewrite (get_feedback_absent _ _ Ha). cbn [truthy].
  by rewrite Hw.
Qed.

(** Importing records of distinct ids that the tree does not hold: every
    one is written under its type and id, and nothing else changes. *)
Lemma import_loop_fresh l : forall st c,
  initialised st ->
  (forall r, r ∈ l -> exists t sid kv,
      r = JObj kv /\ t ∈ TYPES /\ record_of t sid kv) ->
  NoDup (map (fun r => py_get r "id") l) ->
  (forall t sid kv, JObj kv ∈ l -> record_of t sid kv -> absent st sid) ->
  exists st',
    import_loop py_repr st l c = (Ret (c + List.length l), st') /\
    (forall t sid kv, JObj kv ∈ l -> record_of t sid kv ->
       file_at st' t (json_name sid) = Some (Text (JObj kv))) /\
    (forall t name,
       (forall sid kv, JObj kv ∈ l -> record_of t sid kv -> name <> json_name sid) ->
       file_at st' t name = file_at st t name).
Proof.
  induction l as [|r rest IH]; intros st c Hi Hgood Hnd Habs.
  - exists st. split; [simpl; f_equal; f_equal; lia|].
    split; [intros ??? Hin; inversion Hin|done].
  - destruct (Hgood r) as (t & sid & kv & -> & Ht & Hrec); [left|].
    cbn [map] in Hnd. apply NoDup_cons in Hnd as [Hhead Hnd].
    destruct (import_one_fresh st t sid kv Hi Ht Hrec) as (st1 & Hw & H1).
    { apply (Habs t sid kv); [left|done]. }
    assert (Hdiff : forall t' sid' kv',
               JObj kv' ∈ rest -> record_of t' sid' kv' -> sid' <> sid).
    { intros t' sid' kv' Hin (Hid' & _) ->. apply Hhead.
      apply list_elem_of_fmap. exists (JObj kv'). split; [|done].
      destruct Hrec as (Hid & _). simpl. by rewrite Hid, Hid'. }
    destruct (IH st1 (S c)) as (st' & Hloop & Hin' & Hout').
    { by eapply write_json_initialised. }
    { intros r' Hr'. apply Hgood. by right. }
    { done. }
    { intros t' sid' kv' Hin Hrec'.
      apply (absent_write_other _ _ _ _ _ _ Hw); [by eapply Hdiff|].
      apply (Habs t' sid' kv'); [by right|done]. }
    exists st'. split; [|split].
    + cbn [import_loop]. rewrite H1, Hloop. f_equal. f_equal. simpl. lia.
    + intros t2 sid2 kv2 Hin Hrec2.
      apply elem_of_cons in Hin as [[= ->]|Hin]; [|by eapply Hin'].
      destruct (record_of_fun _ _ _ _ _ Hrec Hrec2) as [<- <-].
      rewrite Hout'; [by apply (file_at_write_eq _ _ _ _ _ Hw)|].
      intros sid' kv' Hin Hrec' Heq. apply json_name_inj in Heq.
      symmetry in Heq. by eapply Hdiff.
    + intros t2 name Hname. rewrite Hout'.
      * apply (file_at_write_ne _ _ _ _ _ _ _ Hw). intros [= -> ->].
        apply (Hname sid kv); [left|done|done].
      * intros sid' kv' Hin. apply Hname. by right.
Qed.
End import_fresh.

(** * export_feedback *)

(** Without filters every record that loads is a candidate. *)
Lemma candidates_all_records st :
  candidates st TYPES None None None = all_records st.
Proof. unfold candidates, all_records. f_equal. Qed.

Lemma elem_of_all_records st r :
  r ∈ all_records st <->
  exists t name, t ∈ TYPES /\ endswith name ".json" = true /\
                 file_at st t name = Some (Text r).
Proof.
  rewrite <-candidates_all_records, elem_of_candidates. split.
  - intros (t & d & name & Ht & Hd & Hname & He & Hread & _).
    exists t, name. split; [done|]. split; [done|].
    unfold read_json in Hread.
    by destruct (file_at st t name) as [[v|]|]; simplify_eq.
  - intros (t & name & Ht & He & Hf). unfold file_at in Hf.
    destruct (st !! t) as [d|] eqn:Hd; [|done]. simpl in Hf.
    exists t, d, name. split; [done|]. split; [done|].
    split; [|split; [done|split; [|done]]].
    + apply assoc_get_Some_elem in Hf. apply list_elem_of_fmap.
      by exists (name, Text r).
    + unfold read_json, file_at. rewrite Hd. simpl. by rewrite Hf.
Qed.

(** When the keys of the selected records are strings, the call returns. *)
Lemma list_feedback_total st feedback_type status priority tags limit :
  (1 <= limit)%Z ->
  Forall (fun r => exists s, created_key r = Ret (JStr s))
    (take (Z.to_nat limit)
       (candidates st (search_directories feedback_type) status priority tags)) ->
  exists results,
    list_feedback st feedback_type status priority tags limit = Ret results.
Proof.
  intros Hlim Hkeys. unfold list_feedback.
  rewrite scan_dirs_spec by (simpl; lia). cbn [app].
  set (sel := take _ _) in *.
  rewrite (decorate_total sel)
    by (eapply Forall_impl; [exact Hkeys|]; intros r [s Hs]; eauto).
  cbn [bind].
  destruct (sort_desc_total (map with_key sel)) as [sorted Hs].
  { apply Forall_fmap. eapply Forall_impl; [exact Hkeys|].
    intros r [s Hs]. exists s. unfold with_key. simpl. by rewrite Hs. }
  rewrite Hs. cbn [bind]. eauto.
Qed.

Lemma empty_store_lookup t :
  empty_store !! t = if in_list t TYPES then Some [] else None.
Proof.
  unfold empty_store, in_list. induction TYPES as [|m rest IH]; simpl.
  - apply lookup_empty.
  - destruct (String.eqb_spec t m) as [->|Hne]; simpl.
    + by rewrite lookup_insert_eq.
    + by rewrite lookup_insert_ne.
Qed.

Lemma file_at_empty_store t name : file_at empty_store t name = None.
Proof.
  unfold file_at. rewrite empty_store_lookup. by destruct (in_list t TYPES).
Qed.

Lemma sound_empty_store : sound empty_store.
Proof. intros t name f _ Hf. by rewrite file_at_empty_store in Hf. Qed.

Lemma only_partitions_empty_store : only_partitions empty_store.
Proof.
  intros t [d Hd]. rewrite empty_store_lookup in Hd.
  apply in_list_elem_of. by destruct (in_list t TYPES).
Qed.

(** C4, as the code has it.  For a store whose partition files are all
    records filed under their own id and type, with string timestamps, ids
    unique over the store and at most 1000 records: the export without
    filters returns a document; importing it into the empty store imports
    every record and leaves a tree in which every partition holds the same
    files with the same contents (comments included) as the exported one;
    importing the document a second time imports nothing and leaves that
    tree as it is. *)
Theorem export_import_roundtrip py_repr st now :
  canonical st ->
  exists doc st1,
    export_feedback st None None now = Ret doc /\
    import_feedback py_repr empty_store (Text doc)
      = (List.length (all_records st), st1) /\
    (forall t name, t ∈ TYPES -> file_at st1 t name = file_at st t name) /\
    import_feedback py_repr st1 (Text doc) = (0, st1).
Proof.
  intros (Hfiles & Hnd & Hlen).
  assert (Hrec : forall r, r ∈ all_records st ->
            exists t sid kv, r = JObj kv /\ t ∈ TYPES /\ record_of t sid kv /\
                             file_at st t (json_name sid) = Some (Text (JObj kv))).
  { intros r Hr. apply elem_of_all_records in Hr as (t & name & Ht & _ & Hf).
    destruct (Hfiles t name _ Ht Hf) as (sid & kv & -> & [= ->] & Hrec).
    by exists t, sid, kv. }
  assert (Htake : take (Z.to_nat 1000) (candidates st (search_directories None)
                                          None None None) = all_records st).
  { cbn [search_directories]. rewrite candidates_all_records.
    apply take_ge. lia. }
  destruct (list_feedback_total st None None None None 1000) as [results Hlist];
    [lia| |].
  { rewrite Htake. apply Forall_forall. intros r Hr.
    destruct (Hrec r Hr) as (t & sid & kv & -> & _ & (_ & _ & _ & Hkey) & _).
    exact Hkey. }
  assert (Hperm := list_feedback_perm st None None None None 1000 results
                     ltac:(lia) Hlist).
  rewrite Htake in Hperm.
  destruct (import_loop_fresh py_repr results empty_store 0)
    as (st1 & Hloop & Hin & Hout).
  { apply initialised_empty_store. }
  { intros r Hr. rewrite Hperm in Hr.
    destruct (Hrec r Hr) as (t & sid & kv & -> & Ht & Hro & _). by exists t, sid, kv. }
  { assert (Hm : map (fun r => py_get r "id") results
                 ≡ₚ map (fun r => py_get r "id") (all_records st))
      by (by apply Permutation_map).
    by rewrite Hm. }
  { intros. apply absent_empty_store. }
  eexists _, st1. unfold export_feedback. rewrite Hlist. cbn [bind].
  split; [reflexivity|].
  assert (Himp : forall st0 : store,
            import_feedback py_repr st0
              (Text (JObj [("exported_at", JStr now);
                           ("total", JNum (Z.of_nat (List.length results)));
                           ("feedback", JArr results)]))
            = match import_loop py_repr st0 results 0 with
              | (Ret imported_count, st') => (imported_count, st')
              | (Raise _, st') => (0, st')
              end) by done.
  split; [|split].
  - rewrite Himp, Hloop. by rewrite (Permutation_length Hperm).
  - intros t name Ht. destruct (file_at st t name) as [f|] eqn:Hf.
    + destruct (Hfiles t name f Ht Hf) as (sid & kv & -> & -> & Hro).
      apply Hin; [|done]. rewrite Hperm. apply elem_of_all_records.
      exists t, (json_name sid). split; [done|].
      split; [apply endswith_json_name|done].
    + rewrite Hout; [apply file_at_empty_store|].
      intros sid kv Hr Hro ->. rewrite Hperm in Hr.
      destruct (Hrec _ Hr) as (t' & sid' & kv' & [= <-] & _ & Hro' & Hf').
      destruct (record_of_fun _ _ _ _ _ Hro Hro') as [<- <-]. congruence.
  - rewrite Himp.
    by rewrite (import_loop_again py_repr results empty_store 0 _ st1 0
                  sound_empty_store only_partitions_empty_store Hloop).
Qed.

Lemma file_at_insert_eq (st : store) t d name :
  file_at (<[t := d]> st) t name = assoc_get d name.
Proof. unfold file_at. by rewrite lookup_insert_eq. Qed.

Lemma file_at_insert_ne (st : store) t d t' name :
  t <> t' -> file_at (<[t := d]> st) t' name = file_at st t' name.
Proof. intros Hne. unfold file_at. by rewrite lookup_insert_ne. Qed.

Lemma canonical_store_three : canonical store_three.
Proof.
  split; [|split].
  - intros t name f Ht Hf. unfold TYPES in Ht. unfold store_three in Hf.
    repeat (apply elem_of_cons in Ht as [->|Ht]); [| | | | |inversion Ht];
      repeat (rewrite file_at_insert_eq in Hf
              || rewrite file_at_insert_ne in Hf by done);
      rewrite ?file_at_empty_store in Hf; cbn [assoc_get] in Hf; try done.
    + destruct (String.eqb_spec "a1.json" name) as [<-|_]; [|done].
      exists "a1", kv_a1. injection Hf as <-.
      repeat split; try done. by exists "2024-01-02T10:00:00".
    + destruct (String.eqb_spec "b2.json" name) as [<-|_]; [|done].
      exists "b2", kv_b2. injection Hf as <-.
      repeat split; try done. by exists "2024-01-03T10:00:00".
    + destruct (String.eqb_spec "c3.json" name) as [<-|_]; [|done].
      exists "c3", kv_c3. injection Hf as <-.
      repeat split; try done. by exists "2024-01-01T10:00:00".
  - vm_compute. repeat (apply NoDup_cons; split;
      [rewrite ?elem_of_cons, elem_of_nil; intuition discriminate|]).
    apply NoDup_nil_2.
  - vm_compute. discriminate.
Qed.

Lemma export_import_roundtrip_witness :
  exists doc st1,
    export_feedback store_three None None "2024-02-01T00:00:00" = Ret doc /\
    import_feedback (fun _ => "") empty_store (Text doc)
      = (List.length (all_records store_three), st1) /\
    (forall t name, t ∈ TYPES ->
                    file_at st1 t name = file_at store_three t name) /\
    import_feedback (fun _ => "") st1 (Text doc) = (0, st1).
Proof.
  apply (export_import_roundtrip (fun _ => "") store_three "2024-02-01T00:00:00").
  apply canonical_store_three.
Defined.

(** C4 as worded, for every store state, fails in three ways.  A store of
    1001 records: the export stops at its limit of 1000, so the import
    brings 1000 and the record scanned last is missing.  The store with two
    files for the id a1: the import skips the second as already present.
    The store whose one record has no [id]: the import skips it. *)
Lemma export_import_claim_fails :
  is_Some (file_at (big_store 1001) "issue" "1000.json") /\
  match export_then_import (fun _ => "") (big_store 1001) "2024-02-01T00:00:00" with
  | Some (n, st1) => n = 1000 /\ file_at st1 "issue" "1000.json" = None
  | None => False
  end /\
  is_Some (file_at store_two_copies "issue" "a1.json") /\
  is_Some (file_at store_two_copies "other" "a1.json") /\
  match export_then_import (fun _ => "") store_two_copies "2024-02-01T00:00:00" with
  | Some (n, st1) => n = 1 /\ file_at st1 "other" "a1.json" = None
  | None => False
  end /\
  is_Some (file_at store_no_id "issue" "x.json") /\
  match export_then_import (fun _ => "") store_no_id "2024-02-01T00:00:00" with
  | Some (n, st1) => n = 0 /\ file_at st1 "issue" "x.json" = None
  | None => False
  end.
Proof.
  split; [vm_compute; eauto|]. split; [vm_compute; by split|].
  split; [vm_compute; eauto|]. split; [vm_compute; eauto|].
  split; [vm_compute; by split|].
  split; [vm_compute; eauto|]. vm_compute; by split.
Qed.

(** A record with a status and a priority outside the closed sets is
    counted in [total] and under its partition, and in no other counter. *)
Example get_feedback_stats_odd_values :
  total (get_feedback_stats store_odd_values) = 1 /\
  by_type (get_feedback_stats store_odd_values) !! "issue" = Some 1 /\
  by_status (get_feedback_stats store_odd_values) !! "bogus" = None /\
  by_status (get_feedback_stats store_odd_values)
    = zero_counters STATUSES /\
  by_priority (get_feedback_stats store_odd_values)
    = zero_counters PRIORITIES.
Proof. repeat split; vm_compute; reflexivity. Qed.

(** * The constructor and the module-level functions *)

Lemma makedirs_lookup st t t' :
  makedirs st t !! t' =
    if decide (t' = t) then Some (default [] (st !! t)) else st !! t'.
Proof.
  unfold makedirs. destruct (st !! t) as [d|] eqn:E.
  - destruct (decide (t' = t)) as [->|]; [by rewrite E|done].
  - destruct (decide (t' = t)) as [->|].
    + by rewrite lookup_insert_eq.
    + by rewrite lookup_insert_ne.
Qed.

Lemma foldl_makedirs_lookup types : forall st t,
  foldl makedirs st types !! t =
    if decide (t ∈ types) then Some (default [] (st !! t)) else st !! t.
Proof.
  induction types as [|u types IH]; intros st t; cbn [foldl].
  - destruct (decide (t ∈ [])) as [H|]; [by apply elem_of_nil in H|done].
  - rewrite IH, !makedirs_lookup.
    destruct (decide (t = u)) as [->|Hne].
    + destruct (decide (u ∈ types)), (decide (u ∈ u :: types)) as [|Hn];
        try done; by destruct Hn; left.
    + destruct (decide (t ∈ types)) as [Hin|Hout],
        (decide (t ∈ u :: types)) as [Hin'|Hout']; try done.
      * by destruct Hout'; right.
      * apply elem_of_cons in Hin' as [?|?]; done.
Qed.

Lemma init_lookup st t :
  init st !! t = if decide (t ∈ TYPES) then Some (default [] (st !! t)) else st !! t.
Proof. apply foldl_makedirs_lookup. Qed.

Lemma file_at_init st t name : file_at (init st) t name = file_at st t name.
Proof.
  unfold file_at. rewrite init_lookup.
  destruct (decide (t ∈ TYPES)); [|done].
  by destruct (st !! t).
Qed.

Lemma init_initialised st : initialised (init st).
Proof.
  intros t Ht. rewrite init_lookup. by destruct (decide (t ∈ TYPES)).
Qed.

Lemma init_of_initialised st : initialised st -> init st = st.
Proof.
  intros Hi. apply map_eq. intros t. rewrite init_lookup.
  destruct (decide (t ∈ TYPES)) as [Ht|]; [|done].
  by destruct (Hi t Ht) as [d ->].
Qed.

Lemma path_exists_init st t name :
  path_exists (init st) t name = path_exists st t name.
Proof. unfold path_exists. by rewrite file_at_init. Qed.

Lemma absent_init st feedback_id : absent st feedback_id -> absent (init st) feedback_id.
Proof. intros Ha t Ht. rewrite path_exists_init. by apply Ha. Qed.

Lemma read_json_init st t name : read_json (init st) t name = read_json st t name.
Proof. unfold read_json. by rewrite file_at_init. Qed.

(** X1.  The constructor leaves the five partition directories in place,
    creates a directory only where a partition was missing, changes no
    file, and does nothing when it runs a second time. *)
Theorem init_creates_partitions st :
  initialised (init st)
  /\ (forall t, is_Some (init st !! t) <-> is_Some (st !! t) \/ t ∈ TYPES)
  /\ (forall t d, st !! t = Some d -> init st !! t = Some d)
  /\ (forall t name, file_at (init st) t name = file_at st t name)
  /\ init (init st) = init st.
Proof.
  split; [apply init_initialised|].
  split.
  { intros t. rewrite init_lookup.
    destruct (decide (t ∈ TYPES)) as [Ht|Ht].
    - split; [by right|by eexists].
    - split; [by left|]. by intros [?|?]. }
  split.
  { intros t d Hd. rewrite init_lookup, Hd. by destruct (decide (t ∈ TYPES)). }
  split; [apply file_at_init|].
  apply init_of_initialised, init_initialised.
Qed.

Lemma get_feedback_init st feedback_id :
  get_feedback (init st) feedback_id = get_feedback st feedback_id.
Proof. apply get_feedback_in_ext. intros t. apply file_at_init. Qed.

Lemma candidates_init st directories status priority tags :
  candidates (init st) directories status priority tags
  = candidates st directories status priority tags.
Proof.
  unfold candidates. induction directories as [|t rest IH]; [done|].
  cbn [flat_map]. rewrite IH. f_equal.
  unfold dir_candidates. rewrite init_lookup.
  assert (Hpf : forall l : list string,
    omap (passing_file (init st) t status priority tags) l
    = omap (passing_file st t status priority tags) l).
  { induction l as [|name l IHl]; [done|]. rewrite !omap_cons_eq, IHl.
    unfold passing_file. by rewrite read_json_init. }
  destruct (decide (t ∈ TYPES)); destruct (st !! t) as [d|]; cbn [default id];
    by rewrite ?Hpf.
Qed.

Lemma stats_dir_init st s t : stats_dir (init st) s t = stats_dir st s t.
Proof.
  unfold stats_dir. rewrite init_lookup.
  assert (Hf : forall (l : list string) s0,
    foldl (fun s filename => stats_file (init st) t filename s) s0 l
    = foldl (fun s filename => stats_file st t filename s) s0 l).
  { induction l as [|name l IH]; intros s0; [done|]. cbn [foldl].
    rewrite IH. f_equal. unfold stats_file. by rewrite read_json_init. }
  destruct (decide (t ∈ TYPES)); destruct (st !! t) as [d|]; cbn [default id];
    by rewrite ?Hf.
Qed.

Lemma get_feedback_stats_init st :
  get_feedback_stats (init st) = get_feedback_stats st.
Proof.
  assert (H : forall (l : list string) s,
    foldl (stats_dir (init st)) s l = foldl (stats_dir st) s l).
  { induction l as [|t l IH]; intros s; [done|].
    cbn [foldl]. by rewrite IH, stats_dir_init. }
  apply H.
Qed.

(** X2.  Building a [FeedbackSystem] before a read changes nothing of
    what is read: the module-level [get_feedback], [get_feedback_stats]
    and, for a limit of at least one, [list_feedback] return what the
    methods return on the tree as it was. *)
Theorem toplevel_reads_unchanged st feedback_id feedback_type status priority
    tags limit :
  (1 <= limit)%Z ->
  (toplevel.get_feedback st feedback_id).1 = get_feedback st feedback_id
  /\ (toplevel.get_feedback_stats st).1 = get_feedback_stats st
  /\ (toplevel.list_feedback st feedback_type status priority tags limit).1
     = list_feedback st feedback_type status priority tags limit.
Proof.
  intros Hl. cbn [toplevel.get_feedback toplevel.get_feedback_stats
                    toplevel.list_feedback fst].
  split; [apply get_feedback_init|].
  split; [apply get_feedback_stats_init|].
  unfold list_feedback.
  rewrite !scan_dirs_spec by (cbn [List.length]; lia).
  by rewrite candidates_init.
Qed.

Lemma toplevel_reads_unchanged_witness :
  (1 <= 10)%Z /\
  (toplevel.get_feedback store_three "b2").1 = get_feedback store_three "b2"
  /\ (toplevel.get_feedback_stats store_three).1 = get_feedback_stats store_three
  /\ (toplevel.list_feedback store_three None (Some "new") None None 10).1
     = list_feedback store_three None (Some "new") None None 10.
Proof.
  split; [lia|].
  apply (toplevel_reads_unchanged store_three "b2" None (Some "new") None None 10).
  lia.
Defined.

(** X3.  The four submit helpers work on any tree, also one that lacks
    the partition directories: each returns the fresh id, files the record
    in the partition of its own type with status [new], and
    [get_feedback] then returns that record. *)
Theorem submit_helpers_file_by_type st title description priority tags context
    uuid now1 now2 :
  absent st uuid ->
  Forall
    (fun '(submit, t) =>
       exists st' kv,
         submit st title description priority tags context uuid now1 now2
           = (uuid, st')
         /\ file_at st' t (json_name uuid) = Some (Text (JObj kv))
         /\ get_feedback st' uuid = JObj kv
         /\ assoc_get kv "type" = Some (JStr t)
         /\ assoc_get kv "status" = Some (JStr "new")
         /\ assoc_get kv "title" = Some (JStr title))
    [(toplevel.submit_issue, "issue");
     (toplevel.submit_improvement, "improvement");
     (toplevel.submit_question, "question");
     (toplevel.submit_compliance_report, "compliance")].
Proof.
  intros Ha.
  assert (H : forall t, t ∈ TYPES ->
    exists st' kv,
      submit_feedback (init st) t title description priority tags context
        uuid now1 now2 = (uuid, st')
      /\ file_at st' t (json_name uuid) = Some (Text (JObj kv))
      /\ get_feedback st' uuid = JObj kv
      /\ assoc_get kv "type" = Some (JStr t)
      /\ assoc_get kv "status" = Some (JStr "new")
      /\ assoc_get kv "title" = Some (JStr title)).
  { intros t Ht.
    pose proof (submit_feedback_written (init st) t title description priority
                  tags context uuid now1 now2) as Hw.
    cbv zeta in Hw. apply in_list_elem_of in Ht as Hb. rewrite Hb in Hw.
    destruct Hw as (st' & kv & Hs & Hwr & _ & Hty & Hti & _ & _ & _ & _ & Hst & _).
    { by apply init_initialised. }
    exists st', kv. split; [done|].
    split; [by apply (file_at_write_eq _ _ _ _ _ Hwr)|].
    split; [|done].
    apply (get_feedback_write_absent (init st) t uuid _ st'); auto.
    by apply absent_init. }
  repeat apply Forall_cons_2; try apply Forall_nil_2;
    apply H; apply in_list_elem_of; reflexivity.
Qed.

Lemma submit_helpers_file_by_type_witness :
  absent (∅ : store) "u1" /\
  Forall
    (fun '(submit, t) =>
       exists st' kv,
         submit (∅ : store) "T" "D" "high" None None "u1" "n1" "n2" = ("u1", st')
         /\ file_at st' t (json_name "u1") = Some (Text (JObj kv))
         /\ get_feedback st' "u1" = JObj kv
         /\ assoc_get kv "type" = Some (JStr t)
         /\ assoc_get kv "status" = Some (JStr "new")
         /\ assoc_get kv "title" = Some (JStr "T"))
    [(toplevel.submit_issue, "issue");
     (toplevel.submit_improvement, "improvement");
     (toplevel.submit_question, "question");
     (toplevel.submit_compliance_report, "compliance")].
Proof.
  assert (Ha : absent (∅ : store) "u1") by (intros t _; reflexivity).
  split; [exact Ha|].
  exact (submit_helpers_file_by_type ∅ "T" "D" "high" None None "u1" "n1" "n2" Ha).
Defined.

(** * add_comment *)

Lemma add_comment_written st feedback_id comment author uuid now1 now2 kv
    comments t :
  get_feedback st feedback_id = JObj kv ->
  assoc_get kv "comments" = Some (JArr comments) ->
  assoc_get kv "type" = Some (JStr t) ->
  is_Some (st !! t) ->
  exists st',
    add_comment st feedback_id comment author uuid now1 now2 = (Ret true, st')
    /\ write_json st t (json_name feedback_id)
         (JObj (assoc_set
                  (assoc_set kv "comments"
                     (JArr (comments ++
                              [JObj [("id", JStr uuid);
                                     ("author", JStr author);
                                     ("content", JStr comment);
                                     ("created_at", JStr now1)]])))
                  "updated_at" (JStr now2)))
       = Ret st'.
Proof.
  intros Hg Hc Ht Hd.
  destruct (write_json_Ret st t (json_name feedback_id)
              (JObj (assoc_set
                  (assoc_set kv "comments"
                     (JArr (comments ++
                              [JObj [("id", JStr uuid);
                                     ("author", JStr author);
                                     ("content", JStr comment);
                                     ("created_at", JStr now1)]])))
                  "updated_at" (JStr now2))) Hd) as [st' Hw].
  exists st'. split; [|exact Hw].
  unfold add_comment. rewrite Hg.
  assert (Htr : truthy (JObj kv) = true).
  { destruct kv; [discriminate Hc|done]. }
  rewrite Htr. cbn [negb]. rewrite Hc. cbv zeta.
  rewrite !assoc_get_set_ne by discriminate.
  rewrite Ht. by rewrite Hw.
Qed.

(** X4.  A comment for a plain id that no partition holds is refused:
    [add_comment] returns [False] and the tree stays as it was. *)
Theorem add_comment_nonexistent st feedback_id comment author uuid now1 now2 :
  plain_id feedback_id = true ->
  absent st feedback_id ->
  add_comment st feedback_id comment author uuid now1 now2 = (Ret false, st).
Proof.
  intros _ Ha. unfold add_comment. by rewrite (get_feedback_absent _ _ Ha).
Qed.

Lemma add_comment_nonexistent_witness :
  absent store_a1 "zz"
  /\ add_comment store_a1 "zz" "hello" "AI Agent" "c1" "n1" "n2"
     = (Ret false, store_a1).
Proof.
  assert (Ha : absent store_a1 "zz").
  { intros t Ht. repeat (apply elem_of_cons in Ht as [->|Ht]; [reflexivity|]).
    by apply elem_of_nil in Ht. }
  split; [exact Ha|].
  exact (add_comment_nonexistent store_a1 "zz" "hello" "AI Agent" "c1" "n1" "n2"
           eq_refl Ha).
Defined.

(** X5.  [add_comment] on a record that is found, has a list of comments
    and names an existing partition as its type returns [True]; the file
    it writes holds the old comments followed by the new one, a refreshed
    [updated_at] and every other field as before, and no other file is
    touched. *)
Theorem add_comment_appends st feedback_id comment author uuid now1 now2 kv
    comments t :
  get_feedback st feedback_id = JObj kv ->
  assoc_get kv "comments" = Some (JArr comments) ->
  assoc_get kv "type" = Some (JStr t) ->
  is_Some (st !! t) ->
  exists st' kv',
    add_comment st feedback_id comment author uuid now1 now2 = (Ret true, st')
    /\ file_at st' t (json_name feedback_id) = Some (Text (JObj kv'))
    /\ assoc_get kv' "comments"
       = Some (JArr (comments ++ [JObj [("id", JStr uuid);
                                        ("author", JStr author);
                                        ("content", JStr comment);
                                        ("created_at", JStr now1)]]))
    /\ assoc_get kv' "updated_at" = Some (JStr now2)
    /\ (forall k, k <> "comments" -> k <> "updated_at" ->
                  assoc_get kv' k = assoc_get kv k)
    /\ (forall t' name, (t', name) <> (t, json_name feedback_id) ->
                        file_at st' t' name = file_at st t' name).
Proof.
  intros Hg Hc Ht Hd.
  destruct (add_comment_written st feedback_id comment author uuid now1 now2
              kv comments t Hg Hc Ht Hd) as (st' & Ha & Hw).
  eexists st', _. split; [exact Ha|].
  split; [apply (file_at_write_eq _ _ _ _ _ Hw)|].
  split; [by rewrite assoc_get_set_ne, assoc_get_set_eq|].
  split; [by rewrite assoc_get_set_eq|].
  split.
  - intros k H1 H2. by rewrite !assoc_get_set_ne.
  - intros t' name Hne. by apply (file_at_write_ne _ _ _ _ _ _ _ Hw).
Qed.

Lemma add_comment_appends_witness :
  exists st' kv',
    add_comment store_a1 "a1" "hello" "AI Agent" "c1" "n1" "n2" = (Ret true, st')
    /\ file_at st' "issue" (json_name "a1") = Some (Text (JObj kv'))
    /\ assoc_get kv' "comments"
       = Some (JArr ([] ++ [JObj [("id", JStr "c1");
                                  ("author", JStr "AI Agent");
                                  ("content", JStr "hello");
                                  ("created_at", JStr "n1")]]))
    /\ assoc_get kv' "updated_at" = Some (JStr "n2")
    /\ (forall k, k <> "comments" -> k <> "updated_at" ->
                  assoc_get kv' k
                  = assoc_get (sample_fields "a1" "issue" "new" "high" ["ui"]
                                 "2024-01-01T10:00:00") k)
    /\ (forall t' name, (t', name) <> ("issue", json_name "a1") ->
                        file_at st' t' name = file_at store_a1 t' name).
Proof.
  apply (add_comment_appends store_a1 "a1" "hello" "AI Agent" "c1" "n1" "n2"
           (sample_fields "a1" "issue" "new" "high" ["ui"] "2024-01-01T10:00:00")
           [] "issue").
  - reflexivity.
  - reflexivity.
  - reflexivity.
  - vm_compute. eexists. reflexivity.
Defined.

Lemma add_comment_filed st feedback_id comment author uuid now1 now2 kv
    comments t :
  locate st feedback_id TYPES = Some t ->
  file_at st t (json_name feedback_id) = Some (Text (JObj kv)) ->
  assoc_get kv "comments" = Some (JArr comments) ->
  assoc_get kv "type" = Some (JStr t) ->
  exists st' kv',
    add_comment st feedback_id comment author uuid now1 now2 = (Ret true, st')
    /\ locate st' feedback_id TYPES = Some t
    /\ file_at st' t (json_name feedback_id) = Some (Text (JObj kv'))
    /\ assoc_get kv' "comments"
       = Some (JArr (comments ++ [JObj [("id", JStr uuid);
                                        ("author", JStr author);
                                        ("content", JStr comment);
                                        ("created_at", JStr now1)]]))
    /\ assoc_get kv' "updated_at" = Some (JStr now2)
    /\ (forall k, k <> "comments" -> k <> "updated_at" ->
                  assoc_get kv' k = assoc_get kv k).
Proof.
  intros Hl Hf Hc Ht.
  assert (Hg : get_feedback st feedback_id = JObj kv).
  { unfold get_feedback. by rewrite get_feedback_in_locate, Hl, Hf. }
  assert (Hd : is_Some (st !! t)).
  { unfold file_at in Hf. destruct (st !! t); [by eexists|discriminate]. }
  destruct (add_comment_written st feedback_id comment author uuid now1 now2
              kv comments t Hg Hc Ht Hd) as (st' & Ha & Hw).
  eexists st', _. split; [exact Ha|].
  split.
  { rewrite (locate_write _ _ _ _ _ _ _ Hw Hl). by destruct (Nat.ltb _ _). }
  split; [apply (file_at_write_eq _ _ _ _ _ Hw)|].
  split; [by rewrite assoc_get_set_ne, assoc_get_set_eq|].
  split; [by rewrite assoc_get_set_eq|].
  intros k H1 H2. by rewrite !assoc_get_set_ne.
Qed.

(** X6.  Two comments added one after the other to a record that is filed
    under its own type both succeed, and [get_feedback] then returns the
    record with the two comments after the old ones, in the order in
    which they were added. *)
Theorem add_comment_twice st feedback_id kv comments t
    comment1 author1 uuid1 now1 now1' comment2 author2 uuid2 now2 now2' :
  locate st feedback_id TYPES = Some t ->
  file_at st t (json_name feedback_id) = Some (Text (JObj kv)) ->
  assoc_get kv "comments" = Some (JArr comments) ->
  assoc_get kv "type" = Some (JStr t) ->
  exists st1 st2 kv2,
    add_comment st feedback_id comment1 author1 uuid1 now1 now1' = (Ret true, st1)
    /\ add_comment st1 feedback_id comment2 author2 uuid2 now2 now2'
       = (Ret true, st2)
    /\ get_feedback st2 feedback_id = JObj kv2
    /\ assoc_get kv2 "comments"
       = Some (JArr (comments ++
                       [JObj [("id", JStr uuid1);
                              ("author", JStr author1);
                              ("content", JStr comment1);
                              ("created_at", JStr now1)];
                        JObj [("id", JStr uuid2);
                              ("author", JStr author2);
                              ("content", JStr comment2);
                              ("created_at", JStr now2)]]))
    /\ assoc_get kv2 "updated_at" = Some (JStr now2')
    /\ (forall k, k <> "comments" -> k <> "updated_at" ->
                  assoc_get kv2 k = assoc_get kv k).
Proof.
  intros Hl Hf Hc Ht.
  destruct (add_comment_filed st feedback_id comment1 author1 uuid1 now1 now1'
              kv comments t Hl Hf Hc Ht)
    as (st1 & kv1 & Ha1 & Hl1 & Hf1 & Hc1 & _ & Hk1).
  assert (Ht1 : assoc_get kv1 "type" = Some (JStr t)).
  { by rewrite Hk1. }
  destruct (add_comment_filed st1 feedback_id comment2 author2 uuid2 now2 now2'
              kv1 _ t Hl1 Hf1 Hc1 Ht1)
    as (st2 & kv2 & Ha2 & Hl2 & Hf2 & Hc2 & Hu2 & Hk2).
  exists st1, st2, kv2. split; [exact Ha1|]. split; [exact Ha2|].
  split.
  { unfold get_feedback. by rewrite get_feedback_in_locate, Hl2, Hf2. }
  split; [by rewrite Hc2, <- app_assoc|].
  split; [exact Hu2|].
  intros k H1 H2. by rewrite Hk2, Hk1.
Qed.

Lemma add_comment_twice_witness :
  exists st1 st2 kv2,
    add_comment store_a1 "a1" "first" "AI Agent" "c1" "n1" "n2" = (Ret true, st1)
    /\ add_comment st1 "a1" "second" "Reviewer" "c2" "n3" "n4" = (Ret true, st2)
    /\ get_feedback st2 "a1" = JObj kv2
    /\ assoc_get kv2 "comments"
       = Some (JArr ([] ++
                       [JObj [("id", JStr "c1");
                              ("author", JStr "AI Agent");
                              ("content", JStr "first");
                              ("created_at", JStr "n1")];
                        JObj [("id", JStr "c2");
                              ("author", JStr "Reviewer");
                              ("content", JStr "second");
                              ("created_at", JStr "n3")]]))
    /\ assoc_get kv2 "updated_at" = Some (JStr "n4")
    /\ (forall k, k <> "comments" -> k <> "updated_at" ->
                  assoc_get kv2 k
                  = assoc_get (sample_fields "a1" "issue" "new" "high" ["ui"]
                                 "2024-01-01T10:00:00") k).
Proof.
  apply (add_comment_twice store_a1 "a1"
           (sample_fields "a1" "issue" "new" "high" ["ui"] "2024-01-01T10:00:00")
           [] "issue"); reflexivity.
Defined.

(** X7.  A record that is found but has no list of comments makes
    [add_comment] raise instead of returning [False]: [KeyError] when the
    key is missing, [AttributeError] when its value is not a list.  The
    tree stays as it was. *)
Theorem add_comment_without_comment_list st feedback_id comment author uuid
    now1 now2 kv :
  get_feedback st feedback_id = JObj kv ->
  kv <> [] ->
  (forall comments, assoc_get kv "comments" <> Some (JArr comments)) ->
  add_comment st feedback_id comment author uuid now1 now2
  = (Raise (match assoc_get kv "comments" with
            | None => KeyError
            | Some _ => AttributeError
            end), st).
Proof.
  intros Hg Hne Hc. unfold add_comment. rewrite Hg.
  assert (Htr : truthy (JObj kv) = true) by (by destruct kv).
  rewrite Htr. cbn [negb].
  destruct (assoc_get kv "comments") as [[ | | | | l | ]|]; try done.
  by destruct (Hc l).
Qed.

Lemma add_comment_without_comment_list_witness :
  get_feedback store_no_id "x"
  = JObj [("type", JStr "issue"); ("title", JStr "T");
          ("created_at", JStr "2024-01-01T10:00:00")]
  /\ add_comment store_no_id "x" "hello" "AI Agent" "c1" "n1" "n2"
     = (Raise KeyError, store_no_id).
Proof.
  split; [reflexivity|].
  apply (add_comment_without_comment_list store_no_id "x" "hello" "AI Agent"
           "c1" "n1" "n2"
           [("type", JStr "issue"); ("title", JStr "T");
            ("created_at", JStr "2024-01-01T10:00:00")]).
  - reflexivity.
  - discriminate.
  - intros comments. discriminate.
Defined.

(** * update_feedback and get_feedback: round trip and errors *)

Lemma update_feedback_filed st feedback_id updates now kv t :
  locate st feedback_id TYPES = Some t ->
  file_at st t (json_name feedback_id) = Some (Text (JObj kv)) ->
  assoc_get kv "type" = Some (JStr t) ->
  NoDup updates.*1 ->
  "type" ∉ updates.*1 ->
  exists st' kv',
    update_feedback st feedback_id updates now = (Ret true, st')
    /\ get_feedback st' feedback_id = JObj kv'
    /\ (forall k v, (k, v) ∈ updates ->
                    k ∉ ["id"; "created_at"; "updated_at"] ->
                    assoc_get kv' k = Some v)
    /\ assoc_get kv' "updated_at" = Some (JStr now)
    /\ (forall k, k ∉ updates.*1 -> k <> "updated_at" ->
                  assoc_get kv' k = assoc_get kv k)
    /\ (forall other, other <> feedback_id ->
                      get_feedback st' other = get_feedback st other).
Proof.
  intros Hl Hf Ht Hnd Hnt.
  assert (Hg : get_feedback st feedback_id = JObj kv).
  { unfold get_feedback. by rewrite get_feedback_in_locate, Hl, Hf. }
  assert (Hd : is_Some (st !! t)).
  { unfold file_at in Hf. destruct (st !! t); [by eexists|discriminate]. }
  destruct (write_json_Ret st t (json_name feedback_id)
              (JObj (assoc_set (apply_updates kv updates) "updated_at"
                       (JStr now))) Hd) as [st' Hw].
  eexists st', _. split.
  { unfold update_feedback. rewrite Hg.
    assert (Htr : truthy (JObj kv) = true) by (destruct kv; [discriminate Ht|done]).
    rewrite Htr. cbn [negb]. cbv zeta.
    rewrite assoc_get_set_ne by discriminate.
    rewrite apply_updates_not_in by done. rewrite Ht. by rewrite Hw. }
  split.
  { unfold get_feedback. rewrite get_feedback_in_locate.
    rewrite (locate_write _ _ _ _ _ _ _ Hw Hl).
    assert (He : (if Nat.ltb (rank t TYPES) (rank t TYPES) then t else t) = t)
      by (by destruct (Nat.ltb _ _)).
    rewrite He. by rewrite (file_at_write_eq _ _ _ _ _ Hw). }
  split.
  { intros k v Hin Hk. apply in_list_false in Hk.
    assert (Hk1 : "updated_at" <> k) by (by intros <-).
    assert (Hk2 : k ∉ ["id"; "created_at"]).
    { apply in_list_false. unfold in_list in *. cbn [existsb] in *.
      by repeat (apply orb_false_elim in Hk as [? Hk]; apply orb_false_intro). }
    rewrite assoc_get_set_ne by done.
    by apply apply_updates_applied. }
  split; [by rewrite assoc_get_set_eq|].
  split.
  { intros k Hk Hne. rewrite assoc_get_set_ne by done.
    by apply apply_updates_not_in. }
  intros other Hne. by apply (get_feedback_write_other _ _ _ _ _ _ Hw).
Qed.

(** X8.  An update of a record that is filed under its own type, with a
    payload that does not name [type], succeeds, and [get_feedback] then
    returns the record with the payload applied: every payload key other
    than [id], [created_at] and [updated_at] has the payload's value,
    [updated_at] is the clock reading, every key outside the payload is as
    before.  What [get_feedback] returns for any other id is unchanged. *)
Theorem update_feedback_then_get st feedback_id updates now kv t :
  locate st feedback_id TYPES = Some t ->
  file_at st t (json_name feedback_id) = Some (Text (JObj kv)) ->
  assoc_get kv "type" = Some (JStr t) ->
  NoDup updates.*1 ->
  "type" ∉ updates.*1 ->
  exists st' kv',
    update_feedback st feedback_id updates now = (Ret true, st')
    /\ get_feedback st' feedback_id = JObj kv'
    /\ (forall k v, (k, v) ∈ updates ->
                    k ∉ ["id"; "created_at"; "updated_at"] ->
                    assoc_get kv' k = Some v)
    /\ assoc_get kv' "updated_at" = Some (JStr now)
    /\ (forall k, k ∉ updates.*1 -> k <> "updated_at" ->
                  assoc_get kv' k = assoc_get kv k)
    /\ (forall other, other <> feedback_id ->
                      get_feedback st' other = get_feedback st other).
Proof. apply update_feedback_filed. Qed.

Lemma update_feedback_then_get_witness :
  exists st' kv',
    update_feedback store_a1 "a1"
      [("status", JStr "resolved"); ("priority", JStr "low")] "n9"
    = (Ret true, st')
    /\ get_feedback st' "a1" = JObj kv'
    /\ (forall k v, (k, v) ∈ [("status", JStr "resolved"); ("priority", JStr "low")] ->
                    k ∉ ["id"; "created_at"; "updated_at"] ->
                    assoc_get kv' k = Some v)
    /\ assoc_get kv' "updated_at" = Some (JStr "n9")
    /\ (forall k, k ∉ [("status", JStr "resolved"); ("priority", JStr "low")].*1 ->
                  k <> "updated_at" ->
                  assoc_get kv' k
                  = assoc_get (sample_fields "a1" "issue" "new" "high" ["ui"]
                                 "2024-01-01T10:00:00") k)
    /\ (forall other, other <> "a1" ->
                      get_feedback st' other = get_feedback store_a1 other).
Proof.
  apply (update_feedback_then_get store_a1 "a1"
           [("status", JStr "resolved"); ("priority", JStr "low")] "n9"
           (sample_fields "a1" "issue" "new" "high" ["ui"] "2024-01-01T10:00:00")
           "issue").
  - reflexivity.
  - reflexivity.
  - reflexivity.
  - apply (bool_decide_unpack _). vm_compute. exact I.
  - apply (bool_decide_unpack _). vm_compute. exact I.
Defined.

(** X9.  A payload that sets [type] to something that is no existing
    directory never moves the record: a value that is not a string makes
    [update_feedback] raise [TypeError], a plain string that names no
    directory makes it return [False]; in both cases the tree stays as it
    was.  (A string that is not plain, such as [""] or ["issue/"], is
    joined into a path that can exist; nothing is said about it.) *)
Theorem update_feedback_type_not_a_directory st feedback_id updates now kv v :
  plain_id feedback_id = true ->
  get_feedback st feedback_id = JObj kv ->
  kv <> [] ->
  NoDup updates.*1 ->
  ("type", v) ∈ updates ->
  (forall t', v = JStr t' -> plain_component t' = true /\ st !! t' = None) ->
  update_feedback st feedback_id updates now
  = (match v with JStr _ => Ret false | _ => Raise TypeError end, st).
Proof.
  intros _ Hg Hne Hnd Hin Hv. unfold update_feedback. rewrite Hg.
  assert (Htr : truthy (JObj kv) = true) by (by destruct kv).
  rewrite Htr. cbn [negb]. cbv zeta.
  rewrite assoc_get_set_ne by discriminate.
  rewrite (apply_updates_applied kv updates "type" v Hnd Hin)
    by (apply in_list_false; reflexivity).
  destruct v as [ | b | n | s | l | o ]; try done.
  unfold write_json. by rewrite (proj2 (Hv s eq_refl)).
Qed.

Lemma update_feedback_type_not_a_directory_witness :
  update_feedback store_a1 "a1" [("type", JStr "archive")] "n9"
  = (Ret false, store_a1)
  /\ update_feedback store_a1 "a1" [("type", JNull)] "n9"
     = (Raise TypeError, store_a1).
Proof.
  split.
  - apply (update_feedback_type_not_a_directory store_a1 "a1"
             [("type", JStr "archive")] "n9"
             (sample_fields "a1" "issue" "new" "high" ["ui"] "2024-01-01T10:00:00")
             (JStr "archive")).
    + reflexivity.
    + reflexivity.
    + discriminate.
    + apply (bool_decide_unpack _). vm_compute. exact I.
    + apply list_elem_of_here.
    + intros t' [= <-]. split; reflexivity.
  - apply (update_feedback_type_not_a_directory store_a1 "a1"
             [("type", JNull)] "n9"
             (sample_fields "a1" "issue" "new" "high" ["ui"] "2024-01-01T10:00:00")
             JNull).
    + reflexivity.
    + reflexivity.
    + discriminate.
    + apply (bool_decide_unpack _). vm_compute. exact I.
    + apply list_elem_of_here.
    + intros t' [=].
Defined.

(** X10.  The first partition that holds a file for the id decides: when
    that file does not parse, [get_feedback] returns [None] whatever the
    later partitions hold, and [update_feedback] and [add_comment] return
    [False] and leave the tree as it was. *)
Theorem unreadable_copy_hides_record st feedback_id t updates now comment author
    uuid now1 now2 :
  locate st feedback_id TYPES = Some t ->
  file_at st t (json_name feedback_id) = Some Garbled ->
  get_feedback st feedback_id = JNull
  /\ update_feedback st feedback_id updates now = (Ret false, st)
  /\ add_comment st feedback_id comment author uuid now1 now2 = (Ret false, st).
Proof.
  intros Hl Hf.
  assert (Hg : get_feedback st feedback_id = JNull).
  { unfold get_feedback. by rewrite get_feedback_in_locate, Hl, Hf. }
  split; [exact Hg|].
  unfold update_feedback, add_comment. by rewrite Hg.
Qed.

Lemma unreadable_copy_hides_record_witness :
  file_at store_garbled "other" (json_name "a1")
  = Some (Text (sample_record "a1" "other" "new" "high" [] "2024-01-01T10:00:00"))
  /\ get_feedback store_garbled "a1" = JNull
  /\ update_feedback store_garbled "a1" [("status", JStr "resolved")] "n9"
     = (Ret false, store_garbled)
  /\ add_comment store_garbled "a1" "hello" "AI Agent" "c1" "n1" "n2"
     = (Ret false, store_garbled).
Proof.
  split; [reflexivity|].
  apply (unreadable_copy_hides_record store_garbled "a1" "issue"); reflexivity.
Defined.

(** * list_feedback and export_feedback: the limit *)

Lemma scan_files_nonpositive st directory filenames status priority tags limit :
  (limit <= 0)%Z ->
  forall results,
    List.length (scan_files st directory filenames status priority tags limit
                   results) <= S (List.length results).
Proof.
  intros Hl. induction filenames as [|filename rest IH]; intros results;
    cbn [scan_files]; [lia|].
  destruct (negb (endswith filename ".json")); [apply IH|].
  destruct (read_json st directory filename) as [v|e]; [|apply IH].
  destruct (record_passes status priority tags v) as [[ | ]|e]; try apply IH.
  cbv zeta.
  destruct (limit <=? Z.of_nat (List.length (results ++ [v])))%Z eqn:E.
  - rewrite length_app. cbn [List.length]. lia.
  - apply Z.leb_gt in E. lia.
Qed.

Lemma scan_dirs_nonpositive st directories status priority tags limit :
  (limit <= 0)%Z ->
  forall results,
    List.length (scan_dirs st directories status priority tags limit results)
    <= S (List.length results).
Proof.
  intros Hl. induction directories as [|directory rest IH]; intros results;
    cbn [scan_dirs]; [lia|].
  destruct (st !! directory) as [d|]; [|apply IH].
  cbv zeta.
  destruct (limit <=? _)%Z eqn:E.
  - by apply scan_files_nonpositive.
  - apply Z.leb_gt in E. lia.
Qed.

Lemma list_feedback_length st feedback_type status priority tags limit results :
  list_feedback st feedback_type status priority tags limit = Ret results ->
  List.length results
  = Nat.min (Z.to_nat limit)
      (List.length (candidates st (search_directories feedback_type)
                      status priority tags)).
Proof.
  intros Hr.
  destruct (Z_le_gt_dec 1 limit) as [Hl|Hl].
  - rewrite (list_feedback_perm _ _ _ _ _ _ _ Hl Hr). apply length_take.
  - destruct (list_feedback_Ret _ _ _ _ _ _ _ Hr) as (keyed & sorted & Hd & Hs & ->).
    apply decorate_Ret in Hd as [Hd _]. apply sort_desc_perm in Hs.
    pose proof (scan_dirs_nonpositive st (search_directories feedback_type)
                  status priority tags limit ltac:(lia) []) as Hn.
    rewrite <- Hd in Hn. rewrite length_map, <- Hs in Hn. cbn [List.length] in Hn.
    assert (Hz : Z.to_nat limit = 0) by lia. rewrite Hz. cbn [Nat.min].
    unfold slice_to. destruct (0 <=? limit)%Z eqn:E.
    + by rewrite Hz.
    + apply Z.leb_gt in E. rewrite length_take, length_map. lia.
Qed.

(** X11.  When [list_feedback] returns, the number of records it returns
    is the limit or the number of records that pass the filters in the
    searched partitions, whichever is smaller; a limit of zero or below
    gives the empty list. *)
Theorem list_feedback_count st feedback_type status priority tags limit results :
  list_feedback st feedback_type status priority tags limit = Ret results ->
  List.length results
  = Nat.min (Z.to_nat limit)
      (List.length (candidates st (search_directories feedback_type)
                      status priority tags))
  /\ ((limit <= 0)%Z -> results = []).
Proof.
  intros Hr. pose proof (list_feedback_length _ _ _ _ _ _ _ Hr) as Hn.
  split; [exact Hn|].
  intros Hl. assert (Hz : Z.to_nat limit = 0) by lia.
  rewrite Hz in Hn. by destruct results.
Qed.

Lemma list_feedback_count_witness :
  list_feedback store_three None (Some "new") None None 1 = Ret [rec_a1]
  /\ List.length [rec_a1]
     = Nat.min (Z.to_nat 1)
         (List.length (candidates store_three (search_directories None)
                         (Some "new") None None))
  /\ ((1 <= 0)%Z -> [rec_a1] = []).
Proof.
  split; [reflexivity|].
  apply (list_feedback_count store_three None (Some "new") None None 1 [rec_a1]).
  reflexivity.
Defined.

Lemma decorate_non_record results r :
  r ∈ results -> (forall kv, r <> JObj kv) ->
  decorate results = Raise AttributeError.
Proof.
  intros Hin Hr. induction results as [|x rest IH]; [by apply elem_of_nil in Hin|].
  cbn [decorate].
  destruct x as [ | b | n | s | l | kv ]; try reflexivity.
  apply elem_of_cons in Hin as [->|Hin]; [by destruct (Hr kv)|].
  cbn. by rewrite (IH Hin).
Qed.

(** X12.  A stored value that is not a dictionary breaks the listing
    that selects it: when such a value is among the first [limit] values
    that pass the filters, [list_feedback] raises [AttributeError]
    instead of returning a list. *)
Theorem list_feedback_non_record_raises st feedback_type status priority tags
    limit r :
  (1 <= limit)%Z ->
  r ∈ take (Z.to_nat limit)
        (candidates st (search_directories feedback_type) status priority tags) ->
  (forall kv, r <> JObj kv) ->
  list_feedback st feedback_type status priority tags limit
  = Raise AttributeError.
Proof.
  intros Hl Hin Hr. unfold list_feedback.
  rewrite scan_dirs_spec by (cbn [List.length]; lia).
  cbn [app]. by rewrite (decorate_non_record _ r Hin Hr).
Qed.

Lemma list_feedback_non_record_raises_witness :
  (1 <= 10)%Z
  /\ JArr [JStr "todo"]
       ∈ take (Z.to_nat 10)
           (candidates store_stray (search_directories None) None None None)
  /\ list_feedback store_stray None None None None 10 = Raise AttributeError.
Proof.
  assert (H : JArr [JStr "todo"]
       ∈ take (Z.to_nat 10)
           (candidates store_stray (search_directories None) None None None)).
  { vm_compute. apply list_elem_of_here. }
  split; [lia|]. split; [exact H|].
  apply (list_feedback_non_record_raises store_stray None None None None 10
           (JArr [JStr "todo"])); [lia|exact H|discriminate].
Defined.

(** X13.  The document of an export that succeeds counts what it holds:
    its [total] is the number of records in its [feedback] list, which is
    the number of records that pass the type and status filters, cut at
    1000. *)
Theorem export_feedback_total st feedback_type status now doc :
  export_feedback st feedback_type status now = Ret doc ->
  exists feedback_list,
    doc = JObj [("exported_at", JStr now);
                ("total", JNum (Z.of_nat (List.length feedback_list)));
                ("feedback", JArr feedback_list)]
    /\ List.length feedback_list
       = Nat.min 1000
           (List.length (candidates st (search_directories feedback_type)
                           status None None)).
Proof.
  unfold export_feedback. intros He.
  destruct (list_feedback st feedback_type status None None 1000)
    as [feedback_list|e] eqn:Hr; [|discriminate].
  cbn in He. injection He as <-. exists feedback_list. split; [done|].
  by rewrite (list_feedback_length _ _ _ _ _ _ _ Hr).
Qed.

Lemma export_feedback_total_witness :
  exists feedback_list,
    export_feedback store_three None (Some "new") "n9"
    = Ret (JObj [("exported_at", JStr "n9");
                 ("total", JNum (Z.of_nat (List.length feedback_list)));
                 ("feedback", JArr feedback_list)])
    /\ List.length feedback_list
       = Nat.min 1000
           (List.length (candidates store_three (search_directories None)
                           (Some "new") None None)).
Proof.
  destruct (export_feedback_total store_three None (Some "new") "n9"
              (JObj [("exported_at", JStr "n9");
                     ("total", JNum 2);
                     ("feedback", JArr [rec_a1; rec_c3])]))
    as (feedback_list & Hd & Hn).
  - reflexivity.
  - exists feedback_list. split; [|exact Hn].
    injection Hd as Hd. subst feedback_list. reflexivity.
Defined.

(** * get_feedback_stats: sums, and the effect of a submission *)

Lemma stats_lookup st :
  total (get_feedback_stats st) = List.length (all_records st) /\
  (forall t, by_type (get_feedback_stats st) !! t
     = if in_list t TYPES then Some (List.length (readable_records st t))
       else None) /\
  (forall x, by_status (get_feedback_stats st) !! x
     = if in_list x STATUSES
       then Some (count_if (counts_status x) (all_records st)) else None) /\
  (forall x, by_priority (get_feedback_stats st) !! x
     = if in_list x PRIORITIES
       then Some (count_if (counts_priority x) (all_records st)) else None).
Proof.
  unfold get_feedback_stats.
  set (s0 := {| total := 0; by_type := zero_counters TYPES;
                by_status := zero_counters STATUSES;
                by_priority := zero_counters PRIORITIES |}).
  destruct (stats_dirs_spec st TYPES s0) as (Ht & Hty & Hs & Hp).
  split; [exact Ht|]. split; [|split].
  - intros t. rewrite Hty. unfold s0. cbn [by_type].
    rewrite zero_counters_lookup.
    destruct (in_list t TYPES) eqn:E; [|done].
    apply in_list_elem_of in E. unfold TYPES in E.
    repeat (apply elem_of_cons in E as [->|E];
            [simpl; f_equal; by rewrite ?app_nil_r|]).
    inversion E.
  - intros x. rewrite Hs. unfold s0. cbn [by_status].
    rewrite zero_counters_lookup. by destruct (in_list x STATUSES).
  - intros x. rewrite Hp. unfold s0. cbn [by_priority].
    rewrite zero_counters_lookup. by destruct (in_list x PRIORITIES).
Qed.

Lemma count_if_le {A} (f : A -> bool) l : count_if f l <= List.length l.
Proof.
  induction l as [|x l IH]; [done|]. rewrite count_if_cons. cbn [List.length].
  destruct (f x); cbn [Nat.b2n]; lia.
Qed.

Lemma is_string_one_status v :
  Nat.b2n (is_string "new" v) + (Nat.b2n (is_string "acknowledged" v)
  + (Nat.b2n (is_string "in_progress" v) + (Nat.b2n (is_string "resolved" v)
  + (Nat.b2n (is_string "closed" v) + (Nat.b2n (is_string "rejected" v) + 0)))))
  = Nat.b2n (existsb (fun x => is_string x v) STATUSES).
Proof.
  destruct v as [[ | b | n | s | l | kv ]|]; try reflexivity.
  unfold STATUSES. cbn [existsb is_string].
  repeat match goal with
         | |- context [String.eqb s ?x] =>
             destruct (String.eqb_spec s x) as [->|?]; [reflexivity|]
         end.
  reflexivity.
Qed.

Lemma is_string_one_priority v :
  Nat.b2n (is_string "low" v) + (Nat.b2n (is_string "medium" v)
  + (Nat.b2n (is_string "high" v) + (Nat.b2n (is_string "critical" v) + 0)))
  = Nat.b2n (existsb (fun x => is_string x v) PRIORITIES).
Proof.
  destruct v as [[ | b | n | s | l | kv ]|]; try reflexivity.
  unfold PRIORITIES. cbn [existsb is_string].
  repeat match goal with
         | |- context [String.eqb s ?x] =>
             destruct (String.eqb_spec s x) as [->|?]; [reflexivity|]
         end.
  reflexivity.
Qed.

Lemma sum_status_counts l :
  count_if (counts_status "new") l + (count_if (counts_status "acknowledged") l
  + (count_if (counts_status "in_progress") l
  + (count_if (counts_status "resolved") l
  + (count_if (counts_status "closed") l
  + (count_if (counts_status "rejected") l + 0)))))
  = count_if known_status l.
Proof.
  induction l as [|r l IH]; [done|]. rewrite !count_if_cons, <- IH.
  unfold known_status, counts_status.
  rewrite <- (is_string_one_status (status_of r)). lia.
Qed.

Lemma sum_priority_counts l :
  count_if (counts_priority "low") l + (count_if (counts_priority "medium") l
  + (count_if (counts_priority "high") l
  + (count_if (counts_priority "critical") l + 0)))
  = count_if known_priority l.
Proof.
  induction l as [|r l IH]; [done|]. rewrite !count_if_cons, <- IH.
  assert (H : Nat.b2n (known_priority r)
    = Nat.b2n (counts_priority "low" r) + (Nat.b2n (counts_priority "medium" r)
      + (Nat.b2n (counts_priority "high" r)
      + (Nat.b2n (counts_priority "critical" r) + 0)))).
  { unfold known_priority, counts_priority, PRIORITIES. cbn [existsb].
    destruct (hashable (status_of r)); cbn [andb orb]; [|reflexivity].
    rewrite (is_string_one_priority (priority_of r)). reflexivity. }
  rewrite H. lia.
Qed.

(** X14.  The counters of [get_feedback_stats] add up: the per-type
    counters sum to [total]; the per-status counters sum to the number of
    records whose status is one of the six, the per-priority counters to
    the number of records counted under one of the four priorities, and
    neither sum exceeds [total]. *)
Theorem get_feedback_stats_sums st :
  let s := get_feedback_stats st in
  sum_counters (by_type s) TYPES = total s
  /\ sum_counters (by_status s) STATUSES = count_if known_status (all_records st)
  /\ sum_counters (by_priority s) PRIORITIES
     = count_if known_priority (all_records st)
  /\ sum_counters (by_status s) STATUSES <= total s
  /\ sum_counters (by_priority s) PRIORITIES <= total s.
Proof.
  cbv zeta. destruct (stats_lookup st) as (Ht & Hty & Hs & Hp).
  assert (H1 : sum_counters (by_status (get_feedback_stats st)) STATUSES
               = count_if known_status (all_records st)).
  { unfold sum_counters, STATUSES. cbn [foldr]. rewrite !Hs.
    cbn [in_list existsb String.eqb Ascii.eqb Bool.eqb orb andb default id].
    apply sum_status_counts. }
  assert (H2 : sum_counters (by_priority (get_feedback_stats st)) PRIORITIES
               = count_if known_priority (all_records st)).
  { unfold sum_counters, PRIORITIES. cbn [foldr]. rewrite !Hp.
    cbn [in_list existsb String.eqb Ascii.eqb Bool.eqb orb andb default id].
    apply sum_priority_counts. }
  split.
  { rewrite Ht. unfold sum_counters, all_records, TYPES. cbn [foldr flat_map].
    rewrite !Hty.
    cbn [in_list existsb String.eqb Ascii.eqb Bool.eqb orb andb default id TYPES].
    rewrite !length_app. cbn [List.length]. lia. }
  split; [exact H1|]. split; [exact H2|].
  rewrite H1, H2, Ht. split; apply count_if_le.
Qed.

Lemma assoc_set_fresh {V} (l : list (string * V)) k v :
  k ∉ l.*1 -> assoc_set l k v = (l ++ [(k, v)])%list.
Proof.
  induction l as [|[k' v'] l IH]; cbn [assoc_set fmap list_fmap fst app]; [done|].
  intros Hk. apply not_elem_of_cons in Hk as [Hne Hk].
  destruct (String.eqb_spec k' k) as [->|_]; [done|]. by rewrite IH.
Qed.

Lemma file_record_write_ne st t name v st' t' name' :
  write_json st t name v = Ret st' -> (t', name') <> (t, name) ->
  file_record st' t' name' = file_record st t' name'.
Proof.
  intros Hw Hne. unfold file_record, read_json.
  by rewrite (file_at_write_ne _ _ _ _ _ _ _ Hw Hne).
Qed.

Lemma omap_file_record_write st t name v st' t' (names : list string) :
  write_json st t name v = Ret st' ->
  (t' = t -> name ∉ names) ->
  omap (file_record st' t') names = omap (file_record st t') names.
Proof.
  intros Hw. induction names as [|n names IH]; intros Hn; [done|].
  rewrite !omap_cons_eq.
  rewrite (file_record_write_ne _ _ _ _ _ t' n Hw).
  - rewrite IH; [done|]. intros E. specialize (Hn E).
    by apply not_elem_of_cons in Hn as [_ ?].
  - intros [= E1 E2]. specialize (Hn E1). apply Hn. rewrite E2. by left.
Qed.

Lemma readable_records_write_other st t name v st' t' :
  write_json st t name v = Ret st' -> t' <> t ->
  readable_records st' t' = readable_records st t'.
Proof.
  intros Hw Hne. unfold readable_records.
  assert (Hl : st' !! t' = st !! t').
  { unfold write_json in Hw. destruct (st !! t); [|discriminate].
    injection Hw as <-. by rewrite lookup_insert_ne. }
  rewrite Hl. destruct (st !! t'); [|done].
  by apply (omap_file_record_write _ _ _ _ _ _ _ Hw).
Qed.

Lemma readable_records_write_fresh st t name v st' :
  write_json st t name v = Ret st' ->
  path_exists st t name = false ->
  endswith name ".json" = true ->
  readable_records st' t = (readable_records st t ++ [v])%list.
Proof.
  intros Hw Hp He. unfold readable_records.
  pose proof (file_at_write_eq _ _ _ _ _ Hw) as Hf.
  destruct (st !! t) as [d|] eqn:Hd;
    [|unfold write_json in Hw; rewrite Hd in Hw; discriminate].
  assert (Hn : name ∉ map fst d).
  { apply assoc_get_None. unfold path_exists, file_at in Hp. rewrite Hd in Hp.
    cbn in Hp. by destruct (assoc_get d name). }
  assert (Hl : st' !! t = Some (d ++ [(name, Text v)])%list).
  { unfold write_json in Hw. rewrite Hd in Hw. injection Hw as <-.
    by rewrite lookup_insert_eq, (assoc_set_fresh _ _ _ Hn). }
  rewrite Hl, map_app, omap_app.
  rewrite (omap_file_record_write st t name v st' t (map fst d) Hw) by done.
  f_equal. cbn [map fst]. rewrite omap_cons_eq. unfold file_record.
  rewrite He. unfold read_json. by rewrite Hf.
Qed.

Lemma flat_map_readable_write (g : list json -> nat) st t name v st' types :
  (forall l1 l2, g (l1 ++ l2)%list = g l1 + g l2) ->
  write_json st t name v = Ret st' ->
  path_exists st t name = false ->
  endswith name ".json" = true ->
  NoDup types ->
  g (flat_map (readable_records st') types)
  = g (flat_map (readable_records st) types)
    + (if decide (t ∈ types) then g [v] else g []).
Proof.
  intros Hg Hw Hp He.
  assert (Hnil : g [] = 0).
  { pose proof (Hg [] []) as H. cbn [app] in H. lia. }
  induction types as [|u types IH]; intros Hnd.
  - cbn [flat_map]. destruct (decide (t ∈ [])) as [H|_]; [by apply elem_of_nil in H|lia].
  - apply NoDup_cons in Hnd as [Hu Hnd]. cbn [flat_map]. rewrite !Hg, (IH Hnd).
    destruct (decide (u = t)) as [->|Hne].
    + rewrite (readable_records_write_fresh _ _ _ _ _ Hw Hp He), Hg.
      destruct (decide (t ∈ types)); [done|].
      destruct (decide (t ∈ t :: types)) as [_|Hn]; [lia|].
      destruct Hn. by left.
    + rewrite (readable_records_write_other _ _ _ _ _ u Hw Hne).
      destruct (decide (t ∈ types)) as [Hin|Hout],
        (decide (t ∈ u :: types)) as [Hin'|Hout']; try lia.
      * destruct Hout'. by right.
      * apply elem_of_cons in Hin' as [?|?]; [by subst|done].
Qed.

(** X15.  A submission shows in the statistics: when the partitions are
    there and the partition of the (coerced) type has no file for the new
    id, [get_feedback_stats] after [submit_feedback] has [total] one
    higher, and the counters of the type, of the status [new] and of the
    (coerced) priority one higher; every other counter is as before. *)
Theorem get_feedback_stats_after_submit st feedback_type title description
    priority tags context uuid now1 now2 :
  let t := if in_list feedback_type TYPES then feedback_type else "other" in
  let p := if in_list priority PRIORITIES then priority else "medium" in
  let s := get_feedback_stats st in
  let s' := get_feedback_stats
              (submit_feedback st feedback_type title description priority
                 tags context uuid now1 now2).2 in
  initialised st ->
  path_exists st t (json_name uuid) = false ->
  total s' = S (total s)
  /\ by_type s' = alter S t (by_type s)
  /\ by_status s' = alter S "new" (by_status s)
  /\ by_priority s' = alter S p (by_priority s).
Proof.
  intros t p s s' Hi Hp.
  assert (Ht : t ∈ TYPES).
  { unfold t. destruct (in_list feedback_type TYPES) eqn:E;
      [by apply in_list_elem_of|apply TYPES_other]. }
  pose proof (submit_feedback_written st feedback_type title description
                priority tags context uuid now1 now2) as Hw.
  cbv zeta in Hw. fold t in Hw. fold p in Hw.
  destruct (Hw (Hi t Ht))
    as (st' & kv & Hs & Hwr & _ & _ & _ & _ & Hpr & _ & _ & Hst & _).
  unfold s'. rewrite Hs. cbn [snd]. clear Hw.
  assert (Hall : forall g : list json -> nat,
    (forall l1 l2, g (l1 ++ l2)%list = g l1 + g l2) ->
    g (all_records st') = g (all_records st) + g [JObj kv]).
  { intros g Hg. unfold all_records.
    rewrite (flat_map_readable_write g st t _ _ st' TYPES Hg Hwr Hp
               (endswith_json_name uuid) NoDup_TYPES).
    by destruct (decide (t ∈ TYPES)). }
  destruct (stats_lookup st) as (Ht0 & Hty0 & Hs0 & Hp0).
  destruct (stats_lookup st') as (Ht1 & Hty1 & Hs1 & Hp1).
  unfold s. split.
  { rewrite Ht1, Ht0, (Hall (@List.length json)) by apply length_app.
    cbn [List.length]. lia. }
  split.
  { apply map_eq. intros x. rewrite lookup_alter_S, Hty1, Hty0.
    destruct (in_list x TYPES); [|done]. cbn [fmap option_fmap option_map].
    f_equal. destruct (String.eqb_spec t x) as [<-|Hne].
    - rewrite (readable_records_write_fresh _ _ _ _ _ Hwr Hp
                 (endswith_json_name uuid)), length_app. reflexivity.
    - rewrite (readable_records_write_other _ _ _ _ _ x Hwr) by done.
      cbn [Nat.b2n]. lia. }
  split.
  { apply map_eq. intros x. rewrite lookup_alter_S, Hs1, Hs0.
    destruct (in_list x STATUSES); [|done]. cbn [fmap option_fmap option_map].
    f_equal. rewrite (Hall (count_if (counts_status x)))
      by apply count_if_app.
    f_equal. rewrite count_if_cons. unfold counts_status, status_of.
    rewrite Hst. cbn [default id is_string count_if List.filter List.length].
    rewrite String.eqb_sym. lia. }
  apply map_eq. intros x. rewrite lookup_alter_S, Hp1, Hp0.
  destruct (in_list x PRIORITIES); [|done]. cbn [fmap option_fmap option_map].
  f_equal. rewrite (Hall (count_if (counts_priority x)))
    by apply count_if_app.
  f_equal. rewrite count_if_cons. unfold counts_priority, status_of, priority_of.
  rewrite Hst, Hpr.
  cbn [default id is_string hashable andb count_if List.filter List.length].
  rewrite String.eqb_sym. lia.
Qed.

Lemma get_feedback_stats_after_submit_witness :
  let s := get_feedback_stats store_a1 in
  let s' := get_feedback_stats
              (submit_feedback store_a1 "bogus" "T" "D" "urgent" None None
                 "u2" "n1" "n2").2 in
  total s' = S (total s)
  /\ by_type s' = alter S "other" (by_type s)
  /\ by_status s' = alter S "new" (by_status s)
  /\ by_priority s' = alter S "medium" (by_priority s).
Proof.
  apply (get_feedback_stats_after_submit store_a1 "bogus" "T" "D" "urgent"
           None None "u2" "n1" "n2").
  - intros t Ht. repeat (apply elem_of_cons in Ht as [->|Ht];
                         [vm_compute; by eexists|]).
    by apply elem_of_nil in Ht.
  - reflexivity.
Defined.

(** * import_feedback: what it keeps and what it counts *)

Lemma files_count_write_fresh st t name v st1 :
  write_json st t name v = Ret st1 -> t ∈ TYPES ->
  path_exists st t name = false ->
  files_count st1 = S (files_count st).
Proof.
  intros Hw Ht Hp. unfold files_count.
  unfold write_json in Hw. destruct (st !! t) as [d|] eqn:Hd; [|discriminate].
  assert (Hn : name ∉ d.*1).
  { apply assoc_get_None. unfold path_exists, file_at in Hp. rewrite Hd in Hp.
    cbn in Hp. by destruct (assoc_get d name). }
  injection Hw as <-. rewrite (assoc_set_fresh _ _ _ Hn).
  assert (H : forall types : list string, NoDup types ->
    List.length (flat_map (fun t' => default [] (<[t := (d ++ [(name, Text v)])%list]> st !! t')) types)
    = List.length (flat_map (fun t' => default [] (st !! t')) types)
      + (if decide (t ∈ types) then 1 else 0)).
  { induction types as [|u types IH]; intros Hnd.
    - cbn [flat_map List.length].
      destruct (decide (t ∈ [])) as [H|_]; [by apply elem_of_nil in H|lia].
    - apply NoDup_cons in Hnd as [Hu Hnd]. cbn [flat_map].
      rewrite !length_app, (IH Hnd).
      destruct (decide (u = t)) as [->|Hne].
      + rewrite lookup_insert_eq, Hd. cbn [default id]. rewrite length_app.
        cbn [List.length].
        destruct (decide (t ∈ types)); [done|].
        destruct (decide (t ∈ t :: types)) as [_|Hx]; [lia|].
        destruct Hx. by left.
      + rewrite lookup_insert_ne by done.
        destruct (decide (t ∈ types)) as [Hin|Hout],
          (decide (t ∈ u :: types)) as [Hin'|Hout']; try lia.
        * destruct Hout'. by right.
        * apply elem_of_cons in Hin' as [?|?]; [by subst|done]. }
  rewrite (H TYPES NoDup_TYPES). destruct (decide (t ∈ TYPES)); [lia|done].
Qed.

Section import_more.
Variable py_repr : json -> string.

Lemma import_one_keeps st fd st1 b :
  sound st ->
  import_one py_repr st fd = Ret (st1, b) ->
  sound st1
  /\ (forall t name f, t ∈ TYPES -> file_at st t name = Some f ->
                       file_at st1 t name = Some f).
Proof.
  intros Hs H.
  destruct (import_one_cases py_repr st fd)
    as [[e He]|[He|(kv & idv & t & st2 & -> & Hid & Hidt & Hty & Ht & Hex & Hw & He)]];
    rewrite He in H; try done.
  - by injection H as <- <-.
  - injection H as <- <-. split.
    + eapply sound_write; [done| |done].
      destruct kv; [|done]. simpl in Hid. injection Hid as <-. done.
    + intros t' name f Ht' Hf.
      rewrite (file_at_write_ne _ _ _ _ _ t' name Hw); [done|].
      intros [= -> ->].
      pose proof (sound_get_feedback_falsy _ _ Hs Hex t Ht') as Hp.
      unfold path_exists in Hp. by rewrite Hf in Hp.
Qed.

Lemma import_loop_keeps l : forall st c r st',
  sound st ->
  import_loop py_repr st l c = (r, st') ->
  forall t name f, t ∈ TYPES -> file_at st t name = Some f ->
                   file_at st' t name = Some f.
Proof.
  induction l as [|fd l IH]; intros st c r st' Hs H; cbn [import_loop] in H.
  - by injection H as <- <-.
  - destruct (import_one py_repr st fd) as [[st1 b]|e] eqn:E.
    + destruct (import_one_keeps _ _ _ _ Hs E) as [Hs1 Hk].
      intros t name f Ht Hf. eapply IH; eauto.
    + by injection H as <- <-.
Qed.

(** X16.  An import is additive: on a tree whose partition files all load
    as values that are true, whatever document with plain ids and types
    is imported, every file that a partition held before is there
    afterwards with its content unchanged. *)
Theorem import_feedback_keeps_files st input t name f :
  plain_document py_repr input = true ->
  sound st ->
  t ∈ TYPES ->
  file_at st t name = Some f ->
  file_at (import_feedback py_repr st input).2 t name = Some f.
Proof.
  intros _ Hs Ht Hf. unfold import_feedback.
  destruct input as [import_data|]; [|done].
  destruct (py_get_default import_data "feedback" (JArr []))
    as [[ | | | | feedback_list | ]|]; try done.
  destruct (import_loop py_repr st feedback_list 0) as [r st'] eqn:E.
  pose proof (import_loop_keeps _ _ _ _ _ Hs E t name f Ht Hf).
  by destruct r.
Qed.

Lemma import_one_count st fd st1 b :
  sound st -> only_partitions st ->
  import_one py_repr st fd = Ret (st1, b) ->
  files_count st1 = files_count st + Nat.b2n b.
Proof.
  intros Hs Ho H.
  destruct (import_one_cases py_repr st fd)
    as [[e He]|[He|(kv & idv & t & st2 & -> & Hid & Hidt & Hty & Ht & Hex & Hw & He)]];
    rewrite He in H; try done.
  - injection H as <- <-. cbn [Nat.b2n]. lia.
  - injection H as <- <-. cbn [Nat.b2n].
    assert (Hin : t ∈ TYPES).
    { apply Ho. unfold write_json in Hw. destruct (st !! t); [by eexists|done]. }
    rewrite (files_count_write_fresh _ _ _ _ _ Hw Hin); [lia|].
    by apply (sound_get_feedback_falsy _ _ Hs Hex).
Qed.

Lemma import_loop_count l : forall st c r st',
  sound st -> only_partitions st ->
  import_loop py_repr st l c = (r, st') ->
  exists k, files_count st' = files_count st + k
            /\ forall n, r = Ret n -> n = c + k.
Proof.
  induction l as [|fd l IH]; intros st c r st' Hs Ho H; cbn [import_loop] in H.
  - injection H as <- <-. exists 0. split; [lia|]. intros n [= <-]. lia.
  - destruct (import_one py_repr st fd) as [[st1 b]|e] eqn:E.
    + destruct (import_one_extends _ _ _ _ _ Hs Ho E) as (Hs1 & Ho1 & _).
      pose proof (import_one_count _ _ _ _ Hs Ho E) as Hc.
      destruct (IH _ _ _ _ Hs1 Ho1 H) as (k & Hk & Hn).
      exists (Nat.b2n b + k). split; [lia|].
      intros n Hr. specialize (Hn n Hr). destruct b; cbn [Nat.b2n] in *; lia.
    + injection H as <- <-. exists 0. split; [lia|]. intros n [=].
Qed.

(** X17.  An import never reports more than it wrote: on a tree with the
    five partitions only, whose files all load as values that are true,
    and for a document with plain ids and types, the number of partition
    files grows by at least the count that [import_feedback] returns, and
    never shrinks. *)
Theorem import_feedback_count_bound st input :
  plain_document py_repr input = true ->
  sound st -> only_partitions st ->
  files_count st + (import_feedback py_repr st input).1
  <= files_count (import_feedback py_repr st input).2.
Proof.
  intros _ Hs Ho. unfold import_feedback.
  destruct input as [import_data|]; [|cbn [fst snd]; lia].
  destruct (py_get_default import_data "feedback" (JArr []))
    as [[ | | | | feedback_list | ]|]; try (cbn [fst snd]; lia).
  destruct (import_loop py_repr st feedback_list 0) as [r st'] eqn:E.
  destruct (import_loop_count _ _ _ _ _ Hs Ho E) as (k & Hk & Hn).
  destruct r as [n|e]; cbn [fst snd].
  - rewrite (Hn n eq_refl). lia.
  - lia.
Qed.

Lemma import_loop_app l1 l2 : forall st c,
  import_loop py_repr st (l1 ++ l2) c
  = match import_loop py_repr st l1 c with
    | (Ret c', st') => import_loop py_repr st' l2 c'
    | (Raise e, st') => (Raise e, st')
    end.
Proof.
  induction l1 as [|fd l1 IH]; intros st c; cbn [app import_loop]; [done|].
  destruct (import_one py_repr st fd) as [[st1 b]|e]; [apply IH|done].
Qed.

(** X18.  A candidate that is not a dictionary ends the import and
    zeroes its count: the result is 0 whatever was imported before, the
    records before the candidate stay written as an import of them alone
    leaves them, and the candidates after it are not looked at. *)
Theorem import_feedback_stops_at_non_record st before bad after :
  (forall kv, bad <> JObj kv) ->
  import_feedback py_repr st
    (Text (JObj [("feedback", JArr (before ++ bad :: after))]))
  = (0, (import_feedback py_repr st
           (Text (JObj [("feedback", JArr before)]))).2).
Proof.
  intros Hb. unfold import_feedback.
  cbn [py_get_default assoc_get String.eqb Ascii.eqb Bool.eqb default id].
  rewrite import_loop_app.
  destruct (import_loop py_repr st before 0) as [[c'|e] st'];
    cbn [import_loop snd]; [|done].
  assert (H : import_one py_repr st' bad = Raise AttributeError).
  { destruct bad as [ | b | n | s | l | kv ]; try reflexivity.
    by destruct (Hb kv). }
  by rewrite H.
Qed.
End import_more.

Lemma canonical_sound st : canonical st -> sound st.
Proof.
  intros [Hc _] t name f Ht Hf.
  destruct (Hc t name f Ht Hf) as (sid & kv & _ & -> & Hr & _).
  exists (JObj kv). split; [done|]. destruct kv; [discriminate Hr|done].
Qed.

Lemma only_partitions_store_three : only_partitions store_three.
Proof.
  intros t [d Hd]. unfold store_three in Hd.
  destruct (decide (t = "issue")) as [->|H1]; [apply in_list_elem_of; reflexivity|].
  rewrite lookup_insert_ne in Hd by done.
  destruct (decide (t = "question")) as [->|H2];
    [apply in_list_elem_of; reflexivity|].
  rewrite lookup_insert_ne in Hd by done.
  destruct (decide (t = "other")) as [->|H3];
    [apply in_list_elem_of; reflexivity|].
  rewrite lookup_insert_ne in Hd by done.
  rewrite empty_store_lookup in Hd.
  destruct (in_list t TYPES) eqn:E; [by apply in_list_elem_of|discriminate].
Qed.

Lemma import_feedback_keeps_files_witness :
  file_at
    (import_feedback (fun _ => "") store_three
       (Text (JObj [("feedback",
                     JArr [sample_record "a1" "issue" "closed" "low" []
                             "2024-03-01T10:00:00"])]))).2
    "issue" "a1.json"
  = Some (Text rec_a1).
Proof.
  apply (import_feedback_keeps_files (fun _ => "") store_three).
  - reflexivity.
  - apply canonical_sound, canonical_store_three.
  - apply in_list_elem_of. reflexivity.
  - reflexivity.
Defined.

Lemma import_feedback_count_bound_witness :
  files_count store_three
  + (import_feedback (fun _ => "") store_three
       (Text (JObj [("feedback",
                     JArr [sample_record "d4" "issue" "new" "low" []
                             "2024-03-01T10:00:00"])]))).1
  <= files_count
       (import_feedback (fun _ => "") store_three
          (Text (JObj [("feedback",
                        JArr [sample_record "d4" "issue" "new" "low" []
                                "2024-03-01T10:00:00"])]))).2.
Proof.
  apply (import_feedback_count_bound (fun _ => "") store_three).
  - reflexivity.
  - apply canonical_sound, canonical_store_three.
  - apply only_partitions_store_three.
Defined.

Lemma import_feedback_stops_at_non_record_witness :
  import_feedback (fun _ => "") empty_store
    (Text (JObj [("feedback", JArr ([rec_a1] ++ JStr "x" :: [rec_b2]))]))
  = (0, (import_feedback (fun _ => "") empty_store
           (Text (JObj [("feedback", JArr [rec_a1])]))).2)
  /\ import_feedback (fun _ => "") empty_store
       (Text (JObj [("feedback", JArr [rec_a1])]))
     = (1, <["issue" := [("a1.json", Text rec_a1)]]> empty_store).
Proof.
  split; [|reflexivity].
  apply (import_feedback_stops_at_non_record (fun _ => "") empty_store
           [rec_a1] (JStr "x") [rec_b2]).
  discriminate.
Defined.

(** * cleanup_old_feedback: a second run, and the statistics *)

Lemma list_filter_idem {A} (f : A -> bool) l :
  List.filter f (List.filter f l) = List.filter f l.
Proof.
  induction l as [|x l IH]; [done|]. cbn [List.filter].
  destruct (f x) eqn:E; [|done]. cbn [List.filter]. by rewrite E, IH.
Qed.

Lemma count_if_none {A} (f : A -> bool) l :
  (forall x, In x l -> f x = false) -> count_if f l = 0.
Proof.
  induction l as [|x l IH]; intros H; [done|]. rewrite count_if_cons.
  rewrite (H x) by (by left). rewrite IH; [done|].
  intros y Hy. apply H. by right.
Qed.

Lemma assoc_get_elem_NoDup {V} (l : list (string * V)) k v :
  NoDup l.*1 -> (k, v) ∈ l -> assoc_get l k = Some v.
Proof.
  induction l as [|[k' v'] l IH]; intros Hnd Hin; [by apply elem_of_nil in Hin|].
  cbn [fmap list_fmap fst] in Hnd. apply NoDup_cons in Hnd as [Hk Hnd].
  cbn [assoc_get]. apply elem_of_cons in Hin as [[= -> ->]|Hin].
  - by rewrite String.eqb_refl.
  - destruct (String.eqb_spec k' k) as [->|_]; [|by apply IH].
    destruct Hk. apply list_elem_of_fmap. by exists (k, v).
Qed.

Section cleanup_more.
Variable fp : float_ops.
Variables (cutoff_date : float fp) (status : option string).

Lemma swept_lookup st t :
  swept fp cutoff_date status st TYPES !! t
  = if decide (t ∈ TYPES)
    then kept fp cutoff_date status <$> st !! t
    else st !! t.
Proof.
  destruct (decide (t ∈ TYPES)).
  - by apply swept_lookup_in; [apply NoDup_TYPES|].
  - by apply swept_lookup_notin.
Qed.

Lemma well_formed_swept st :
  well_formed st -> well_formed (swept fp cutoff_date status st TYPES).
Proof.
  intros Hwf t d' Hd'. rewrite swept_lookup in Hd'.
  destruct (decide (t ∈ TYPES)); [|by apply (Hwf t d')].
  destruct (st !! t) as [d|] eqn:Hd; [|discriminate].
  injection Hd' as <-. apply filter_names_NoDup. by apply (Hwf t d).
Qed.

Lemma swept_swept st :
  swept fp cutoff_date status
    (swept fp cutoff_date status st TYPES) TYPES
  = swept fp cutoff_date status st TYPES.
Proof.
  apply map_eq. intros t. rewrite !swept_lookup.
  destruct (decide (t ∈ TYPES)); [|done].
  destruct (st !! t) as [d|]; [|done]. cbn [fmap option_fmap option_map].
  f_equal. apply list_filter_idem.
Qed.

Lemma eligible_count_swept st :
  eligible_count fp cutoff_date status
    (swept fp cutoff_date status st TYPES) TYPES = 0.
Proof.
  unfold eligible_count. apply count_if_none. intros p Hp.
  apply in_flat_map in Hp as (t & Ht & Hp). apply list_elem_of_In in Ht.
  rewrite swept_lookup in Hp. destruct (decide (t ∈ TYPES)); [|done].
  destruct (st !! t) as [d|]; [|done].
  cbn [fmap option_fmap option_map default id] in Hp.
  unfold kept in Hp. apply filter_In in Hp as [_ Hp].
  by apply negb_true_iff in Hp.
Qed.

Lemma readable_records_swept st t :
  well_formed st -> t ∈ TYPES ->
  List.length (readable_records
                 (swept fp cutoff_date status st TYPES) t)
  + count_if (eligible fp true cutoff_date status)
      (default [] (st !! t))
  = List.length (readable_records st t).
Proof.
  intros Hwf Ht. unfold readable_records. rewrite swept_lookup.
  destruct (decide (t ∈ TYPES)); [|done].
  destruct (st !! t) as [d|] eqn:Hd; [|done].
  cbn [fmap option_fmap option_map default id].
  assert (H : forall l : dir,
    (forall n f, (n, f) ∈ l -> assoc_get d n = Some f) ->
    List.length (omap (file_record
                         (swept fp cutoff_date status st TYPES) t)
                   (map fst (kept fp cutoff_date status l)))
    + count_if (eligible fp true cutoff_date status) l
    = List.length (omap (file_record st t) (map fst l))).
  { induction l as [|[n f] l IH]; intros Hl; [done|].
    assert (Hf : file_at st t n = Some f).
    { unfold file_at. rewrite Hd. apply Hl. by left. }
    assert (IH' := IH (fun n' f' Hin => Hl n' f' (list_elem_of_further _ _ _ Hin))).
    rewrite count_if_cons. unfold kept in *. cbn [List.filter map fst].
    rewrite omap_cons_eq.
    destruct (eligible fp true cutoff_date status (n, f)) eqn:E;
      cbn [negb Nat.b2n].
    - unfold eligible in E. cbn [fst snd] in E.
      apply andb_true_iff in E as [E1 E2].
      destruct f as [[ | | | | | kv]|]; try discriminate.
      assert (Hfr : file_record st t n = Some (JObj kv)).
      { unfold file_record, read_json. by rewrite E1, Hf. }
      rewrite Hfr. cbn [List.length]. lia.
    - cbn [map fst]. rewrite omap_cons_eq.
      assert (Hfr : file_record
                      (swept fp cutoff_date status st TYPES) t n
                    = file_record st t n).
      { unfold file_record, read_json. rewrite (file_at_swept _ _ _ _ _ _ Hwf), Hf, E.
        by rewrite andb_false_r. }
      rewrite Hfr. destruct (file_record st t n); cbn [List.length]; lia. }
  apply H. intros n f Hin. apply assoc_get_elem_NoDup; [by apply (Hwf t d)|done].
Qed.

Lemma all_records_swept st (types : list string) :
  well_formed st -> (forall t, t ∈ types -> t ∈ TYPES) ->
  List.length (flat_map (readable_records
                           (swept fp cutoff_date status st TYPES))
                 types)
  + eligible_count fp cutoff_date status st types
  = List.length (flat_map (readable_records st) types).
Proof.
  intros Hwf. unfold eligible_count.
  induction types as [|t types IH]; intros Hsub; [done|].
  cbn [flat_map]. rewrite count_if_app, !length_app.
  pose proof (readable_records_swept st t Hwf (Hsub t ltac:(by left))) as H1.
  pose proof (IH (fun t' Hin => Hsub t' (list_elem_of_further _ _ _ Hin))) as H2.
  lia.
Qed.
End cleanup_more.

(** X19.  A second cleanup with the same retention, status filter and
    clock reading finds nothing to remove: it returns 0 and leaves the
    tree of the first cleanup as it is (and raises as the first did, when
    the first raised). *)
Theorem cleanup_old_feedback_twice fp st days status now :
  well_formed st ->
  let first := cleanup_old_feedback fp st days status now in
  cleanup_old_feedback fp first.2 days status now
  = (match first.1 with Ret _ => Ret 0 | Raise e => Raise e end, first.2).
Proof.
  intros Hwf first. unfold first.
  destruct (float_sub_int fp now (days * seconds_per_day))
    as [cutoff_date|] eqn:Hc.
  - rewrite (cleanup_old_feedback_swept _ _ _ _ _ _ Hwf Hc). cbn [fst snd].
    rewrite (cleanup_old_feedback_swept _ _ _ _ _ cutoff_date)
      by (done || by apply well_formed_swept).
    by rewrite eligible_count_swept, swept_swept.
  - unfold cleanup_old_feedback. by rewrite Hc.
Qed.

Lemma cleanup_old_feedback_twice_witness :
  let first := cleanup_old_feedback sample_floats store_three 30 None
                 sample_now in
  first.1 = Ret 2
  /\ cleanup_old_feedback sample_floats first.2 30 None sample_now
     = (Ret 0, first.2).
Proof.
  intros first. split; [reflexivity|].
  apply (cleanup_old_feedback_twice sample_floats store_three 30 None
           sample_now).
  apply well_formed_store_three.
Defined.

(** X20.  The statistics follow a cleanup: on a tree whose directories
    list no name twice, the [total] of [get_feedback_stats] after
    [cleanup_old_feedback] is the [total] before it less the count that
    the cleanup returns (and the tree is as before when the cleanup
    raises). *)
Theorem get_feedback_stats_after_cleanup fp st days status now :
  well_formed st ->
  let res := cleanup_old_feedback fp st days status now in
  match res.1 with
  | Ret n =>
      total (get_feedback_stats res.2) + n = total (get_feedback_stats st)
  | Raise _ => res.2 = st
  end.
Proof.
  intros Hwf res. unfold res.
  destruct (float_sub_int fp now (days * seconds_per_day))
    as [cutoff_date|] eqn:Hc.
  - rewrite (cleanup_old_feedback_swept _ _ _ _ _ _ Hwf Hc). cbn [fst snd].
    destruct (stats_lookup st) as (-> & _).
    destruct (stats_lookup (swept fp cutoff_date status st TYPES)) as (-> & _).
    by apply all_records_swept.
  - unfold cleanup_old_feedback. by rewrite Hc.
Qed.

Lemma get_feedback_stats_after_cleanup_witness :
  let res := cleanup_old_feedback sample_floats store_three 30 None
               sample_now in
  total (get_feedback_stats store_three) = 3
  /\ res.1 = Ret 2
  /\ total (get_feedback_stats res.2) + 2 = total (get_feedback_stats store_three).
Proof.
  intros res. split; [reflexivity|]. split; [reflexivity|].
  apply (get_feedback_stats_after_cleanup sample_floats store_three 30 None
           sample_now).
  apply well_formed_store_three.
Defined.

(** * main: the update and import commands *)

Lemma locate_init st feedback_id types :
  locate (init st) feedback_id types = locate st feedback_id types.
Proof.
  induction types as [|t types IH]; [done|]. cbn [locate].
  by rewrite path_exists_init, IH.
Qed.

Lemma add_arg_given updates key arg :
  add_arg updates key arg
  = match given arg with
    | Some s => assoc_set updates key (JStr s)
    | None => updates
    end.
Proof.
  unfold add_arg, given. destruct arg as [s|]; [|done].
  by destruct (String.eqb s "").
Qed.

(** X21.  The [update] command of [main] on a record that is filed under
    its own type.  A [--status] or [--priority] outside its choices ends
    the run with status 2 before anything is built or written.  Otherwise:
    with none of the four options given (or given as the empty string) it
    prints an error, exits with status 1 and writes no record; with one
    given it exits with status 0, and the record that [get_feedback] then
    returns has the given options as its [status], [priority], [title]
    and [description], the clock reading as [updated_at], and every other
    field, also those of the options left out, as before. *)
Theorem main_update_fields st id status priority title description now kv t :
  locate st id TYPES = Some t ->
  file_at st t (json_name id) = Some (Text (JObj kv)) ->
  assoc_get kv "type" = Some (JStr t) ->
  let args := [("status", status); ("priority", priority);
               ("title", title); ("description", description)] in
  let accepted :=
    in_choices status STATUSES && in_choices priority PRIORITIES in
  (accepted = false ->
     main_update st id status priority title description now
     = (Ret (2%Z, []), st))
  /\ (accepted = true ->
      Forall (fun a => given a.2 = None) args ->
      main_update st id status priority title description now
      = (Ret (1%Z, ["Error: No updates specified"]), init st))
  /\ (accepted = true ->
      Exists (fun a => given a.2 <> None) args ->
      exists st' kv',
        main_update st id status priority title description now
        = (Ret (0%Z, ["Feedback " ++ id ++ " updated successfully"]), st')
        /\ get_feedback st' id = JObj kv'
        /\ Forall (fun a => assoc_get kv' a.1
                            = match given a.2 with
                              | Some s => Some (JStr s)
                              | None => assoc_get kv a.1
                              end) args
        /\ assoc_get kv' "updated_at" = Some (JStr now)
        /\ forall k, k ∉ args.*1 -> k <> "updated_at" ->
                     assoc_get kv' k = assoc_get kv k).
Proof.
  intros Hl Hf Ht args accepted. unfold args, accepted.
  rewrite <- (locate_init st) in Hl. rewrite <- (file_at_init st) in Hf.
  unfold main_update. cbv zeta. rewrite !add_arg_given.
  destruct (in_choices status STATUSES && in_choices priority PRIORITIES);
    cbn [negb].
  2:{ split; [done|]. split; intros [=]. }
  split; [intros [=]|]. split; intros _.
  - intros Ha. rewrite !Forall_cons in Ha. cbn [snd] in Ha.
    destruct Ha as (-> & -> & -> & -> & _). reflexivity.
  - intros He.
    assert (Hsome : ~ (given status = None /\ given priority = None
                       /\ given title = None /\ given description = None)).
    { intros (H1 & H2 & H3 & H4).
      rewrite !Exists_cons, Exists_nil in He. cbn [snd] in He. tauto. }
    clear He.
    destruct (given status) as [s1|] eqn:E1,
      (given priority) as [s2|] eqn:E2,
      (given title) as [s3|] eqn:E3,
      (given description) as [s4|] eqn:E4;
      try (by destruct Hsome);
      cbn [assoc_set String.eqb Ascii.eqb Bool.eqb];
      match goal with
      | |- context [update_feedback (init st) id ?u now] =>
          destruct (update_feedback_filed (init st) id u now kv t Hl Hf Ht)
            as (st' & kv' & Hu & Hg & Happ & Hup & Hkeep);
          [ apply (bool_decide_unpack _); vm_compute; exact I
          | (apply in_list_false; reflexivity)
          | rewrite Hu; exists st', kv';
            split; [reflexivity|];
            split; [exact Hg|];
            split;
            [ repeat apply Forall_cons_2; try apply Forall_nil_2; cbn [fst snd];
              rewrite ?E1, ?E2, ?E3, ?E4;
              first [ apply Happ; [(repeat first [ apply list_elem_of_here | apply list_elem_of_further ])|(apply in_list_false; reflexivity)]
                    | apply Hkeep; [(apply in_list_false; reflexivity)|discriminate] ]
            | split; [exact Hup|];
              intros k Hk Hne; apply Hkeep; [|exact Hne];
              intros Hin; apply Hk;
              cbn [fmap list_fmap fst] in *;
              repeat (apply elem_of_cons in Hin as [->|Hin]; [(repeat first [ apply list_elem_of_here | apply list_elem_of_further ])|]);
              by apply elem_of_nil in Hin ] ]
      end.
Qed.

Lemma main_update_fields_witness :
  main_update store_a1 "a1" (Some "bogus") None None None "n9"
  = (Ret (2%Z, []), store_a1)
  /\ main_update store_a1 "a1" None None (Some "") None "n9"
     = (Ret (1%Z, ["Error: No updates specified"]), init store_a1)
  /\ exists st' kv',
       main_update store_a1 "a1" (Some "resolved") None None (Some "Fixed") "n9"
       = (Ret (0%Z, ["Feedback a1 updated successfully"]), st')
       /\ get_feedback st' "a1" = JObj kv'
       /\ assoc_get kv' "status" = Some (JStr "resolved")
       /\ assoc_get kv' "priority" = Some (JStr "high")
       /\ assoc_get kv' "description" = Some (JStr "Fixed").
Proof.
  split; [|split].
  - apply (main_update_fields store_a1 "a1" (Some "bogus") None None None "n9"
             (sample_fields "a1" "issue" "new" "high" ["ui"] "2024-01-01T10:00:00")
             "issue"); reflexivity.
  - apply (main_update_fields store_a1 "a1" None None (Some "") None "n9"
             (sample_fields "a1" "issue" "new" "high" ["ui"] "2024-01-01T10:00:00")
             "issue"); try reflexivity.
    repeat apply Forall_cons_2; try apply Forall_nil_2; reflexivity.
  - destruct (main_update_fields store_a1 "a1" (Some "resolved") None None
                (Some "Fixed") "n9"
                (sample_fields "a1" "issue" "new" "high" ["ui"]
                   "2024-01-01T10:00:00")
                "issue" eq_refl eq_refl eq_refl) as (_ & _ & H).
    destruct H as (st' & kv' & Hm & Hg & Ha & _).
    { reflexivity. }
    { apply Exists_cons_hd. discriminate. }
    exists st', kv'. split; [exact Hm|]. split; [exact Hg|].
    rewrite !Forall_cons in Ha. cbn [fst snd given String.eqb] in Ha.
    destruct Ha as (H1 & H2 & _ & H4 & _). auto.
Defined.

Section main_import_facts.
Variable py_repr : json -> string.

Lemma sound_init st : sound st -> sound (init st).
Proof. intros Hs t name f Ht Hf. rewrite file_at_init in Hf. eauto. Qed.

Lemma only_partitions_init st : only_partitions st -> only_partitions (init st).
Proof.
  intros Ho t Hs. rewrite init_lookup in Hs.
  destruct (decide (t ∈ TYPES)); [done|by apply Ho].
Qed.

Lemma import_loop_initialised l : forall st c r st',
  initialised st -> import_loop py_repr st l c = (r, st') -> initialised st'.
Proof.
  induction l as [|fd l IH]; intros st c r st' Hi H; cbn [import_loop] in H.
  - by injection H as <- <-.
  - destruct (import_one_cases py_repr st fd)
      as [[e He]|[He|(kv & idv & t & st2 & -> & _ & _ & _ & _ & _ & Hw & He)]];
      rewrite He in H.
    + by injection H as <- <-.
    + by apply (IH _ _ _ _ Hi H).
    + apply (IH _ _ _ _ (write_json_initialised _ _ _ _ _ Hw Hi) H).
Qed.

Lemma import_feedback_again st input :
  sound st -> only_partitions st -> initialised st ->
  let first := import_feedback py_repr st input in
  import_feedback py_repr first.2 input = (0, first.2) /\ initialised first.2.
Proof.
  intros Hs Ho Hi first. unfold first, import_feedback.
  destruct input as [import_data|]; [|done].
  destruct (py_get_default import_data "feedback" (JArr []))
    as [[ | | | | feedback_list | ]|]; cbn [snd]; try done.
  destruct (import_loop py_repr st feedback_list 0) as [r st'] eqn:E.
  pose proof (import_loop_again py_repr _ _ _ _ _ 0 Hs Ho E) as Ha.
  pose proof (import_loop_initialised _ _ _ _ _ Hi E) as Hi'.
  destruct r as [n|e]; cbn [snd]; by rewrite Ha.
Qed.

(** X22.  The [import] command of [main] run a second time on the same
    document imports nothing and reports failure: on a tree with the five
    partitions only, whose files all load as values that are true, and for
    a document with plain ids and types, the second run prints that no
    item was imported, exits with status 1 and leaves the tree of the
    first run as it is. *)
Theorem main_import_second_run st input :
  plain_document py_repr input = true ->
  sound st -> only_partitions st ->
  let first := main_import py_repr st input in
  main_import py_repr first.2 input
  = (Ret (1%Z, ["No feedback items imported"]), first.2).
Proof.
  intros _ Hs Ho first.
  destruct (import_feedback_again (init st) input (sound_init _ Hs)
              (only_partitions_init _ Ho) (init_initialised st)) as [Ha Hi].
  assert (Hf : first.2 = (import_feedback py_repr (init st) input).2).
  { unfold first, main_import.
    by destruct (import_feedback py_repr (init st) input) as [[|n] st1]. }
  rewrite Hf. unfold main_import at 1. cbv zeta.
  rewrite (init_of_initialised _ Hi). by rewrite Ha.
Qed.
End main_import_facts.

Lemma main_import_second_run_witness :
  let first :=
    main_import (fun _ => "") empty_store
      (Text (JObj [("feedback", JArr [rec_a1; rec_b2])])) in
  first.1 = Ret (0%Z, ["Imported 2 feedback items"])
  /\ main_import (fun _ => "") first.2
       (Text (JObj [("feedback", JArr [rec_a1; rec_b2])]))
     = (Ret (1%Z, ["No feedback items imported"]), first.2).
Proof.
  intros first. split; [reflexivity|].
  apply (main_import_second_run (fun _ => "") empty_store).
  - reflexivity.
  - apply sound_empty_store.
  - apply only_partitions_empty_store.
Defined.

(** * feedback_cli: the update command *)

Section feedback_cli_facts.
Variable py_repr : json -> string.

Lemma print_comments_app comments : forall out,
  exists more, (print_comments py_repr comments out).1 = (out ++ more)%list.
Proof.
  induction comments as [|c rest IH]; intros out; cbn [print_comments].
  - exists []. by rewrite app_nil_r.
  - destruct (comment_line py_repr c) as [line|e].
    + destruct (IH (out ++ [line])%list) as [more ->].
      exists (line :: more). by rewrite <- app_assoc.
    + exists []. by rewrite app_nil_r.
Qed.

Lemma print_issue_app kv out :
  let lines :=
    [newline ++ "Issue ID: "
       ++ py_str py_repr (default JNull (assoc_get kv "id"));
     "Title: " ++ py_str py_repr (default JNull (assoc_get kv "title"));
     "Status: " ++ py_str py_repr (default JNull (assoc_get kv "status"));
     "Priority: " ++ py_str py_repr (default JNull (assoc_get kv "priority"));
     "Created at: "
       ++ py_str py_repr (default JNull (assoc_get kv "created_at"))] in
  exists more,
    (print_issue py_repr (JObj kv) out).1 = (out ++ lines ++ more)%list.
Proof.
  intros lines. unfold print_issue. cbv zeta. fold lines.
  destruct (truthy (default (JArr []) (assoc_get kv "comments")));
    [|exists []; by rewrite app_nil_r].
  destruct (default (JArr []) (assoc_get kv "comments"))
    as [ | b | n | s | l | o ]; cbn [fst];
    try (exists ["Comments:"]; by rewrite !app_assoc).
  destruct (print_comments_app l ((out ++ lines) ++ ["Comments:"])%list)
    as [more ->].
  exists ("Comments:" :: more). by rewrite <- !app_assoc.
Qed.

(** X23.  The [update] command of the command-line script on a record
    that is filed under its own type.  A status outside the six is
    refused before the store is touched: two lines are printed and no
    file changes.  One of the six is stored: [get_feedback] afterwards
    returns the record with the new status and every field other than
    [status] and [updated_at] as before, the first line printed reports
    the update and the record is printed with the new status. *)
Theorem cli_update_status st issue_id new_status now kv t :
  locate st issue_id TYPES = Some t ->
  file_at st t (json_name issue_id) = Some (Text (JObj kv)) ->
  assoc_get kv "type" = Some (JStr t) ->
  let res := cli_update py_repr st issue_id new_status now in
  (new_status ∉ STATUSES ->
   res = ((["Invalid status: " ++ new_status;
            "Valid statuses: new, acknowledged, in_progress, resolved, closed, rejected"],
           None), init st))
  /\ (new_status ∈ STATUSES ->
      exists kv',
        get_feedback res.2 issue_id = JObj kv'
        /\ assoc_get kv' "status" = Some (JStr new_status)
        /\ (forall k, k <> "status" -> k <> "updated_at" ->
                      assoc_get kv' k = assoc_get kv k)
        /\ head res.1.1
           = Some ("Issue status updated to '" ++ new_status ++ "'")
        /\ "Status: " ++ new_status ∈ res.1.1).
Proof.
  intros Hl Hf Ht res. unfold res, cli_update. cbv zeta. split.
  - intros Hn. apply in_list_false in Hn. by rewrite Hn.
  - intros Hin. apply in_list_elem_of in Hin. rewrite Hin. cbn [negb].
    rewrite <- (locate_init st) in Hl. rewrite <- (file_at_init st) in Hf.
    destruct (update_feedback_filed (init st) issue_id
                [("status", JStr new_status)] now kv t Hl Hf Ht)
      as (st' & kv' & Hu & Hg & Happ & Hup & Hkeep).
    { apply (bool_decide_unpack _). vm_compute. exact I. }
    { apply in_list_false. reflexivity. }
    rewrite Hu, get_feedback_init, Hg.
    assert (Hst : assoc_get kv' "status" = Some (JStr new_status)).
    { apply Happ; [apply list_elem_of_here|apply in_list_false; reflexivity]. }
    assert (Htr : truthy (JObj kv') = true) by (destruct kv'; [discriminate Hst|done]).
    rewrite Htr. cbn [fst snd]. rewrite get_feedback_init.
    exists kv'. split; [exact Hg|]. split; [exact Hst|].
    split.
    { intros k H1 H2. apply Hkeep; [|done]. cbn [fmap list_fmap fst].
      intros Hk. by apply list_elem_of_singleton in Hk. }
    destruct (print_issue_app kv'
                ["Issue status updated to '" ++ new_status ++ "'"]) as [more ->].
    split; [reflexivity|].
    rewrite Hst. cbn [default id py_str app].
    do 3 apply list_elem_of_further. apply list_elem_of_here.
Qed.
End feedback_cli_facts.

Lemma cli_update_status_witness :
  (cli_update (fun _ => "") store_a1 "a1" "done" "n9").2 = init store_a1
  /\ exists kv',
       get_feedback (cli_update (fun _ => "") store_a1 "a1" "closed" "n9").2 "a1"
       = JObj kv'
       /\ assoc_get kv' "status" = Some (JStr "closed")
       /\ "Status: closed"
            ∈ (cli_update (fun _ => "") store_a1 "a1" "closed" "n9").1.1.
Proof.
  split.
  - destruct (cli_update_status (fun _ => "") store_a1 "a1" "done" "n9"
                (sample_fields "a1" "issue" "new" "high" ["ui"]
                   "2024-01-01T10:00:00")
                "issue" eq_refl eq_refl eq_refl) as [H _].
    rewrite H; [reflexivity|]. apply in_list_false. reflexivity.
  - destruct (cli_update_status (fun _ => "") store_a1 "a1" "closed" "n9"
                (sample_fields "a1" "issue" "new" "high" ["ui"]
                   "2024-01-01T10:00:00")
                "issue" eq_refl eq_refl eq_refl) as [_ H].
    destruct H as (kv' & Hg & Hs & _ & _ & Hp).
    { apply in_list_elem_of. reflexivity. }
    exists kv'. auto.
Defined.

(** * How the operations compose *)

(** X24.  [submit_feedback] touches one file only: whether it succeeds or
    not, every file other than the new record's is left as it was, and
    [get_feedback] returns for every other id what it returned before. *)
Theorem submit_feedback_frame st feedback_type title description priority tags
    context uuid now1 now2 :
  let t := if in_list feedback_type TYPES then feedback_type else "other" in
  let st' := (submit_feedback st feedback_type title description priority
                tags context uuid now1 now2).2 in
  (forall t' name, (t', name) <> (t, json_name uuid) ->
                   file_at st' t' name = file_at st t' name)
  /\ (forall other, other <> uuid ->
                    get_feedback st' other = get_feedback st other).
Proof.
  intros t st'. unfold st', submit_feedback. cbv zeta. fold t.
  destruct (write_json st t (json_name uuid) _) as [st1|e] eqn:Hw; cbn [snd];
    [|done].
  split.
  - intros t' name Hne. by apply (file_at_write_ne _ _ _ _ _ _ _ Hw).
  - intros other Hne. by apply (get_feedback_write_other _ _ _ _ _ _ Hw).
Qed.

(** X25.  A record that was just submitted is listed: when the partition
    of its type is there, an unfiltered [list_feedback] that returns, with
    a limit that the number of stored records does not exceed, contains
    the record that [submit_feedback] wrote. *)
Theorem submit_then_list st feedback_type title description priority tags
    context uuid now1 now2 limit results :
  let t := if in_list feedback_type TYPES then feedback_type else "other" in
  let st' := (submit_feedback st feedback_type title description priority
                tags context uuid now1 now2).2 in
  is_Some (st !! t) ->
  (Z.of_nat (List.length (all_records st')) <= limit)%Z ->
  list_feedback st' None None None None limit = Ret results ->
  exists kv,
    file_at st' t (json_name uuid) = Some (Text (JObj kv))
    /\ assoc_get kv "id" = Some (JStr uuid)
    /\ JObj kv ∈ results.
Proof.
  intros t st' Hd Hlim Hr.
  assert (Ht : t ∈ TYPES).
  { unfold t. destruct (in_list feedback_type TYPES) eqn:E;
      [by apply in_list_elem_of|apply TYPES_other]. }
  pose proof (submit_feedback_written st feedback_type title description
                priority tags context uuid now1 now2) as Hw.
  cbv zeta in Hw. fold t in Hw.
  destruct (Hw Hd) as (st1 & kv & Hs & Hwr & Hid & _).
  assert (E : st' = st1) by (unfold st'; by rewrite Hs). rewrite E in *.
  pose proof (file_at_write_eq _ _ _ _ _ Hwr) as Hf.
  exists kv. split; [exact Hf|]. split; [exact Hid|].
  assert (Hin : JObj kv ∈ all_records st1).
  { apply elem_of_all_records. exists t, (json_name uuid).
    split; [done|]. split; [apply endswith_json_name|done]. }
  assert (Hl : (1 <= limit)%Z).
  { destruct (all_records st1); [by apply elem_of_nil in Hin|].
    cbn [List.length] in Hlim. lia. }
  rewrite (list_feedback_perm _ _ _ _ _ _ _ Hl Hr).
  change (search_directories None) with TYPES.
  rewrite candidates_all_records, take_ge by lia. exact Hin.
Qed.

Lemma submit_then_list_witness :
  exists kv,
    file_at (submit_feedback store_three "issue" "Crash" "It crashes" "low" None None
               "u7" "2024-01-05T10:00:00" "2024-01-05T10:00:00").2
      "issue" (json_name "u7") = Some (Text (JObj kv))
    /\ assoc_get kv "id" = Some (JStr "u7")
    /\ JObj kv ∈ [sample_record "u7" "issue" "new" "low" []
                    "2024-01-05T10:00:00"
                  ; rec_b2; rec_a1; rec_c3].
Proof.
  apply (submit_then_list store_three "issue" "Crash" "It crashes" "low" None None
           "u7" "2024-01-05T10:00:00" "2024-01-05T10:00:00" 4).
  - vm_compute. by eexists.
  - vm_compute. discriminate.
  - vm_compute. reflexivity.
Defined.

Section import_same_store.
Variable py_repr : json -> string.

Lemma filed_by_id_truthy st t sid f :
  filed_by_id st -> t ∈ TYPES -> file_at st t (json_name sid) = Some f ->
  truthy (get_feedback st sid) = true.
Proof.
  intros Hc Ht Hf. unfold get_feedback. rewrite get_feedback_in_locate.
  destruct (locate st sid TYPES) as [p|] eqn:Hl.
  - apply locate_Some in Hl as [Hp He].
    apply path_exists_file_at in He as [f' Hf'].
    destruct (Hc p _ f' Hp Hf') as (sid' & kv & _ & -> & Hr & _).
    rewrite Hf'. destruct kv; [discriminate Hr|done].
  - pose proof (proj1 (locate_None _ _ _) Hl t Ht) as Hn.
    unfold path_exists in Hn. by rewrite Hf in Hn.
Qed.

Lemma import_loop_stored st l : forall c,
  filed_by_id st ->
  (forall r, r ∈ l -> r ∈ all_records st) ->
  import_loop py_repr st l c = (Ret c, st).
Proof.
  induction l as [|r l IH]; intros c Hc Hl; [done|]. cbn [import_loop].
  assert (Hr : r ∈ all_records st) by (apply Hl; by left).
  apply elem_of_all_records in Hr as (t & name & Ht & _ & Hf).
  destruct (Hc t name _ Ht Hf) as (sid & kv & -> & [= ->] & Hid & Hne & Hty & _).
  assert (H1 : import_one py_repr st (JObj kv) = Ret (st, false)).
  { unfold import_one. cbn [py_get bind]. rewrite Hid, Hty. cbn [default id].
    assert (T1 : truthy (JStr sid) = true).
    { cbn [truthy]. by destruct (String.eqb_spec sid ""). }
    assert (T2 : truthy (JStr t) = true).
    { cbn [truthy]. destruct (String.eqb_spec t "") as [E|_]; [|done].
      by destruct (TYPES_nonempty t Ht). }
    rewrite T1, T2. cbn [negb orb py_str].
    by rewrite (filed_by_id_truthy st t sid _ Hc Ht Hf). }
  rewrite H1. apply IH; [done|]. intros r' Hr'. apply Hl. by right.
Qed.

(** X26.  Importing an export back into the tree it was taken from does
    nothing: when every partition file is a record filed under its own id
    and type, the import of the document of any export of the tree returns
    0 and leaves the tree as it is. *)
Theorem import_of_own_export st feedback_type status now doc :
  filed_by_id st ->
  export_feedback st feedback_type status now = Ret doc ->
  import_feedback py_repr st (Text doc) = (0, st).
Proof.
  intros Hc He. unfold export_feedback in He.
  destruct (list_feedback st feedback_type status None None 1000)
    as [feedback_list|e] eqn:Hr; [|discriminate].
  cbn in He. injection He as <-.
  unfold import_feedback.
  cbn [py_get_default assoc_get String.eqb Ascii.eqb Bool.eqb default id].
  rewrite (import_loop_stored st feedback_list 0 Hc); [done|].
  intros r Hin.
  assert (Hl : (1 <= 1000)%Z) by lia.
  rewrite (list_feedback_perm _ _ _ _ _ _ _ Hl Hr) in Hin.
  apply elem_of_take in Hin as (i & Hin & _).
  apply list_elem_of_lookup_2 in Hin.
  apply elem_of_candidates in Hin as (t & d & name & Ht & Hd & Hn & Hend & Hrd & _).
  apply elem_of_all_records. exists t, name.
  split.
  { unfold search_directories in Ht.
    destruct feedback_type as [ft|]; [|done].
    destruct (String.eqb ft ""); [done|].
    destruct (in_list ft TYPES) eqn:E; [|done].
    apply list_elem_of_singleton in Ht as ->. by apply in_list_elem_of. }
  split; [done|].
  unfold read_json in Hrd. by destruct (file_at st t name) as [[v|]|]; simplify_eq.
Qed.
End import_same_store.

Lemma filed_by_id_store_three : filed_by_id store_three.
Proof. by destruct canonical_store_three as [H _]. Qed.

Lemma import_of_own_export_witness :
  import_feedback (fun _ => "") store_three
    (Text (JObj [("exported_at", JStr "n9");
                 ("total", JNum 2);
                 ("feedback", JArr [rec_a1; rec_c3])]))
  = (0, store_three).
Proof.
  apply (import_of_own_export (fun _ => "") store_three None (Some "new") "n9").
  - apply filed_by_id_store_three.
  - reflexivity.
Defined.
